(** * Trade Manager (chia/wallet/trade_manager.py)

    A shallow embedding of [TradeManager]: the trade store it drives, the
    on-ledger handler [coins_of_interest_farmed], the two cancellation
    operations, the offer builder [_create_offer_for_ids] and the matcher
    [respond_to_offer].

    Python's coroutines run on a single cooperative scheduler, so every
    method is a sequential program over the manager's world: it is embedded
    as a function from a [State] to a [Result] and a new [State].  An
    exception leaves the state as it was when it was raised. *)

From Stdlib Require Import List ZArith Bool Lia String Ascii.
From Stdlib.Strings Require Import Byte.
From Stdlib Require Import DecimalString.
Import ListNotations.
Open Scope string_scope.
Open Scope list_scope.
Open Scope Z_scope.

(** ** Bytes, integers and Python containers *)

Definition bytes := list byte.
Definition bytes32 := bytes.

Definition bytes_eqb (a b : bytes) : bool :=
  if list_eq_dec Byte.byte_eq_dec a b then true else false.

(** [x in xs] on a list of byte strings. *)
Definition bytes_in (x : bytes) (xs : list bytes) : bool := existsb (bytes_eqb x) xs.

(** An optional asset key: [None] is the base asset. *)
Definition asset_key := option bytes32.

Definition asset_key_eqb (a b : asset_key) : bool :=
  match a, b with
  | None, None => true
  | Some x, Some y => bytes_eqb x y
  | _, _ => false
  end.

(** A Python [dict] keeps its keys in insertion order and assigning to a key
    already present keeps that key's position: an association list with
    unique keys. *)
Section Dict.
Context {K V : Type} (eqb : K -> K -> bool).

Fixpoint dict_get (k : K) (d : list (K * V)) : option V :=
  match d with
  | [] => None
  | (k', v) :: d' => if eqb k k' then Some v else dict_get k d'
  end.

Fixpoint dict_set (k : K) (v : V) (d : list (K * V)) : list (K * V) :=
  match d with
  | [] => [(k, v)]
  | (k', v') :: d' => if eqb k k' then (k', v) :: d' else (k', v') :: dict_set k v d'
  end.

(** [d.setdefault(k, v)], for its effect on [d]. *)
Definition dict_setdefault (k : K) (v : V) (d : list (K * V)) : list (K * V) :=
  match dict_get k d with
  | Some _ => d
  | None => d ++ [(k, v)]
  end.
End Dict.

Definition dict_values {K V : Type} (d : list (K * V)) : list V := map snd d.
Definition dict_keys {K V : Type} (d : list (K * V)) : list K := map fst d.

(** A list as a dictionary entry: no entry for the empty list. *)
Definition nonempty {A : Type} (l : list A) : option (list A) :=
  match l with
  | [] => None
  | _ => Some l
  end.

(** ** Ledger and wallet data *)

(** Modelled from the spec: [Coin] is declared outside the sources; §3:
    "a tuple (parent_coin_id, puzzle_hash, amount)".  The fields carry the
    names the manager reads them by. *)
Record Coin := {
  parent_coin_info : bytes32;
  puzzle_hash : bytes32;
  amount : Z
}.

Definition Coin_eqb (a b : Coin) : bool :=
  bytes_eqb (parent_coin_info a) (parent_coin_info b)
  && bytes_eqb (puzzle_hash a) (puzzle_hash b)
  && (amount a =? amount b).

(** [Coin.as_list()]: the three fields, in order. *)
Definition as_list (c : Coin) : bytes32 * bytes32 * Z :=
  (parent_coin_info c, puzzle_hash c, amount c).

(** Modelled from the spec: [CoinState] is declared outside the sources;
    §6: "CoinState{coin, spent_height?}". *)
Record CoinState := {
  cs_coin : Coin;
  spent_height : option Z
}.

(** Modelled from the spec: [WalletCoinRecord] is declared outside the
    sources; §6: "WalletCoinRecord{coin, wallet_id, …}". *)
Record WalletCoinRecord := {
  cr_coin : Coin;
  cr_wallet_id : Z
}.

(** Modelled from the spec: [Payment] and [NotarizedPayment] are declared
    outside the sources; §3: "(puzzle_hash, amount, optional memo list)" and
    "a Payment extended with a nonce". *)
Record Payment := {
  p_puzzle_hash : bytes32;
  p_amount : Z;
  p_memos : option (list bytes)
}.

Record NotarizedPayment := {
  np_nonce : bytes32;
  np_payment : Payment
}.

(** Modelled from the spec: [TradeStatus] is declared outside the sources;
    §3 names its six states.  A record keeps the state itself, not the
    number the enum gives it. *)
Inductive TradeStatus :=
| PENDING_ACCEPT | PENDING_CONFIRM | PENDING_CANCEL
| CANCELLED | CONFIRMED | FAILED.

Definition TradeStatus_eqb (a b : TradeStatus) : bool :=
  match a, b with
  | PENDING_ACCEPT, PENDING_ACCEPT | PENDING_CONFIRM, PENDING_CONFIRM
  | PENDING_CANCEL, PENDING_CANCEL | CANCELLED, CANCELLED
  | CONFIRMED, CONFIRMED | FAILED, FAILED => true
  | _, _ => false
  end.

Definition terminal (s : TradeStatus) : bool :=
  match s with
  | CONFIRMED | CANCELLED | FAILED => true
  | _ => false
  end.

Inductive TransactionType := INCOMING_TRADE | OUTGOING_TRADE.

(** Modelled from the spec: [WalletType] is declared outside the sources;
    §6: "type() → {Base, Colored, Other}", under the names the manager
    uses for the first two. *)
Inductive WalletType := STANDARD_WALLET | COLOURED_COIN | OTHER_WALLET.

Definition WalletType_eqb (a b : WalletType) : bool :=
  match a, b with
  | STANDARD_WALLET, STANDARD_WALLET | COLOURED_COIN, COLOURED_COIN
  | OTHER_WALLET, OTHER_WALLET => true
  | _, _ => false
  end.

(** The fields [create_offer_for_ids] and [respond_to_offer] fill in. *)
Record TradeRecord := {
  confirmed_at_index : Z;
  accepted_at_time : option Z;
  created_at_time : Z;
  is_my_offer : bool;
  sent : Z;
  offer : bytes;
  coins_of_interest : list Coin;
  trade_id : bytes32;
  status : TradeStatus;
  sent_to : list string
}.

(** The row [r] with a new status and, when the store has one to write,
    a new confirmation height. *)
Definition with_status (r : TradeRecord) (st : TradeStatus) (idx : option Z) : TradeRecord :=
  {| confirmed_at_index := match idx with Some h => h | None => confirmed_at_index r end;
     accepted_at_time := accepted_at_time r;
     created_at_time := created_at_time r;
     is_my_offer := is_my_offer r;
     sent := sent r;
     offer := offer r;
     coins_of_interest := coins_of_interest r;
     trade_id := trade_id r;
     status := st;
     sent_to := sent_to r |}.

(** Modelled from the spec: the class [SpendBundle] is declared outside the
    sources; the glossary describes it as an "aggregate of coin spends with
    their combined signature". *)
Record CoinSpend := {
  spend_coin : Coin;
  puzzle_reveal : bytes;
  solution : bytes
}.

Record SpendBundle := {
  coin_spends : list CoinSpend;
  aggregated_signature : bytes
}.

(** The fields [respond_to_offer] fills in. *)
Record TransactionRecord := {
  confirmed_at_height : Z;
  tx_created_at_time : Z;
  to_puzzle_hash : bytes32;
  tx_amount : Z;
  fee_amount : Z;
  confirmed : bool;
  tx_sent : Z;
  spend_bundle : option SpendBundle;
  tx_additions : list Coin;
  tx_removals : list Coin;
  wallet_id : Z;
  tx_sent_to : list string;
  tx_trade_id : option bytes32;
  tx_type : TransactionType;
  name : bytes32;
  memos : list (bytes32 * list bytes)
}.

(** [Offer(requested_payments, bundle)]: the two arguments of the constructor. *)
Record Offer := {
  requested_payments : list (asset_key * list NotarizedPayment);
  bundle : SpendBundle
}.

Record Announcement := {
  origin_info : bytes32;
  message : bytes
}.

(** ** Exceptions, results and the manager's world *)

Inductive Exn :=
| KeyError
| IndexError
| AssertionError
| AttributeError
| TypeError
| ValueError (msg : string)
| Exception (msg : string).

Inductive Result (A : Type) :=
| Ok (a : A)
| Raise (e : Exn).
Arguments Ok {A} a.
Arguments Raise {A} e.

(** Modelled from the spec: the wallet classes are declared outside the
    sources; §6 lists what the manager needs of a wallet.  There only
    [select_coins] is given a failing outcome, so the other calls are total
    here.  [get_new_puzzlehash] derives the next unused puzzle hash:
    [puzzlehash_at n] is the hash at derivation index [n].  A standard
    wallet signs one payment and returns one record, a coloured-coin wallet
    takes lists and returns a list of records. *)
Record Wallet := {
  id : Z;
  type : WalletType;
  get_colour : string;
  get_confirmed_balance : Z;
  select_coins : Z -> Result (list Coin);
  puzzlehash_at : nat -> bytes32;
  convert_puzzle_hash : bytes32 -> bytes32;
  generate_signed_transaction :
    Z -> bytes32 -> Z -> list Coin -> bool -> TransactionRecord;
  generate_signed_transaction_cc :
    list Z -> list bytes32 -> Z -> list Coin -> bool -> list TransactionRecord
}.

(** [get_wallet_for_colour] is called with a hex string in
    [respond_to_offer] and with the raw asset id in
    [maybe_create_wallets_for_offer]. *)
Inductive ColourArg :=
| ColourHex (s : string)
| ColourBytes (b : bytes32).

(** Modelled from the spec: the wallet state manager is declared outside
    the sources; §6 lists what the manager needs of it.  [get_coin_state]
    may answer [None], which the handler asserts it does not.
    [add_pending_transaction] and [add_transaction] write to the wallet's
    stores, and §7 has a persistence failure always propagated:
    [pending_transaction_refused] and [transaction_refused] give the
    exception with which the record is refused, if it is. *)
Record WalletStateManager := {
  wallets : Z -> option Wallet;
  main_wallet : Wallet;
  get_multiple_coin_records : list bytes32 -> list WalletCoinRecord;
  get_coin_state : list bytes32 -> option (list CoinState);
  get_wallet_for_coin : bytes32 -> option Wallet;
  get_wallet_for_colour : ColourArg -> option Wallet;
  get_wallet_id_for_puzzle_hash : bytes32 -> option (Z * WalletType);
  pending_transaction_refused : TransactionRecord -> option Exn;
  transaction_refused : TransactionRecord -> option Exn
}.

(** The helpers of the code base that [trade_manager.py] imports: hashing,
    the offer codec and the spend bundle's views.  Their bodies are outside
    the sources, so the manager is verified for every choice of them.
    [STANDARD_WALLET_truthy] is the truth value Python gives the enum
    member [WalletType.STANDARD_WALLET] in a condition.
    [set_status_index] is what [TradeStore.set_status] makes of an [index]
    argument that is passed to it: the confirmation height it writes, given
    the argument (which the handler may pass as [None]) and the height the
    row has, or the exception it raises.  Neither the sources nor the
    specification settle it for a null or a zero index. *)
Record Library := {
  std_hash : bytes -> bytes32;
  Coin_name : Coin -> bytes32;
  tree_hash : list (bytes32 * bytes32 * Z) -> bytes32;
  str_bytes32 : bytes32 -> string;
  str_WalletType : WalletType -> string;
  STANDARD_WALLET_truthy : bool;
  Offer_from_bytes : bytes -> Offer;
  Offer_bytes : Offer -> bytes;
  get_primary_coins : Offer -> list Coin;
  get_offered_coins : Offer -> list (asset_key * list Coin);
  get_involved_coins : Offer -> list Coin;
  arbitrage : Offer -> list (asset_key * Z);
  notarize_payments :
    list (asset_key * list Payment) -> list Coin -> list (asset_key * list NotarizedPayment);
  calculate_announcements : list (asset_key * list NotarizedPayment) -> list Announcement;
  Announcement_name : Announcement -> bytes32;
  Offer_ph : bytes32;
  Offer_aggregate : list Offer -> Offer;
  is_valid : Offer -> bool;
  to_valid_spend : Offer -> SpendBundle;
  SpendBundle_aggregate : list SpendBundle -> SpendBundle;
  SpendBundle_name : SpendBundle -> bytes32;
  removals : SpendBundle -> list Coin;
  additions : SpendBundle -> list Coin;
  not_ephemeral_additions : SpendBundle -> list Coin;
  get_memos : SpendBundle -> list (bytes32 * list bytes);
  set_status_index : option Z -> Z -> Result Z
}.

(** What a wallet was asked to sign. *)
Inductive SignRequest :=
| SignStandard (wid : Z) (amt : Z) (ph : bytes32) (fee : Z)
               (coins : list Coin) (ignore_max_send_amount : bool)
| SignColoured (wid : Z) (amts : list Z) (phs : list bytes32) (fee : Z)
               (coins : list Coin) (ignore_max_send_amount : bool).

Inductive LogEntry :=
| LogCoinNotInTrade (c : Coin)
| LogCoinNotSpent (c : Coin)
| LogTradeConfirmed (tid : bytes32) (height : option Z)
| LogTradeCanceled (tid : bytes32)
| LogTradeFailed (tid : bytes32)
| LogSecureCancel (tid_hex : string)
| LogAnnouncements (first : bytes32)
| LogCreatingWallet (key : bytes32).

Record State := {
  trade_store : list TradeRecord;
  pending_transactions : list TransactionRecord;
  transactions : list TransactionRecord;
  derivation_index : nat;
  sign_requests : list SignRequest;
  created_cc_wallets : list bytes32;
  log : list LogEntry;
  time_now : Z
}.

Definition M (A : Type) : Type := State -> Result A * State.

Definition ret {A} (a : A) : M A := fun s => (Ok a, s).

Definition raise {A} (e : Exn) : M A := fun s => (Raise e, s).

Definition bind {A B} (m : M A) (k : A -> M B) : M B :=
  fun s => match m s with
           | (Ok a, s') => k a s'
           | (Raise e, s') => (Raise e, s')
           end.

(** [try: m except Exception as e: h e]. *)
Definition try_except {A} (m : M A) (h : Exn -> M A) : M A :=
  fun s => match m s with
           | (Ok a, s') => (Ok a, s')
           | (Raise e, s') => h e s'
           end.

Declare Scope monad_scope.
Delimit Scope monad_scope with monad.
Notation "x <- m ;; k" := (bind m (fun x => k))
  (at level 61, m at next level, right associativity) : monad_scope.
Notation "' pat <- m ;; k" := (bind m (fun x => match x with pat => k end))
  (at level 61, pat pattern, m at next level, right associativity) : monad_scope.
Notation "m ;;; k" := (bind m (fun _ => k))
  (at level 61, right associativity) : monad_scope.
Open Scope monad_scope.

Definition lift_result {A} (r : Result A) : M A := fun s => (r, s).

Definition modify (f : State -> State) : M unit := fun s => (Ok tt, f s).

Definition gets {A} (f : State -> A) : M A := fun s => (Ok (f s), s).

(** A [for] loop that threads the loop's local variables. *)
Fixpoint foldM {A B} (f : B -> A -> M B) (l : list A) (acc : B) : M B :=
  match l with
  | [] => ret acc
  | x :: l' => acc' <- f acc x ;; foldM f l' acc'
  end.

Definition forM_ {A} (l : list A) (f : A -> M unit) : M unit :=
  foldM (fun _ x => f x) l tt.

(** Support for the proofs: a step that leaves the store, or any other view
    [f] of the world, as it found it, whatever it returns. *)
Definition same_store (s s' : State) : Prop := trade_store s' = trade_store s.

Definition keeps {X A : Type} (f : State -> X) (m : M A) : Prop :=
  forall s, f (snd (m s)) = f s.

(** A step that only appends signing requests, each of them satisfying
    [P], whatever it returns. *)
Definition adds_requests {A : Type} (P : SignRequest -> Prop) (m : M A) : Prop :=
  forall s, exists reqs,
    sign_requests (snd (m s)) = sign_requests s ++ reqs /\ Forall P reqs.

Definition set_trade_store (ts : list TradeRecord) (s : State) : State :=
  {| trade_store := ts;
     pending_transactions := pending_transactions s;
     transactions := transactions s;
     derivation_index := derivation_index s;
     sign_requests := sign_requests s;
     created_cc_wallets := created_cc_wallets s;
     log := log s;
     time_now := time_now s |}.

Definition push_pending (tx : TransactionRecord) (s : State) : State :=
  {| trade_store := trade_store s;
     pending_transactions := pending_transactions s ++ [tx];
     transactions := transactions s;
     derivation_index := derivation_index s;
     sign_requests := sign_requests s;
     created_cc_wallets := created_cc_wallets s;
     log := log s;
     time_now := time_now s |}.

Definition push_transaction (tx : TransactionRecord) (s : State) : State :=
  {| trade_store := trade_store s;
     pending_transactions := pending_transactions s;
     transactions := transactions s ++ [tx];
     derivation_index := derivation_index s;
     sign_requests := sign_requests s;
     created_cc_wallets := created_cc_wallets s;
     log := log s;
     time_now := time_now s |}.

Definition next_derivation (s : State) : State :=
  {| trade_store := trade_store s;
     pending_transactions := pending_transactions s;
     transactions := transactions s;
     derivation_index := S (derivation_index s);
     sign_requests := sign_requests s;
     created_cc_wallets := created_cc_wallets s;
     log := log s;
     time_now := time_now s |}.

Definition push_sign_request (r : SignRequest) (s : State) : State :=
  {| trade_store := trade_store s;
     pending_transactions := pending_transactions s;
     transactions := transactions s;
     derivation_index := derivation_index s;
     sign_requests := sign_requests s ++ [r];
     created_cc_wallets := created_cc_wallets s;
     log := log s;
     time_now := time_now s |}.

Definition push_cc_wallet (k : bytes32) (s : State) : State :=
  {| trade_store := trade_store s;
     pending_transactions := pending_transactions s;
     transactions := transactions s;
     derivation_index := derivation_index s;
     sign_requests := sign_requests s;
     created_cc_wallets := created_cc_wallets s ++ [k];
     log := log s;
     time_now := time_now s |}.

Definition push_log (e : LogEntry) (s : State) : State :=
  {| trade_store := trade_store s;
     pending_transactions := pending_transactions s;
     transactions := transactions s;
     derivation_index := derivation_index s;
     sign_requests := sign_requests s;
     created_cc_wallets := created_cc_wallets s;
     log := log s ++ [e];
     time_now := time_now s |}.

Definition log_event (e : LogEntry) : M unit := modify (push_log e).

(** [uint32(x)] and [uint64(x)] refuse a value outside their range. *)
Definition uint32 (z : Z) : M Z :=
  if (0 <=? z) && (z <? 2 ^ 32) then ret z
  else raise (ValueError "Value does not fit into uint32").

Definition uint64 (z : Z) : M Z :=
  if (0 <=? z) && (z <? 2 ^ 64) then ret z
  else raise (ValueError "Value does not fit into uint64").

Definition str_Z (z : Z) : string := NilZero.string_of_int (Z.to_int z).

(** [bytes.hex()]: two lower-case hexadecimal digits per byte. *)
Definition hex_digit (n : N) : ascii :=
  match n with
  | 0%N => "0" | 1%N => "1" | 2%N => "2" | 3%N => "3"
  | 4%N => "4" | 5%N => "5" | 6%N => "6" | 7%N => "7"
  | 8%N => "8" | 9%N => "9" | 10%N => "a" | 11%N => "b"
  | 12%N => "c" | 13%N => "d" | 14%N => "e" | _ => "f"
  end%char.

Fixpoint hex (b : bytes) : string :=
  match b with
  | [] => EmptyString
  | x :: b' =>
      String (hex_digit (N.div (Byte.to_N x) 16))
        (String (hex_digit (N.modulo (Byte.to_N x) 16)) (hex b'))
  end.

(** [bytes.fromhex(s)]: pairs of hexadecimal digits of either case, with
    ASCII whitespace allowed between the pairs. *)
Definition hex_value (c : ascii) : option N :=
  let n := N_of_ascii c in
  if (48 <=? n)%N && (n <=? 57)%N then Some (n - 48)%N
  else if (97 <=? n)%N && (n <=? 102)%N then Some (n - 87)%N
  else if (65 <=? n)%N && (n <=? 70)%N then Some (n - 55)%N
  else None.

Definition is_space (c : ascii) : bool :=
  let n := N_of_ascii c in
  (n =? 32)%N || ((9 <=? n)%N && (n <=? 13)%N).

Fixpoint fromhex (s : string) : option bytes :=
  match s with
  | EmptyString => Some []
  | String c s' =>
      if is_space c then fromhex s'
      else match s' with
           | EmptyString => None
           | String d s'' =>
               match hex_value c, hex_value d with
               | Some h, Some l =>
                   match Byte.of_N (16 * h + l), fromhex s'' with
                   | Some x, Some rest => Some (x :: rest)
                   | _, _ => None
                   end
               | _, _ => None
               end
           end
  end.

(** ** The trade store *)

Module TradeStore.

(** Modelled from the spec: [TradeStore] is declared outside the sources.
    §4.D: "a single keyed store of TradeRecords by trade_id";
    [get_trade_record] is the lookup by id. *)
Fixpoint get_trade_record (tid : bytes32) (ts : list TradeRecord) : option TradeRecord :=
  match ts with
  | [] => None
  | r :: ts' => if bytes_eqb tid (trade_id r) then Some r else get_trade_record tid ts'
  end.

(** Modelled from the spec: [TradeStore.add_trade_record] is missing;
    §4.D: "save(record) — idempotent insert-or-replace on trade_id". *)
Fixpoint add_trade_record (r : TradeRecord) (ts : list TradeRecord) : list TradeRecord :=
  match ts with
  | [] => [r]
  | r' :: ts' =>
      if bytes_eqb (trade_id r) (trade_id r') then r :: ts'
      else r' :: add_trade_record r ts'
  end.

(** Modelled from the spec: [TradeStore.set_status] is missing; §6: "the
    only columns mutated after insert are status, confirmed_at_height, and
    sent_to".  The row of [tid], when there is one, is saved again with the
    new status and with the confirmation height [index], when the store has
    one to write; a call without an [index] argument keeps the height the
    row has ([index = None]). *)
Definition set_status (tid : bytes32) (st : TradeStatus) (index : option Z)
           (ts : list TradeRecord) : list TradeRecord :=
  match get_trade_record tid ts with
  | None => ts
  | Some current => add_trade_record (with_status current st index) ts
  end.

(** Modelled from the spec: [set_status] called with an [index] argument,
    [height], which the handler may pass as null.  §4.D has the first
    observed [spent_height] used as the confirmation height and says
    nothing of a null or zero one: the store decides by [new_index] which
    height to write, from the argument and the height the row has, or
    refuses the call with an exception, and then writes nothing. *)
Definition set_status_at (new_index : option Z -> Z -> Result Z)
           (tid : bytes32) (st : TradeStatus) (height : option Z)
           (ts : list TradeRecord) : Result (list TradeRecord) :=
  match get_trade_record tid ts with
  | None => Ok ts
  | Some current =>
      match new_index height (confirmed_at_index current) with
      | Ok index => Ok (set_status tid st (Some index) ts)
      | Raise e => Raise e
      end
  end.

(** Modelled from the spec: [TradeStore.get_trade_record_with_status] is
    missing; §4.D: "secondary scans by status". *)
Definition get_trade_record_with_status (st : TradeStatus) (ts : list TradeRecord)
  : list TradeRecord :=
  filter (fun r => TradeStatus_eqb (status r) st) ts.

(** §3: "at most one TradeRecord exists per trade_id". *)
Definition unique_ids (ts : list TradeRecord) : Prop := NoDup (map trade_id ts).

End TradeStore.

(** The status of the trade [tid], when the store has it. *)
Definition status_of (tid : bytes32) (s : State) : option TradeStatus :=
  option_map status (TradeStore.get_trade_record tid (trade_store s)).

(** ** The manager *)

Section TradeManager.

Variable lib : Library.
Variable wsm : WalletStateManager.

Definition get_all_trades : M (list TradeRecord) := gets trade_store.

Definition get_trade_by_id (tid : bytes32) : M (option TradeRecord) :=
  gets (fun s => TradeStore.get_trade_record tid (trade_store s)).

Definition get_offers_with_status (st : TradeStatus) : M (list TradeRecord) :=
  gets (fun s => TradeStore.get_trade_record_with_status st (trade_store s)).

Definition set_status (tid : bytes32) (st : TradeStatus) (index : option Z) : M unit :=
  modify (fun s => set_trade_store (TradeStore.set_status tid st index (trade_store s)) s).

(** [self.trade_store.set_status(trade_id, status, True, height)]. *)
Definition set_status_at (tid : bytes32) (st : TradeStatus) (height : option Z) : M unit :=
  fun s =>
    match TradeStore.set_status_at (set_status_index lib) tid st height (trade_store s) with
    | Ok ts => (Ok tt, set_trade_store ts s)
    | Raise e => (Raise e, s)
    end.

Definition save_trade (trade : TradeRecord) : M unit :=
  modify (fun s => set_trade_store (TradeStore.add_trade_record trade (trade_store s)) s).

Definition add_pending_transaction (tx : TransactionRecord) : M unit :=
  match pending_transaction_refused wsm tx with
  | Some e => raise e
  | None => modify (push_pending tx)
  end.

Definition add_transaction (tx : TransactionRecord) : M unit :=
  match transaction_refused wsm tx with
  | Some e => raise e
  | None => modify (push_transaction tx)
  end.

Definition get_new_puzzlehash (w : Wallet) : M bytes32 :=
  fun s => (Ok (puzzlehash_at w (derivation_index s)), next_derivation s).

Definition sign_standard (w : Wallet) (amt : Z) (ph : bytes32) (fee : Z)
           (coins : list Coin) (ignore_max : bool) : M TransactionRecord :=
  modify (push_sign_request (SignStandard (id w) amt ph fee coins ignore_max)) ;;;
  ret (generate_signed_transaction w amt ph fee coins ignore_max).

Definition sign_coloured (w : Wallet) (amts : list Z) (phs : list bytes32) (fee : Z)
           (coins : list Coin) (ignore_max : bool) : M (list TransactionRecord) :=
  modify (push_sign_request (SignColoured (id w) amts phs fee coins ignore_max)) ;;;
  ret (generate_signed_transaction_cc w amts phs fee coins ignore_max).

(** The loop of [get_trade_by_coin]: the first trade that is not
    CANCELLED and has the coin among its coins of interest. *)
Fixpoint first_trade_with_coin (coin : Coin) (all_trades : list TradeRecord)
  : option TradeRecord :=
  match all_trades with
  | [] => None
  | trade :: rest =>
      if TradeStatus_eqb (status trade) CANCELLED then first_trade_with_coin coin rest
      else if existsb (Coin_eqb coin) (coins_of_interest trade) then Some trade
      else first_trade_with_coin coin rest
  end.

Definition get_trade_by_coin (coin : Coin) : M (option TradeRecord) :=
  all_trades <- get_all_trades ;;
  ret (first_trade_with_coin coin all_trades).

Definition maybe_create_wallets_for_offer (o : Offer) : M unit :=
  forM_ (dict_keys (arbitrage lib o)) (fun key =>
    match key with
    | None => ret tt
    | Some k =>
        match get_wallet_for_colour wsm (ColourBytes k) with
        | Some _ => ret tt
        | None => log_event (LogCreatingWallet k) ;;; modify (push_cc_wallet k)
        end
    end).

(** The ids of the settlement coins on our side: the offered coins whose
    parent is one of the primary coins the coin store knows. *)
Definition our_settlement_ids (o : Offer) : list bytes32 :=
  let primary_coin_ids := map (Coin_name lib) (get_primary_coins lib o) in
  let our_coin_records := get_multiple_coin_records wsm primary_coin_ids in
  let our_primary_coins := map (fun cr => Coin_name lib (cr_coin cr)) our_coin_records in
  let all_settlement_payments := flat_map snd (get_offered_coins lib o) in
  let our_settlement_payments :=
    filter (fun c => bytes_in (parent_coin_info c) our_primary_coins) all_settlement_payments in
  map (Coin_name lib) our_settlement_payments.

(** [set(xs) & set(ys)] as a condition. *)
Definition intersects (xs ys : list bytes32) : bool :=
  existsb (fun x => bytes_in x ys) xs.

Definition coins_of_interest_farmed (coin_state : CoinState) : M unit :=
  trade <- get_trade_by_coin (cs_coin coin_state) ;;
  match trade with
  | None => log_event (LogCoinNotInTrade (cs_coin coin_state))
  | Some trade =>
      (match spent_height coin_state with
       | None => log_event (LogCoinNotSpent (cs_coin coin_state))
       | Some _ => ret tt
       end) ;;;
      let o := Offer_from_bytes lib (offer trade) in
      let ids := our_settlement_ids o in
      match get_coin_state wsm ids with
      | None => raise AssertionError
      | Some coin_states =>
          let coin_state_names := map (fun cs => Coin_name lib (cs_coin cs)) coin_states in
          if intersects ids coin_state_names then
            match coin_states with
            | [] => raise IndexError
            | first :: _ =>
                let height := spent_height first in
                maybe_create_wallets_for_offer o ;;;
                set_status_at (trade_id trade) CONFIRMED height ;;;
                log_event (LogTradeConfirmed (trade_id trade) height)
            end
          else
            match status trade with
            | PENDING_CANCEL =>
                set_status (trade_id trade) CANCELLED None ;;;
                log_event (LogTradeCanceled (trade_id trade))
            | PENDING_CONFIRM =>
                set_status (trade_id trade) FAILED None ;;;
                log_event (LogTradeFailed (trade_id trade))
            | _ => ret tt
            end
      end
  end.

Definition cancel_pending_offer (tid : bytes32) : M unit :=
  set_status tid CANCELLED None.

(** One turn of the loop of [cancel_pending_offer_safely]. *)
Definition cancel_coin (coin : Coin) : M unit :=
  match get_wallet_for_coin wsm (Coin_name lib coin) with
  | None => ret tt
  | Some wallet =>
      new_ph <- get_new_puzzlehash wallet ;;
      tx <- (if WalletType_eqb (type wallet) COLOURED_COIN then
               txs <- sign_coloured wallet [amount coin] [new_ph] 0 [coin] true ;;
               match txs with
               | [] => raise IndexError
               | tx :: _ => ret tx
               end
             else sign_standard wallet (amount coin) new_ph 0 [coin] true) ;;
      add_pending_transaction tx
  end.

(** Both exits return Python's [None], the [tt] of [unit]. *)
Definition cancel_pending_offer_safely (tid : bytes32) : M unit :=
  log_event (LogSecureCancel (hex tid)) ;;;
  trade <- get_trade_by_id tid ;;
  match trade with
  | None => ret tt
  | Some trade =>
      forM_ (get_primary_coins lib (Offer_from_bytes lib (offer trade))) cancel_coin ;;;
      set_status tid PENDING_CANCEL None
  end.

(** Modelled from the spec: [Offer.name] is declared outside the sources;
    §4.A: "the identity of an offer is the 32-byte hash of this
    serialization". *)
Definition Offer_name (o : Offer) : bytes32 := std_hash lib (Offer_bytes lib o).

(** [bytes32(b)] refuses anything but 32 bytes. *)
Definition to_bytes32 (b : bytes) : M bytes32 :=
  if Nat.eqb (List.length b) 32 then ret b
  else raise (ValueError "bad bytes32 initializer").

Definition offer_dict_t := list (Z * Z).

(** One turn of the first loop of [_create_offer_for_ids]; the loop's
    variables are [coins_to_offer] and [requested_payments]. *)
Definition offer_entry
           (acc : list (Z * list Coin) * list (asset_key * list Payment))
           (entry : Z * Z)
  : M (list (Z * list Coin) * list (asset_key * list Payment)) :=
  let '(coins_to_offer, requested) := acc in
  let '(id_, amount_) := entry in
  wallet_id_ <- uint32 id_ ;;
  match wallets wsm wallet_id_ with
  | None => raise KeyError
  | Some wallet =>
      if amount_ >? 0 then
        key <- (match type wallet with
                | STANDARD_WALLET => ret None
                | COLOURED_COIN =>
                    match fromhex (get_colour wallet) with
                    | None => raise (ValueError "non-hexadecimal number found in fromhex() arg")
                    | Some b => k <- to_bytes32 b ;; ret (Some k)
                    end
                | t => raise (ValueError
                                (String.append "Offers are not implemented for "
                                               (str_WalletType lib t)))
                end) ;;
        p2_ph <- get_new_puzzlehash wallet ;;
        let memos_ := if STANDARD_WALLET_truthy lib then None else Some [p2_ph] in
        amt <- uint64 amount_ ;;
        ret (coins_to_offer,
             dict_set asset_key_eqb key
                      [{| p_puzzle_hash := p2_ph; p_amount := amt; p_memos := memos_ |}]
                      requested)
      else if amount_ <? 0 then
        let balance := get_confirmed_balance wallet in
        if balance <? Z.abs amount_ then
          raise (Exception (String.append "insufficient funds in wallet " (str_Z wallet_id_)))
        else
          amt <- uint64 (Z.abs amount_) ;;
          selected <- lift_result (select_coins wallet amt) ;;
          ret (dict_set Z.eqb wallet_id_ selected coins_to_offer, requested)
      else ret acc
  end.

(** One turn of the second loop: the wallet signs the spend of its
    selected coins to the settlement puzzle hash, with fee 0. *)
Definition sign_entry (offer_dict : offer_dict_t)
           (all_transactions : list TransactionRecord) (entry : Z * list Coin)
  : M (list TransactionRecord) :=
  let '(wallet_id_, selected_coins) := entry in
  match wallets wsm wallet_id_ with
  | None => raise KeyError
  | Some wallet =>
      match dict_get Z.eqb wallet_id_ offer_dict with
      | None => raise KeyError
      | Some amount_ =>
          if WalletType_eqb (type wallet) COLOURED_COIN then
            txs <- sign_coloured wallet [Z.abs amount_] [Offer_ph lib] 0 selected_coins false ;;
            ret (all_transactions ++ txs)
          else
            tx <- sign_standard wallet (Z.abs amount_) (Offer_ph lib) 0 selected_coins false ;;
            ret (all_transactions ++ [tx])
      end
  end.

(** [[tx.spend_bundle for tx in all_transactions]], handed to
    [SpendBundle.aggregate]: a record without a bundle has no coin spends
    to read. *)
Fixpoint spend_bundles_of (txs : list TransactionRecord) : M (list SpendBundle) :=
  match txs with
  | [] => ret []
  | tx :: txs' =>
      match spend_bundle tx with
      | None => raise AttributeError
      | Some b => bs <- spend_bundles_of txs' ;; ret (b :: bs)
      end
  end.

Definition build_result (A : Type) : Type := (bool * option A * option string)%type.

(** The body of the [try] of [_create_offer_for_ids]. *)
Definition create_offer_body (offer_dict : offer_dict_t) : M (build_result Offer) :=
  '(coins_to_offer, requested) <- foldM offer_entry offer_dict ([], []) ;;
  let all_coins := flat_map snd coins_to_offer in
  let notarized_payments := notarize_payments lib requested all_coins in
  let announcements_to_assert := calculate_announcements lib notarized_payments in
  match announcements_to_assert with
  | [] => raise IndexError
  | first :: _ =>
      log_event (LogAnnouncements (Announcement_name lib first)) ;;;
      all_transactions <- foldM (sign_entry offer_dict) coins_to_offer [] ;;
      bundles <- spend_bundles_of all_transactions ;;
      let total_spend_bundle := SpendBundle_aggregate lib bundles in
      ret (true,
           Some {| requested_payments := notarized_payments; bundle := total_spend_bundle |},
           None)
  end.

(** The handler re-raises at once; the logging and the
    [return False, None, str(e)] after [raise e] are never reached. *)
Definition _create_offer_for_ids (offer_dict : offer_dict_t) : M (build_result Offer) :=
  try_except (create_offer_body offer_dict) (fun e => raise e).

Definition str_optional (e : option string) : string :=
  match e with
  | Some msg => msg
  | None => "None"
  end.

Definition create_offer_for_ids (offer_dict : offer_dict_t) : M (build_result TradeRecord) :=
  '(success, created_offer, error) <- _create_offer_for_ids offer_dict ;;
  match success, created_offer with
  | true, Some created_offer =>
      t <- gets time_now ;;
      now <- uint64 t ;;
      let trade_offer :=
        {| confirmed_at_index := 0;
           accepted_at_time := None;
           created_at_time := now;
           is_my_offer := true;
           sent := 0;
           offer := Offer_bytes lib created_offer;
           coins_of_interest := get_involved_coins lib created_offer;
           trade_id := Offer_name created_offer;
           status := PENDING_ACCEPT;
           sent_to := [] |} in
      save_trade trade_offer ;;;
      ret (success, Some trade_offer, error)
  | _, _ =>
      raise (Exception (String.append "Error creating offer: " (str_optional error)))
  end.

Definition no_cat_message (asset_id : bytes32) : string :=
  String.append "Do not have a CAT of asset ID: "
                (String.append (str_bytes32 lib asset_id) " to fulfill offer").

(** The first loop of [respond_to_offer]: it returns from the method at
    the first asset without a wallet ([inl], the message), and otherwise
    ends with [take_offer_dict] ([inr]). *)
Fixpoint take_offer_entries (items : list (asset_key * Z)) (take_offer_dict : offer_dict_t)
  : string + offer_dict_t :=
  match items with
  | [] => inr take_offer_dict
  | (None, amount_) :: rest =>
      take_offer_entries rest (dict_set Z.eqb (id (main_wallet wsm)) amount_ take_offer_dict)
  | (Some asset_id, amount_) :: rest =>
      match get_wallet_for_colour wsm (ColourHex (hex asset_id)) with
      | None =>
          inl (String.append "Do not have a CAT of asset ID: "
                 (String.append (str_bytes32 lib asset_id) " to fulfill offer"))
      | Some wallet =>
          take_offer_entries rest (dict_set Z.eqb (id wallet) amount_ take_offer_dict)
      end
  end.

(** One turn of the loop over the additions. *)
Definition incoming_entry (complete_offer : Offer) (final_spend_bundle : SpendBundle)
           (settlement_coin_ids : list bytes32)
           (txs : list TransactionRecord) (addition : Coin) : M (list TransactionRecord) :=
  if bytes_in (parent_coin_info addition) settlement_coin_ids then
    match get_wallet_id_for_puzzle_hash wsm (puzzle_hash addition) with
    | None => ret txs
    | Some (wallet_id_, _) =>
        match wallets wsm wallet_id_ with
        | None => raise KeyError
        | Some wallet =>
            let to_ph := convert_puzzle_hash wallet (puzzle_hash addition) in
            t <- gets time_now ;;
            now <- uint64 t ;;
            ret (txs ++
                 [{| confirmed_at_height := 0;
                     tx_created_at_time := now;
                     to_puzzle_hash := to_ph;
                     tx_amount := amount addition;
                     fee_amount := 0;
                     confirmed := false;
                     tx_sent := 10;
                     spend_bundle := None;
                     tx_additions := [];
                     tx_removals := [];
                     wallet_id := wallet_id_;
                     tx_sent_to := [];
                     tx_trade_id := Some (Offer_name complete_offer);
                     tx_type := INCOMING_TRADE;
                     name := std_hash lib (SpendBundle_name lib final_spend_bundle
                                           ++ Coin_name lib addition);
                     memos := [] |}])
        end
    end
  else ret txs.

(** One turn of the loop that fills [removal_dict]. *)
Definition group_removal (settlement_parents : list bytes32)
           (removal_dict : list (Z * list Coin)) (removal : Coin) : list (Z * list Coin) :=
  if bytes_in (Coin_name lib removal) settlement_parents then
    match get_wallet_id_for_puzzle_hash wsm (puzzle_hash removal) with
    | None => removal_dict
    | Some (wallet_id_, _) =>
        let d := dict_setdefault Z.eqb wallet_id_ [] removal_dict in
        match dict_get Z.eqb wallet_id_ d with
        | Some grouped => dict_set Z.eqb wallet_id_ (grouped ++ [removal]) d
        | None => d
        end
    end
  else removal_dict.

Definition sum_amounts (cs : list Coin) : Z := fold_right Z.add 0 (map amount cs).

(** One turn of the loop over [removal_dict.items()]. *)
Definition outgoing_entry (complete_offer : Offer) (final_spend_bundle : SpendBundle)
           (txs : list TransactionRecord) (entry : Z * list Coin) : M (list TransactionRecord) :=
  let '(wid, grouped_removals) := entry in
  match wallets wsm wid with
  | None => raise KeyError
  | Some wallet =>
      let to_ph := repeat x00 32 in
      let removal_tree_hash := tree_hash lib (map as_list grouped_removals) in
      t <- gets time_now ;;
      now <- uint64 t ;;
      amt <- uint64 (sum_amounts grouped_removals) ;;
      ret (txs ++
           [{| confirmed_at_height := 0;
               tx_created_at_time := now;
               to_puzzle_hash := to_ph;
               tx_amount := amt;
               fee_amount := 0;
               confirmed := false;
               tx_sent := 10;
               spend_bundle := None;
               tx_additions := [];
               tx_removals := grouped_removals;
               wallet_id := id wallet;
               tx_sent_to := [];
               tx_trade_id := Some (Offer_name complete_offer);
               tx_type := OUTGOING_TRADE;
               name := std_hash lib (SpendBundle_name lib final_spend_bundle
                                     ++ removal_tree_hash);
               memos := [] |}])
  end.

Definition respond_to_offer (o : Offer) : M (build_result TradeRecord) :=
  match take_offer_entries (arbitrage lib o) [] with
  | inl msg => ret (false, None, Some msg)
  | inr take_offer_dict =>
      '(success, take_offer, error) <- _create_offer_for_ids take_offer_dict ;;
      if negb success then ret (false, None, error)
      else
        match take_offer with
        | None => raise AttributeError
        | Some take_offer =>
            let complete_offer := Offer_aggregate lib [o; take_offer] in
            if negb (is_valid lib complete_offer) then raise AssertionError
            else
              let final_spend_bundle := to_valid_spend lib complete_offer in
              let settlement_coins := flat_map snd (get_offered_coins lib complete_offer) in
              let settlement_coin_ids := map (Coin_name lib) settlement_coins in
              let settlement_parents := map parent_coin_info settlement_coins in
              let additions_ := not_ephemeral_additions lib final_spend_bundle in
              let removals_ := removals lib final_spend_bundle in
              txs <- foldM (incoming_entry complete_offer final_spend_bundle settlement_coin_ids)
                           additions_ [] ;;
              let removal_dict := fold_left (group_removal settlement_parents) removals_ [] in
              txs <- foldM (outgoing_entry complete_offer final_spend_bundle) removal_dict txs ;;
              t <- gets time_now ;;
              accepted <- uint64 t ;;
              created <- uint64 t ;;
              let trade_record :=
                {| confirmed_at_index := 0;
                   accepted_at_time := Some accepted;
                   created_at_time := created;
                   is_my_offer := false;
                   sent := 0;
                   offer := Offer_bytes lib complete_offer;
                   coins_of_interest := get_involved_coins lib complete_offer;
                   trade_id := Offer_name complete_offer;
                   status := PENDING_CONFIRM;
                   sent_to := [] |} in
              save_trade trade_record ;;;
              now <- uint64 t ;;
              let push_tx :=
                {| confirmed_at_height := 0;
                   tx_created_at_time := now;
                   to_puzzle_hash := repeat x00 32;
                   tx_amount := 0;
                   fee_amount := 0;
                   confirmed := false;
                   tx_sent := 0;
                   spend_bundle := Some final_spend_bundle;
                   tx_additions := additions lib final_spend_bundle;
                   tx_removals := removals lib final_spend_bundle;
                   wallet_id := 0;
                   tx_sent_to := [];
                   tx_trade_id := Some (Offer_name complete_offer);
                   tx_type := OUTGOING_TRADE;
                   name := SpendBundle_name lib final_spend_bundle;
                   memos := get_memos lib final_spend_bundle |} in
              add_pending_transaction push_tx ;;;
              forM_ txs add_transaction ;;;
              ret (true, Some trade_record, None)
        end
  end.

(** What [cancel_pending_offer_safely] is to ask of the wallets, read off
    the specification rather than the loop: for each primary coin whose wallet is
    found, in order, one request to pay the coin's whole amount to the next
    puzzle hash of that wallet, with fee 0 and spending that coin alone. *)
Fixpoint cancel_requests (coins : list Coin) (index : nat) : list SignRequest :=
  match coins with
  | [] => []
  | coin :: rest =>
      match get_wallet_for_coin wsm (Coin_name lib coin) with
      | None => cancel_requests rest index
      | Some wallet =>
          (if WalletType_eqb (type wallet) COLOURED_COIN
           then SignColoured (id wallet) [amount coin] [puzzlehash_at wallet index] 0 [coin] true
           else SignStandard (id wallet) (amount coin) (puzzlehash_at wallet index) 0 [coin] true)
            :: cancel_requests rest (S index)
      end
  end.

(** The transactions the wallets answer with, the first record of a
    coloured-coin wallet's list. *)
Fixpoint cancel_transactions (coins : list Coin) (index : nat) : list TransactionRecord :=
  match coins with
  | [] => []
  | coin :: rest =>
      match get_wallet_for_coin wsm (Coin_name lib coin) with
      | None => cancel_transactions rest index
      | Some wallet =>
          (if WalletType_eqb (type wallet) COLOURED_COIN
           then firstn 1 (generate_signed_transaction_cc
                            wallet [amount coin] [puzzlehash_at wallet index] 0 [coin] true)
           else [generate_signed_transaction
                   wallet (amount coin) (puzzlehash_at wallet index) 0 [coin] true])
            ++ cancel_transactions rest (S index)
      end
  end.

(** The collaborators answer the cancellation of [coins]: a coloured-coin
    wallet answers a request with at least one record, and the wallet state
    manager accepts the record submitted for a coin. *)
Definition cancel_signable (coins : list Coin) : Prop :=
  forall coin wallet n,
    In coin coins ->
    get_wallet_for_coin wsm (Coin_name lib coin) = Some wallet ->
    (type wallet = COLOURED_COIN ->
     generate_signed_transaction_cc wallet [amount coin] [puzzlehash_at wallet n] 0 [coin] true
     <> [])
    /\ forall tx,
        In tx (if WalletType_eqb (type wallet) COLOURED_COIN
               then firstn 1 (generate_signed_transaction_cc
                                wallet [amount coin] [puzzlehash_at wallet n] 0 [coin] true)
               else [generate_signed_transaction
                       wallet (amount coin) (puzzlehash_at wallet n) 0 [coin] true]) ->
        pending_transaction_refused wsm tx = None.

(** The wallet a removal counts for in the transaction history: the owner
    of its puzzle hash, when the removal is the parent of a settlement
    coin. *)
Definition removal_owner (settlement_parents : list bytes32) (removal : Coin) : option Z :=
  if bytes_in (Coin_name lib removal) settlement_parents
  then option_map fst (get_wallet_id_for_puzzle_hash wsm (puzzle_hash removal))
  else None.

Definition owned_by (settlement_parents : list bytes32) (wid : Z) (removal : Coin) : bool :=
  match removal_owner settlement_parents removal with
  | Some w => w =? wid
  | None => false
  end.

(** The OUTGOING_TRADE row of one wallet and its grouped removals, as the
    specification words it (§4.C). *)
Definition outgoing_row_of (final_spend_bundle : SpendBundle)
           (entry : Z * list Coin) (row : TransactionRecord) : Prop :=
  tx_type row = OUTGOING_TRADE
  /\ to_puzzle_hash row = repeat x00 32
  /\ tx_amount row = sum_amounts (snd entry)
  /\ name row = std_hash lib (SpendBundle_name lib final_spend_bundle
                              ++ tree_hash lib (map as_list (snd entry)))
  /\ tx_removals row = snd entry
  /\ exists wallet, wallets wsm (fst entry) = Some wallet /\ wallet_id row = id wallet.

(** The trades a scan of the pending states returns. *)
Definition pending (st : TradeStatus) : bool :=
  match st with
  | PENDING_ACCEPT | PENDING_CONFIRM | PENDING_CANCEL => true
  | _ => false
  end.

Definition get_coins_of_interest : M (list (bytes32 * Coin)) :=
  pending_accept <- get_offers_with_status PENDING_ACCEPT ;;
  pending_confirm <- get_offers_with_status PENDING_CONFIRM ;;
  pending_cancel <- get_offers_with_status PENDING_CANCEL ;;
  let all_pending := pending_accept ++ pending_confirm ++ pending_cancel in
  ret (fold_left
         (fun interested_dict trade =>
            fold_left (fun d coin => dict_set bytes_eqb (Coin_name lib coin) coin d)
                      (coins_of_interest trade) interested_dict)
         all_pending []).

(** [WalletCoinRecord.name] is declared outside the sources: the method is
    a parameter, [record_name].  [wallet_id] is [None] when the caller
    leaves it out. *)
Definition get_locked_coins (record_name : WalletCoinRecord -> bytes32)
           (wallet_id_ : option Z)
  : M (list (bytes32 * WalletCoinRecord)) :=
  pending_accept <- get_offers_with_status PENDING_ACCEPT ;;
  pending_confirm <- get_offers_with_status PENDING_CONFIRM ;;
  pending_cancel <- get_offers_with_status PENDING_CANCEL ;;
  let all_pending := pending_accept ++ pending_confirm ++ pending_cancel in
  let coins_of_interest_ :=
    fold_left
      (fun acc trade_offer =>
         acc ++ map (Coin_name lib)
                    (get_involved_coins lib (Offer_from_bytes lib (offer trade_offer))))
      all_pending [] in
  let coin_records := get_multiple_coin_records wsm coins_of_interest_ in
  ret (fold_left
         (fun result record =>
            if match wallet_id_ with
               | None => true
               | Some w => cr_wallet_id record =? w
               end
            then dict_set bytes_eqb (record_name record) record result
            else result)
         coin_records []).

(** The wallet an addition counts for in the transaction history: the owner
    of its puzzle hash, when its parent is a settlement coin. *)
Definition addition_owner (settlement_coin_ids : list bytes32) (addition : Coin) : option Z :=
  if bytes_in (parent_coin_info addition) settlement_coin_ids
  then option_map fst (get_wallet_id_for_puzzle_hash wsm (puzzle_hash addition))
  else None.

(** An entry of the offer dictionary on which the first loop of
    [_create_offer_for_ids] raises: an unknown wallet, a request from a
    wallet of another type than the two supported, or an offer above the
    confirmed balance. *)
Definition entry_refused (entry : Z * Z) : Prop :=
  0 <= fst entry < 2 ^ 32
  /\ match wallets wsm (fst entry) with
     | None => True
     | Some wallet =>
         (0 < snd entry /\ type wallet = OTHER_WALLET)
         \/ (snd entry < 0 /\ get_confirmed_balance wallet < Z.abs (snd entry))
     end.

(** The destination, fee and flag of a signing request. *)
Definition request_fee (r : SignRequest) : Z :=
  match r with
  | SignStandard _ _ _ fee _ _ => fee
  | SignColoured _ _ _ fee _ _ => fee
  end.

Definition request_puzzle_hashes (r : SignRequest) : list bytes32 :=
  match r with
  | SignStandard _ _ ph _ _ _ => [ph]
  | SignColoured _ _ phs _ _ _ => phs
  end.

Definition request_amounts (r : SignRequest) : list Z :=
  match r with
  | SignStandard _ amt _ _ _ _ => [amt]
  | SignColoured _ amts _ _ _ _ => amts
  end.

Definition request_wallet (r : SignRequest) : Z :=
  match r with
  | SignStandard wid _ _ _ _ _ => wid
  | SignColoured wid _ _ _ _ _ => wid
  end.

Definition request_coins (r : SignRequest) : list Coin :=
  match r with
  | SignStandard _ _ _ _ coins _ => coins
  | SignColoured _ _ _ _ coins _ => coins
  end.

Definition request_ignore_max (r : SignRequest) : bool :=
  match r with
  | SignStandard _ _ _ _ _ ignore_max => ignore_max
  | SignColoured _ _ _ _ _ ignore_max => ignore_max
  end.

(** The asset ids [maybe_create_wallets_for_offer] has to create a wallet
    for: the coloured keys of the arbitrage, in order, that
    [get_wallet_for_colour] does not know. *)
Definition wallets_to_create (o : Offer) : list bytes32 :=
  flat_map (fun key =>
              match key with
              | None => []
              | Some k =>
                  match get_wallet_for_colour wsm (ColourBytes k) with
                  | Some _ => []
                  | None => [k]
                  end
              end)
           (dict_keys (arbitrage lib o)).

(** The world after the handler's remark on an unspent coin. *)
Definition after_spent_note (coin_state : CoinState) (s : State) : State :=
  match spent_height coin_state with
  | None => push_log (LogCoinNotSpent (cs_coin coin_state)) s
  | Some _ => s
  end.

(** The state the handler moves a trade to when the ledger knows none of
    our settlement coins. *)
Definition unsettled_status (st : TradeStatus) : TradeStatus :=
  match st with
  | PENDING_CANCEL => CANCELLED
  | PENDING_CONFIRM => FAILED
  | _ => st
  end.

(** The INCOMING_TRADE row of one addition, as the specification words it
    (§4.C). *)
Definition incoming_row_of (final_spend_bundle : SpendBundle)
           (settlement_coin_ids : list bytes32)
           (addition : Coin) (row : TransactionRecord) : Prop :=
  tx_type row = INCOMING_TRADE
  /\ tx_amount row = amount addition
  /\ fee_amount row = 0
  /\ name row = std_hash lib (SpendBundle_name lib final_spend_bundle
                              ++ Coin_name lib addition)
  /\ exists wid wallet,
      addition_owner settlement_coin_ids addition = Some wid
      /\ wallets wsm wid = Some wallet
      /\ wallet_id row = wid
      /\ to_puzzle_hash row = convert_puzzle_hash wallet (puzzle_hash addition).

Definition has_owner (settlement_coin_ids : list bytes32) (addition : Coin) : bool :=
  match addition_owner settlement_coin_ids addition with
  | Some _ => true
  | None => false
  end.

End TradeManager.



(** * A small world to run the manager in

    One concrete choice of the library and of the wallet state manager: a
    base-asset wallet (id 1), a coloured-coin wallet of colour [K] (id 2), a
    wallet of a type offers do not support (id 3) and a base-asset wallet
    whose coin selection fails (id 4).  The hash and codec are toys: the
    manager never looks inside them. *)

Module Scenario.

Definition b32 (x : byte) : bytes32 := repeat x 32.

Definition byte_of_Z (z : Z) : byte :=
  match Byte.of_N (Z.to_N (z mod 256)) with
  | Some x => x
  | None => x00
  end.

Definition head_Z (b : bytes) : Z :=
  match b with
  | [] => 0
  | x :: _ => Z.of_N (Byte.to_N x)
  end.

Fixpoint toy_sum (i : Z) (b : bytes) : Z :=
  match b with
  | [] => i
  | x :: b' => i * Z.of_N (Byte.to_N x) + toy_sum (i + 1) b'
  end.

Definition toy_hash (b : bytes) : bytes32 := b32 (byte_of_Z (toy_sum 1 b mod 251)).

Definition toy_coin_name (c : Coin) : bytes32 :=
  b32 (byte_of_Z (head_Z (parent_coin_info c) * 7 + head_Z (puzzle_hash c) * 3 + amount c)).

Definition SETTLEMENT_PH : bytes32 := b32 x5e.

(** The asset a toy coin spend moves: its puzzle reveal, empty for the base
    asset. *)
Definition key_of (cs : CoinSpend) : asset_key :=
  match puzzle_reveal cs with
  | [] => None
  | k => Some k
  end.

Definition settlement_coin (cs : CoinSpend) : Coin :=
  {| parent_coin_info := toy_coin_name (spend_coin cs);
     puzzle_hash := SETTLEMENT_PH;
     amount := amount (spend_coin cs) |}.

Definition toy_primary_coins (o : Offer) : list Coin :=
  map spend_coin (coin_spends (bundle o)).

Definition toy_offered_coins (o : Offer) : list (asset_key * list Coin) :=
  map (fun cs => (key_of cs, [settlement_coin cs])) (coin_spends (bundle o)).

Definition toy_arbitrage (o : Offer) : list (asset_key * Z) :=
  map (fun cs => (key_of cs, amount (spend_coin cs))) (coin_spends (bundle o))
  ++ map (fun e => (fst e, - fold_right Z.add 0 (map (fun n => p_amount (np_payment n)) (snd e))))
         (requested_payments o).

Definition toy_bytes (o : Offer) : bytes :=
  flat_map (fun cs => toy_coin_name (spend_coin cs)) (coin_spends (bundle o))
  ++ flat_map (fun e => flat_map (fun n => p_puzzle_hash (np_payment n)) (snd e))
              (requested_payments o).

Definition toy_aggregate (bs : list SpendBundle) : SpendBundle :=
  {| coin_spends := flat_map coin_spends bs;
     aggregated_signature := flat_map aggregated_signature bs |}.

(** The payee of a settlement coin: the first payment requested under its
    asset key. *)
Definition payee (o : Offer) (k : asset_key) : bytes32 :=
  match dict_get asset_key_eqb k (requested_payments o) with
  | Some (n :: _) => p_puzzle_hash (np_payment n)
  | _ => []
  end.

Definition toy_valid_spend (o : Offer) : SpendBundle :=
  {| coin_spends :=
       coin_spends (bundle o)
       ++ map (fun cs => {| spend_coin := settlement_coin cs;
                            puzzle_reveal := puzzle_reveal cs;
                            solution := payee o (key_of cs) |})
              (coin_spends (bundle o));
     aggregated_signature := aggregated_signature (bundle o) |}.

Definition toy_additions (b : SpendBundle) : list Coin :=
  map (fun cs => {| parent_coin_info := toy_coin_name (spend_coin cs);
                    puzzle_hash := solution cs;
                    amount := amount (spend_coin cs) |})
      (coin_spends b).

Definition toy_not_ephemeral_additions (b : SpendBundle) : list Coin :=
  toy_additions
    {| coin_spends :=
         filter (fun cs => bytes_eqb (puzzle_hash (spend_coin cs)) SETTLEMENT_PH) (coin_spends b);
       aggregated_signature := [] |}.

Definition toy_notarize (requested : list (asset_key * list Payment)) (all_coins : list Coin)
  : list (asset_key * list NotarizedPayment) :=
  let nonce := toy_hash (flat_map toy_coin_name all_coins) in
  map (fun e => (fst e, map (fun p => {| np_nonce := nonce; np_payment := p |}) (snd e)))
      requested.

Definition toy_announcements (notarized : list (asset_key * list NotarizedPayment))
  : list Announcement :=
  flat_map (fun e => map (fun n => {| origin_info := SETTLEMENT_PH;
                                      message := p_puzzle_hash (np_payment n) |}) (snd e))
           notarized.

(** The coin the maker offers and the coin the taker pays with. *)
Definition maker_coin : Coin :=
  {| parent_coin_info := b32 x01; puzzle_hash := b32 x11; amount := 100 |}.

Definition cat_coin : Coin :=
  {| parent_coin_info := b32 x02; puzzle_hash := b32 x22; amount := 50 |}.

Definition K : bytes32 := b32 xcc.

Definition spend_of (reveal : bytes) (to_ph : bytes32) (c : Coin) : CoinSpend :=
  {| spend_coin := c; puzzle_reveal := reveal; solution := to_ph |}.

(** The maker's offer: 100 of the base asset for 50 of colour [K]. *)
Definition maker_offer : Offer :=
  {| requested_payments :=
       [(Some K, [{| np_nonce := toy_hash (toy_coin_name maker_coin);
                     np_payment := {| p_puzzle_hash := b32 x12; p_amount := 50;
                                      p_memos := Some [b32 x12] |} |}])];
     bundle := {| coin_spends := [spend_of [] SETTLEMENT_PH maker_coin];
                  aggregated_signature := [x01] |} |}.

(** The same offer asking for a colour nobody here holds. *)
Definition stranger_offer : Offer :=
  {| requested_payments :=
       [(Some (b32 x99), [{| np_nonce := toy_hash (toy_coin_name maker_coin);
                             np_payment := {| p_puzzle_hash := b32 x12; p_amount := 50;
                                              p_memos := Some [b32 x12] |} |}])];
     bundle := bundle maker_offer |}.

Definition empty_offer : Offer :=
  {| requested_payments := [];
     bundle := {| coin_spends := []; aggregated_signature := [] |} |}.

(** An offer of both coins, 100 of the base asset and 50 of colour [K],
    for 10 of another colour: it has two settlement coins. *)
Definition pair_offer : Offer :=
  {| requested_payments :=
       [(Some (b32 x99), [{| np_nonce := toy_hash (toy_coin_name maker_coin
                                                   ++ toy_coin_name cat_coin);
                             np_payment := {| p_puzzle_hash := b32 x12; p_amount := 10;
                                              p_memos := Some [b32 x12] |} |}])];
     bundle := {| coin_spends := [spend_of [] SETTLEMENT_PH maker_coin;
                                  spend_of K SETTLEMENT_PH cat_coin];
                  aggregated_signature := [x01; x02] |} |}.

Definition toy_from_bytes (b : bytes) : Offer :=
  if bytes_eqb b (toy_bytes maker_offer) then maker_offer
  else if bytes_eqb b (toy_bytes pair_offer) then pair_offer
  else empty_offer.

(** A store that refuses a null index and takes 0 for no index. *)
Definition strict_index (height : option Z) (current : Z) : Result Z :=
  match height with
  | None => Raise TypeError
  | Some h => Ok (if h =? 0 then current else h)
  end.

Definition library (index : option Z -> Z -> Result Z) (standard_wallet_truthy : bool)
  : Library :=
  {| std_hash := toy_hash;
     Coin_name := toy_coin_name;
     tree_hash := fun l => toy_hash (flat_map (fun t => fst (fst t) ++ snd (fst t)) l);
     str_bytes32 := hex;
     str_WalletType := fun t =>
       match t with
       | STANDARD_WALLET => "WalletType.STANDARD_WALLET"
       | COLOURED_COIN => "WalletType.COLOURED_COIN"
       | OTHER_WALLET => "WalletType.RATE_LIMITED"
       end;
     STANDARD_WALLET_truthy := standard_wallet_truthy;
     Offer_from_bytes := toy_from_bytes;
     Offer_bytes := toy_bytes;
     get_primary_coins := toy_primary_coins;
     get_offered_coins := toy_offered_coins;
     get_involved_coins := fun o => toy_primary_coins o ++ flat_map snd (toy_offered_coins o);
     arbitrage := toy_arbitrage;
     notarize_payments := toy_notarize;
     calculate_announcements := toy_announcements;
     Announcement_name := fun a => toy_hash (origin_info a ++ message a);
     Offer_ph := SETTLEMENT_PH;
     Offer_aggregate := fun os =>
       {| requested_payments := flat_map requested_payments os;
          bundle := toy_aggregate (map bundle os) |};
     is_valid := fun _ => true;
     to_valid_spend := toy_valid_spend;
     SpendBundle_aggregate := toy_aggregate;
     SpendBundle_name := fun b => toy_hash (flat_map (fun cs => toy_coin_name (spend_coin cs))
                                                     (coin_spends b));
     removals := fun b => map spend_coin (coin_spends b);
     additions := toy_additions;
     not_ephemeral_additions := toy_not_ephemeral_additions;
     get_memos := fun _ => [];
     set_status_index := index |}.

Definition lib (standard_wallet_truthy : bool) : Library :=
  library strict_index standard_wallet_truthy.

Definition signed (wid : Z) (reveal : bytes) (amt : Z) (ph : bytes32) (fee : Z)
           (coins : list Coin) : TransactionRecord :=
  {| confirmed_at_height := 0;
     tx_created_at_time := 0;
     to_puzzle_hash := ph;
     tx_amount := amt;
     fee_amount := fee;
     confirmed := false;
     tx_sent := 0;
     spend_bundle := Some {| coin_spends := map (spend_of reveal ph) coins;
                             aggregated_signature := [byte_of_Z wid] |};
     tx_additions := [];
     tx_removals := coins;
     wallet_id := wid;
     tx_sent_to := [];
     tx_trade_id := None;
     tx_type := OUTGOING_TRADE;
     name := toy_hash (flat_map toy_coin_name coins ++ ph);
     memos := [] |}.

Definition base_wallet (wid : Z) (sel : Z -> Result (list Coin)) : Wallet :=
  {| id := wid;
     type := STANDARD_WALLET;
     get_colour := "";
     get_confirmed_balance := 100;
     select_coins := sel;
     puzzlehash_at := fun n => b32 (byte_of_Z (64 + Z.of_nat n));
     convert_puzzle_hash := fun ph => ph;
     generate_signed_transaction := fun amt ph fee coins _ => signed wid [] amt ph fee coins;
     generate_signed_transaction_cc := fun _ _ _ _ _ => [] |}.

Definition wallet1 : Wallet := base_wallet 1 (fun _ => Ok [maker_coin]).

Definition wallet2 : Wallet :=
  {| id := 2;
     type := COLOURED_COIN;
     get_colour := hex K;
     get_confirmed_balance := 50;
     select_coins := fun _ => Ok [cat_coin];
     puzzlehash_at := fun n => b32 (byte_of_Z (128 + Z.of_nat n));
     convert_puzzle_hash := fun ph => ph;
     generate_signed_transaction := fun amt ph fee coins _ => signed 2 K amt ph fee coins;
     generate_signed_transaction_cc := fun amts phs fee coins _ =>
       [signed 2 K (fold_right Z.add 0 amts) (List.concat phs) fee coins] |}.

Definition wallet3 : Wallet :=
  {| id := 3;
     type := OTHER_WALLET;
     get_colour := "";
     get_confirmed_balance := 100;
     select_coins := fun _ => Ok [];
     puzzlehash_at := fun n => b32 (byte_of_Z (192 + Z.of_nat n));
     convert_puzzle_hash := fun ph => ph;
     generate_signed_transaction := fun amt ph fee coins _ => signed 3 [] amt ph fee coins;
     generate_signed_transaction_cc := fun _ _ _ _ _ => [] |}.

Definition wallet4 : Wallet :=
  base_wallet 4 (fun _ => Raise (Exception "Not enough coins to cover the amount")).

Definition is_derived_ph (ph : bytes32) : bool :=
  (64 <=? head_Z ph) && (head_Z ph <? 128).

(** The wallet state manager over a given view of the ledger. *)
Definition wsm (ledger : list bytes32 -> option (list CoinState)) : WalletStateManager :=
  {| wallets := fun wid =>
       if wid =? 1 then Some wallet1
       else if wid =? 2 then Some wallet2
       else if wid =? 3 then Some wallet3
       else if wid =? 4 then Some wallet4
       else None;
     main_wallet := wallet1;
     get_multiple_coin_records := fun ids =>
       (if bytes_in (toy_coin_name maker_coin) ids
        then [{| cr_coin := maker_coin; cr_wallet_id := 1 |}] else [])
       ++ (if bytes_in (toy_coin_name cat_coin) ids
           then [{| cr_coin := cat_coin; cr_wallet_id := 2 |}] else []);
     get_coin_state := ledger;
     get_wallet_for_coin := fun cid =>
       if bytes_eqb cid (toy_coin_name maker_coin) then Some wallet1
       else if bytes_eqb cid (toy_coin_name cat_coin) then Some wallet2
       else None;
     get_wallet_for_colour := fun c =>
       match c with
       | ColourHex h => if String.eqb h (hex K) then Some wallet2 else None
       | ColourBytes _ => None
       end;
     get_wallet_id_for_puzzle_hash := fun ph =>
       if bytes_eqb ph (puzzle_hash maker_coin) || is_derived_ph ph then Some (1, STANDARD_WALLET)
       else if bytes_eqb ph (puzzle_hash cat_coin) then Some (2, COLOURED_COIN)
       else None;
     pending_transaction_refused := fun _ => None;
     transaction_refused := fun _ => None |}.

(** A ledger that knows none of the coins asked for. *)
Definition silent_ledger : list bytes32 -> option (list CoinState) := fun _ => Some [].

(** A ledger on which the maker's settlement coin exists and is unspent. *)
Definition maker_settlement_coin : Coin :=
  settlement_coin (spend_of [] SETTLEMENT_PH maker_coin).

Definition unspent_ledger : list bytes32 -> option (list CoinState) :=
  fun ids =>
    Some (if bytes_in (toy_coin_name maker_settlement_coin) ids
          then [{| cs_coin := maker_settlement_coin;
                   spent_height := None|}]
          else []).

(** A ledger on which it has been spent at height 7. *)
Definition spent_ledger : list bytes32 -> option (list CoinState) :=
  fun ids =>
    Some (if bytes_in (toy_coin_name maker_settlement_coin) ids
          then [{| cs_coin := maker_settlement_coin;
                   spent_height := Some 7|}]
          else []).

Definition maker_trade (st : TradeStatus) : TradeRecord :=
  {| confirmed_at_index := 0;
     accepted_at_time := None;
     created_at_time := 1700000000;
     is_my_offer := true;
     sent := 0;
     offer := toy_bytes maker_offer;
     coins_of_interest := toy_primary_coins maker_offer
                          ++ flat_map snd (toy_offered_coins maker_offer);
     trade_id := toy_hash (toy_bytes maker_offer);
     status := st;
     sent_to := [] |}.

Definition world (ts : list TradeRecord) : State :=
  {| trade_store := ts;
     pending_transactions := [];
     transactions := [];
     derivation_index := 0;
     sign_requests := [];
     created_cc_wallets := [];
     log := [];
     time_now := 1700000000 |}.

Definition maker_trade_id : bytes32 := toy_hash (toy_bytes maker_offer).

(** The maker's coin, seen spent at height 7, and seen merely created. *)
Definition maker_coin_spent : CoinState :=
  {| cs_coin := maker_coin; spent_height := Some 7 |}.

Definition maker_coin_created : CoinState :=
  {| cs_coin := maker_coin; spent_height := None |}.

(** A store with a trade in every state but one, each on a coin of its
    own. *)
Definition coin_n (n : Z) : Coin :=
  {| parent_coin_info := b32 (byte_of_Z n); puzzle_hash := b32 x11; amount := n |}.

Definition trade_n (n : Z) (st : TradeStatus) : TradeRecord :=
  {| confirmed_at_index := 0;
     accepted_at_time := None;
     created_at_time := 1700000000;
     is_my_offer := true;
     sent := 0;
     offer := [byte_of_Z n];
     coins_of_interest := [coin_n n];
     trade_id := b32 (byte_of_Z n);
     status := st;
     sent_to := [] |}.

Definition mixed_store : list TradeRecord :=
  [trade_n 1 CANCELLED; trade_n 2 PENDING_ACCEPT; trade_n 3 CONFIRMED;
   trade_n 4 PENDING_CANCEL; trade_n 5 FAILED; maker_trade PENDING_CONFIRM].

(** A coloured-coin wallet that answers a signing request with no record,
    and a state manager in which it owns every coin. *)
Definition silent_cat_wallet : Wallet :=
  {| id := 6;
     type := COLOURED_COIN;
     get_colour := hex K;
     get_confirmed_balance := 50;
     select_coins := fun _ => Ok [cat_coin];
     puzzlehash_at := fun n => b32 (byte_of_Z (160 + Z.of_nat n));
     convert_puzzle_hash := fun ph => ph;
     generate_signed_transaction := fun amt ph fee coins _ => signed 6 K amt ph fee coins;
     generate_signed_transaction_cc := fun _ _ _ _ _ => [] |}.

Definition silent_cat_wsm : WalletStateManager :=
  {| wallets := wallets (wsm silent_ledger);
     main_wallet := wallet1;
     get_multiple_coin_records := get_multiple_coin_records (wsm silent_ledger);
     get_coin_state := silent_ledger;
     get_wallet_for_coin := fun _ => Some silent_cat_wallet;
     get_wallet_for_colour := get_wallet_for_colour (wsm silent_ledger);
     get_wallet_id_for_puzzle_hash := get_wallet_id_for_puzzle_hash (wsm silent_ledger);
     pending_transaction_refused := fun _ => None;
     transaction_refused := fun _ => None |}.

(** A ledger on which the first settlement coin of [pair_offer] exists
    unspent and the second has been spent at height [h]. *)
Definition cat_settlement_coin : Coin :=
  settlement_coin (spend_of K SETTLEMENT_PH cat_coin).

Definition half_spent_ledger (h : Z) : list bytes32 -> option (list CoinState) :=
  fun ids =>
    Some ((if bytes_in (toy_coin_name maker_settlement_coin) ids
           then [{| cs_coin := maker_settlement_coin; spent_height := None |}]
           else [])
          ++ (if bytes_in (toy_coin_name cat_settlement_coin) ids
              then [{| cs_coin := cat_settlement_coin; spent_height := Some h |}]
              else [])).

Definition pair_trade (st : TradeStatus) : TradeRecord :=
  {| confirmed_at_index := 0;
     accepted_at_time := None;
     created_at_time := 1700000000;
     is_my_offer := true;
     sent := 0;
     offer := toy_bytes pair_offer;
     coins_of_interest := toy_primary_coins pair_offer
                          ++ flat_map snd (toy_offered_coins pair_offer);
     trade_id := toy_hash (toy_bytes pair_offer);
     status := st;
     sent_to := [] |}.

Definition pair_trade_id : bytes32 := toy_hash (toy_bytes pair_offer).

(** A state manager whose transaction store is out of order. *)
Definition refusing_wsm : WalletStateManager :=
  {| wallets := wallets (wsm silent_ledger);
     main_wallet := wallet1;
     get_multiple_coin_records := get_multiple_coin_records (wsm silent_ledger);
     get_coin_state := silent_ledger;
     get_wallet_for_coin := get_wallet_for_coin (wsm silent_ledger);
     get_wallet_for_colour := get_wallet_for_colour (wsm silent_ledger);
     get_wallet_id_for_puzzle_hash := get_wallet_id_for_puzzle_hash (wsm silent_ledger);
     pending_transaction_refused := fun _ => None;
     transaction_refused := fun _ => Some (Exception "database is locked") |}.

End Scenario.

(** * Properties *)

(** ** Equality tests *)

Lemma bytes_eqb_eq (a b : bytes) : bytes_eqb a b = true <-> a = b.
Proof.
  unfold bytes_eqb. destruct (list_eq_dec Byte.byte_eq_dec a b); split; congruence.
Qed.

Lemma bytes_eqb_refl (a : bytes) : bytes_eqb a a = true.
Proof. now apply bytes_eqb_eq. Qed.

Lemma bytes_eqb_neq (a b : bytes) : bytes_eqb a b = false <-> a <> b.
Proof.
  unfold bytes_eqb. destruct (list_eq_dec Byte.byte_eq_dec a b); split; congruence.
Qed.

Lemma bytes_in_In (x : bytes) (xs : list bytes) : bytes_in x xs = true <-> In x xs.
Proof.
  unfold bytes_in. rewrite existsb_exists. split.
  - intros [y [Hy He]]. apply bytes_eqb_eq in He. now subst.
  - intros H. exists x. split; [assumption | apply bytes_eqb_refl].
Qed.

Lemma Coin_eqb_eq (a b : Coin) : Coin_eqb a b = true <-> a = b.
Proof.
  unfold Coin_eqb. destruct a, b; simpl.
  rewrite !andb_true_iff, !bytes_eqb_eq, Z.eqb_eq. split.
  - intros [[-> ->] ->]. reflexivity.
  - intros H. injection H as -> -> ->. auto.
Qed.

Lemma TradeStatus_eqb_eq (a b : TradeStatus) : TradeStatus_eqb a b = true <-> a = b.
Proof. destruct a, b; simpl; split; congruence. Qed.



(** ** The trade store *)

Lemma get_trade_record_id (tid : bytes32) (ts : list TradeRecord) (r : TradeRecord) :
  TradeStore.get_trade_record tid ts = Some r -> trade_id r = tid.
Proof.
  induction ts as [|r' ts IH]; simpl; [discriminate|].
  destruct (bytes_eqb tid (trade_id r')) eqn:E.
  - intros H. injection H as <-. symmetry. now apply bytes_eqb_eq.
  - exact IH.
Qed.

Lemma get_trade_record_In (tid : bytes32) (ts : list TradeRecord) (r : TradeRecord) :
  TradeStore.get_trade_record tid ts = Some r -> In r ts.
Proof.
  induction ts as [|r' ts IH]; simpl; [discriminate|].
  destruct (bytes_eqb tid (trade_id r')).
  - intros H. injection H as <-. now left.
  - intros H. right. now apply IH.
Qed.

Lemma get_add_trade_record (k : bytes32) (r : TradeRecord) (ts : list TradeRecord) :
  TradeStore.get_trade_record k (TradeStore.add_trade_record r ts)
  = if bytes_eqb k (trade_id r) then Some r else TradeStore.get_trade_record k ts.
Proof.
  induction ts as [|r' ts IH]; simpl.
  - reflexivity.
  - destruct (bytes_eqb (trade_id r) (trade_id r')) eqn:E; simpl.
    + apply bytes_eqb_eq in E. rewrite <- E.
      destruct (bytes_eqb k (trade_id r)); reflexivity.
    + rewrite IH. destruct (bytes_eqb k (trade_id r')) eqn:E'; [|reflexivity].
      apply bytes_eqb_eq in E'. subst k.
      destruct (bytes_eqb (trade_id r') (trade_id r)) eqn:E''; [|reflexivity].
      apply bytes_eqb_eq in E''. rewrite E'', bytes_eqb_refl in E. discriminate.
Qed.

Lemma get_set_status (k tid : bytes32) (st : TradeStatus) (idx : option Z)
      (ts : list TradeRecord) :
  TradeStore.get_trade_record k (TradeStore.set_status tid st idx ts)
  = if bytes_eqb k tid
    then option_map (fun r => with_status r st idx) (TradeStore.get_trade_record tid ts)
    else TradeStore.get_trade_record k ts.
Proof.
  unfold TradeStore.set_status.
  destruct (TradeStore.get_trade_record tid ts) as [cur|] eqn:G.
  - rewrite get_add_trade_record. simpl.
    rewrite (get_trade_record_id _ _ _ G). reflexivity.
  - destruct (bytes_eqb k tid) eqn:E; [|reflexivity].
    apply bytes_eqb_eq in E. subst k. rewrite G. reflexivity.
Qed.

Lemma unique_ids_get (ts : list TradeRecord) (r : TradeRecord) :
  TradeStore.unique_ids ts -> In r ts ->
  TradeStore.get_trade_record (trade_id r) ts = Some r.
Proof.
  unfold TradeStore.unique_ids.
  induction ts as [|r' ts IH]; simpl; [contradiction|].
  intros Hnd [->|Hin].
  - now rewrite bytes_eqb_refl.
  - inversion Hnd as [|x l Hnot Hnd']; subst.
    destruct (bytes_eqb (trade_id r) (trade_id r')) eqn:E.
    + apply bytes_eqb_eq in E. exfalso. apply Hnot. rewrite <- E. now apply in_map.
    + now apply IH.
Qed.

Lemma add_trade_record_ids (r : TradeRecord) (ts : list TradeRecord) :
  map trade_id (TradeStore.add_trade_record r ts)
  = if bytes_in (trade_id r) (map trade_id ts) then map trade_id ts
    else map trade_id ts ++ [trade_id r].
Proof.
  induction ts as [|r' ts IH]; simpl; [reflexivity|].
  destruct (bytes_eqb (trade_id r) (trade_id r')) eqn:E; simpl.
  - apply bytes_eqb_eq in E. now rewrite E.
  - rewrite IH. unfold bytes_in. now destruct (existsb _ _).
Qed.

(** The store keeps one row per trade id. *)
Lemma add_trade_record_unique (r : TradeRecord) (ts : list TradeRecord) :
  TradeStore.unique_ids ts -> TradeStore.unique_ids (TradeStore.add_trade_record r ts).
Proof.
  unfold TradeStore.unique_ids. intros H. rewrite add_trade_record_ids.
  destruct (bytes_in (trade_id r) (map trade_id ts)) eqn:E; [assumption|].
  apply NoDup_app; [assumption | repeat constructor; intros [] | ].
  intros x Hx [<-|[]]. apply bytes_in_In in Hx. congruence.
Qed.

Lemma set_status_unique (tid : bytes32) (st : TradeStatus) (idx : option Z)
      (ts : list TradeRecord) :
  TradeStore.unique_ids ts -> TradeStore.unique_ids (TradeStore.set_status tid st idx ts).
Proof.
  unfold TradeStore.set_status. intros H.
  destruct (TradeStore.get_trade_record tid ts); [|assumption].
  now apply add_trade_record_unique.
Qed.

Lemma status_of_set_status (k tid : bytes32) (st : TradeStatus) (idx : option Z) (s : State) :
  status_of k (set_trade_store (TradeStore.set_status tid st idx (trade_store s)) s)
  = if bytes_eqb k tid
    then option_map (fun _ => st) (status_of tid s)
    else status_of k s.
Proof.
  unfold status_of. simpl. rewrite get_set_status.
  destruct (bytes_eqb k tid); [|reflexivity].
  now destruct (TradeStore.get_trade_record tid (trade_store s)).
Qed.

(** ** Loops *)

Lemma foldM_preserves {A B : Type} (R : State -> State -> Prop) (f : B -> A -> M B) :
  (forall s, R s s) ->
  (forall a b c, R a b -> R b c -> R a c) ->
  (forall acc x s, R s (snd (f acc x s))) ->
  forall l acc s, R s (snd (foldM f l acc s)).
Proof.
  intros Hrefl Htrans Hstep. induction l as [|x l IH]; intros acc s; simpl.
  - apply Hrefl.
  - unfold bind. specialize (Hstep acc x s).
    destruct (f acc x s) as [[acc'|e] s1]; simpl in *.
    + eapply Htrans; [exact Hstep | apply IH].
    + exact Hstep.
Qed.

Lemma same_store_refl (s : State) : same_store s s.
Proof. reflexivity. Qed.

Lemma same_store_trans (a b c : State) : same_store a b -> same_store b c -> same_store a c.
Proof. unfold same_store. congruence. Qed.

(** ** The on-ledger handler and the cancellations *)

Section Lifecycle.

Variable lib : Library.
Variable wsm : WalletStateManager.

Lemma first_trade_with_coin_spec (coin : Coin) (ts : list TradeRecord) (t : TradeRecord) :
  first_trade_with_coin coin ts = Some t ->
  In t ts /\ status t <> CANCELLED /\ In coin (coins_of_interest t).
Proof.
  induction ts as [|r ts IH]; simpl; [discriminate|].
  destruct (TradeStatus_eqb (status r) CANCELLED) eqn:E.
  - intros H. destruct (IH H) as (? & ? & ?). auto.
  - destruct (existsb (Coin_eqb coin) (coins_of_interest r)) eqn:E'.
    + intros H. injection H as <-. repeat split.
      * now left.
      * intros Hc. apply TradeStatus_eqb_eq in Hc. congruence.
      * apply existsb_exists in E'. destruct E' as [c [Hc He]].
        apply Coin_eqb_eq in He. now subst.
    + intros H. destruct (IH H) as (? & ? & ?). auto.
Qed.

Lemma maybe_create_wallets_store (o : Offer) (s : State) :
  same_store s (snd (maybe_create_wallets_for_offer lib wsm o s)).
Proof.
  unfold maybe_create_wallets_for_offer, forM_.
  apply foldM_preserves; [apply same_store_refl | apply same_store_trans |].
  intros _ [k|] s0; [|reflexivity].
  destruct (get_wallet_for_colour wsm (ColourBytes k)); reflexivity.
Qed.

(** What one run of the handler does to the store: nothing, or one
    [set_status] on the trade that [get_trade_by_coin] found. *)
Lemma handler_store (cs : CoinState) (s : State) :
  let ts' := trade_store (snd (coins_of_interest_farmed lib wsm cs s)) in
  ts' = trade_store s \/
  exists t st idx,
    first_trade_with_coin (cs_coin cs) (trade_store s) = Some t /\
    ts' = TradeStore.set_status (trade_id t) st idx (trade_store s) /\
    (st = CONFIRMED \/
     (st = CANCELLED /\ status t = PENDING_CANCEL) \/
     (st = FAILED /\ status t = PENDING_CONFIRM)).
Proof.
  unfold coins_of_interest_farmed, get_trade_by_coin, get_all_trades, gets, bind, ret.
  destruct (first_trade_with_coin (cs_coin cs) (trade_store s)) as [t|] eqn:F;
    [|left; reflexivity].
  assert (Hrest : forall s1, trade_store s1 = trade_store s ->
    let ts' := trade_store (snd (
      match get_coin_state wsm (our_settlement_ids lib wsm (Offer_from_bytes lib (offer t))) with
      | None => raise AssertionError
      | Some coin_states =>
          if intersects (our_settlement_ids lib wsm (Offer_from_bytes lib (offer t)))
                        (map (fun cs0 => Coin_name lib (cs_coin cs0)) coin_states)
          then match coin_states with
               | [] => raise IndexError
               | first :: _ =>
                   maybe_create_wallets_for_offer lib wsm (Offer_from_bytes lib (offer t)) ;;;
                   set_status_at lib (trade_id t) CONFIRMED (spent_height first) ;;;
                   log_event (LogTradeConfirmed (trade_id t) (spent_height first))
               end
          else match status t with
               | PENDING_CANCEL =>
                   set_status (trade_id t) CANCELLED None ;;;
                   log_event (LogTradeCanceled (trade_id t))
               | PENDING_CONFIRM =>
                   set_status (trade_id t) FAILED None ;;;
                   log_event (LogTradeFailed (trade_id t))
               | _ => ret tt
               end
      end s1)) in
    ts' = trade_store s \/
    exists t0 st idx,
      Some t = Some t0 /\
      ts' = TradeStore.set_status (trade_id t0) st idx (trade_store s) /\
      (st = CONFIRMED \/
       (st = CANCELLED /\ status t0 = PENDING_CANCEL) \/
       (st = FAILED /\ status t0 = PENDING_CONFIRM))).
  { intros s1 H1.
    destruct (get_coin_state wsm _) as [coin_states|]; [|left; exact H1].
    destruct (intersects _ _).
    - destruct coin_states as [|first rest]; [left; exact H1|].
      pose proof (maybe_create_wallets_store (Offer_from_bytes lib (offer t)) s1) as Hm.
      unfold bind.
      destruct (maybe_create_wallets_for_offer lib wsm _ s1) as [[[]|e] s2];
        simpl in Hm; unfold same_store in Hm; [|left; simpl; congruence].
      unfold set_status_at, TradeStore.set_status_at.
      destruct (TradeStore.get_trade_record (trade_id t) (trade_store s2));
        [|left; simpl; congruence].
      destruct (set_status_index lib (spent_height first) _) as [index|e];
        [|left; simpl; congruence].
      right. exists t, CONFIRMED, (Some index). simpl.
      rewrite Hm, H1. repeat split; auto.
    - destruct (status t) eqn:St; simpl; try (left; exact H1).
      + right. exists t, FAILED, None. rewrite H1. repeat split; auto.
      + right. exists t, CANCELLED, None. rewrite H1. repeat split; auto. }
  destruct (spent_height cs); simpl.
  - apply (Hrest s). reflexivity.
  - apply (Hrest (push_log (LogCoinNotSpent (cs_coin cs)) s)). reflexivity.
Qed.

Lemma status_of_store (k : bytes32) (s s' : State) :
  trade_store s' = trade_store s -> status_of k s' = status_of k s.
Proof. unfold status_of. now intros ->. Qed.

Lemma status_of_after_set (k tid : bytes32) (st : TradeStatus) (idx : option Z) (s s' : State) :
  trade_store s' = TradeStore.set_status tid st idx (trade_store s) ->
  status_of k s'
  = if bytes_eqb k tid then option_map (fun _ => st) (status_of tid s) else status_of k s.
Proof.
  intros H. rewrite <- (status_of_set_status k tid st idx s).
  apply status_of_store. simpl. exact H.
Qed.

(** The handler never touches a trade that is CONFIRMED or CANCELLED. *)
Lemma handler_keeps_confirmed_cancelled (cs : CoinState) (s : State) (tid : bytes32)
      (st : TradeStatus) :
  TradeStore.unique_ids (trade_store s) ->
  st = CONFIRMED \/ st = CANCELLED ->
  status_of tid s = Some st ->
  status_of tid (snd (coins_of_interest_farmed lib wsm cs s)) = Some st.
Proof.
  intros Hu Hst Hs.
  destruct (handler_store cs s) as [H | (t & st' & idx & F & H & Hallowed)].
  - rewrite (status_of_store _ _ _ H). exact Hs.
  - rewrite (status_of_after_set _ _ _ _ _ _ H).
    destruct (bytes_eqb tid (trade_id t)) eqn:E; [|exact Hs].
    apply bytes_eqb_eq in E. subst tid.
    apply first_trade_with_coin_spec in F. destruct F as (Hin & Hnc & _).
    unfold status_of in *. rewrite (unique_ids_get _ _ Hu Hin) in *. simpl in *.
    injection Hs as Hs.
    destruct Hst as [-> | ->]; [|congruence].
    destruct Hallowed as [-> | [[_ Hp] | [_ Hp]]]; [reflexivity | congruence | congruence].
Qed.

Lemma cancel_pending_offer_status (tid k : bytes32) (s : State) :
  status_of k (snd (cancel_pending_offer tid s))
  = if bytes_eqb k tid then option_map (fun _ => CANCELLED) (status_of tid s)
    else status_of k s.
Proof.
  unfold cancel_pending_offer, set_status, modify. simpl.
  apply status_of_set_status.
Qed.

End Lifecycle.

Lemma WalletType_eqb_eq (a b : WalletType) : WalletType_eqb a b = true <-> a = b.
Proof. destruct a, b; simpl; split; congruence. Qed.

Section Cancellation.

Variable lib : Library.
Variable wsm : WalletStateManager.

Lemma cancel_loop (coins : list Coin) :
  cancel_signable lib wsm coins ->
  forall s, exists s',
    forM_ coins (cancel_coin lib wsm) s = (Ok tt, s') /\
    trade_store s' = trade_store s /\
    transactions s' = transactions s /\
    pending_transactions s'
    = pending_transactions s ++ cancel_transactions lib wsm coins (derivation_index s) /\
    sign_requests s'
    = sign_requests s ++ cancel_requests lib wsm coins (derivation_index s).
Proof.
  unfold forM_. induction coins as [|coin rest IH]; intros Hok s; simpl.
  - exists s. rewrite !app_nil_r. repeat split; reflexivity.
  - assert (Hrest : cancel_signable lib wsm rest).
    { intros c w n Hin. apply Hok. now right. }
    specialize (IH Hrest).
    unfold bind at 1. unfold cancel_coin.
    destruct (get_wallet_for_coin wsm (Coin_name lib coin)) as [wallet|] eqn:W.
    + destruct (Hok coin wallet (derivation_index s) (or_introl eq_refl) W)
        as [Hne Hacc].
      destruct (WalletType_eqb (type wallet) COLOURED_COIN) eqn:T.
      * pose proof (proj1 (WalletType_eqb_eq _ _) T) as T'.
        specialize (Hne T').
        unfold bind, get_new_puzzlehash, sign_coloured, bind, modify, ret,
          add_pending_transaction.
        destruct (generate_signed_transaction_cc wallet [amount coin]
                    [puzzlehash_at wallet (derivation_index s)] 0 [coin] true)
          as [|tx txs] eqn:G; [congruence|].
        rewrite (Hacc tx (or_introl eq_refl)). unfold modify.
        match goal with
        | |- exists s', foldM _ _ _ ?s1 = _ /\ _ =>
            destruct (IH s1) as (s' & Hrun & H1 & H2 & H3 & H4)
        end.
        exists s'. split; [exact Hrun|].
        rewrite H1, H2, H3, H4. simpl. rewrite <- !app_assoc.
        repeat split; reflexivity.
      * unfold bind, get_new_puzzlehash, sign_standard, bind, modify, ret,
          add_pending_transaction.
        rewrite (Hacc _ (or_introl eq_refl)). unfold modify.
        match goal with
        | |- exists s', foldM _ _ _ ?s1 = _ /\ _ =>
            destruct (IH s1) as (s' & Hrun & H1 & H2 & H3 & H4)
        end.
        exists s'. split; [exact Hrun|].
        rewrite H1, H2, H3, H4. simpl. rewrite <- !app_assoc.
        repeat split; reflexivity.
    + unfold ret. apply IH.
Qed.

End Cancellation.

(** * The trade lifecycle *)

(** C1.  The handler takes the confirmation height from the first coin
    state the ledger returns, spent or not, and only tests that some
    returned state is of one of our settlement coins.  Here the offer has
    two settlement coins on our side; the ledger reports the first unspent
    and the second spent at height [h], so a settlement coin has been spent.
    The height handed to the store is the null [spent_height] of the first
    state.  Whatever the store makes of a null index, [index None 0], the
    claim fails: when it refuses, the handler raises and the trade stays
    PENDING_ACCEPT although a settlement coin has been spent; when it
    accepts, the height recorded is the store's choice for a null index,
    which does not depend on the height [h] that was observed. *)
Theorem confirmation_reads_the_first_coin_state
        (index : option Z -> Z -> Result Z) (h : Z) :
  get_coin_state (Scenario.wsm (Scenario.half_spent_ledger h))
    (our_settlement_ids (Scenario.library index false)
                        (Scenario.wsm (Scenario.half_spent_ledger h))
                        Scenario.pair_offer)
  = Some [{| cs_coin := Scenario.maker_settlement_coin; spent_height := None |};
          {| cs_coin := Scenario.cat_settlement_coin; spent_height := Some h |}]
  /\ status_of Scenario.pair_trade_id
       (Scenario.world [Scenario.pair_trade PENDING_ACCEPT]) = Some PENDING_ACCEPT
  /\ match index None 0 with
     | Raise e =>
         fst (coins_of_interest_farmed
                (Scenario.library index false)
                (Scenario.wsm (Scenario.half_spent_ledger h))
                Scenario.maker_coin_spent
                (Scenario.world [Scenario.pair_trade PENDING_ACCEPT]))
         = Raise e
         /\ trade_store
              (snd (coins_of_interest_farmed
                      (Scenario.library index false)
                      (Scenario.wsm (Scenario.half_spent_ledger h))
                      Scenario.maker_coin_spent
                      (Scenario.world [Scenario.pair_trade PENDING_ACCEPT])))
            = [Scenario.pair_trade PENDING_ACCEPT]
     | Ok i =>
         fst (coins_of_interest_farmed
                (Scenario.library index false)
                (Scenario.wsm (Scenario.half_spent_ledger h))
                Scenario.maker_coin_spent
                (Scenario.world [Scenario.pair_trade PENDING_ACCEPT]))
         = Ok tt
         /\ trade_store
              (snd (coins_of_interest_farmed
                      (Scenario.library index false)
                      (Scenario.wsm (Scenario.half_spent_ledger h))
                      Scenario.maker_coin_spent
                      (Scenario.world [Scenario.pair_trade PENDING_ACCEPT])))
            = [with_status (Scenario.pair_trade PENDING_ACCEPT) CONFIRMED (Some i)]
     end.
Proof.
  split; [reflexivity|]. split; [reflexivity|].
  assert (Hrun :
    coins_of_interest_farmed
      (Scenario.library index false) (Scenario.wsm (Scenario.half_spent_ledger h))
      Scenario.maker_coin_spent (Scenario.world [Scenario.pair_trade PENDING_ACCEPT])
    = match index None 0 with
      | Ok i =>
          (Ok tt,
           push_log (LogTradeConfirmed Scenario.pair_trade_id None)
             (set_trade_store
                [with_status (Scenario.pair_trade PENDING_ACCEPT) CONFIRMED (Some i)]
                (push_log (LogCreatingWallet (Scenario.b32 x99))
                   (push_cc_wallet (Scenario.b32 x99)
                      (push_log (LogCreatingWallet Scenario.K)
                         (push_cc_wallet Scenario.K
                            (Scenario.world [Scenario.pair_trade PENDING_ACCEPT])))))))
      | Raise e =>
          (Raise e,
           push_log (LogCreatingWallet (Scenario.b32 x99))
             (push_cc_wallet (Scenario.b32 x99)
                (push_log (LogCreatingWallet Scenario.K)
                   (push_cc_wallet Scenario.K
                      (Scenario.world [Scenario.pair_trade PENDING_ACCEPT])))))
      end).
  { vm_compute. destruct (index None 0); reflexivity. }
  rewrite Hrun. destruct (index None 0); split; reflexivity.
Qed.

(** C2, as stated, fails: [cancel_pending_offer] turns a CONFIRMED trade
    into a CANCELLED one, [cancel_pending_offer_safely] turns it into a
    PENDING_CANCEL one, and the handler turns a FAILED trade into a
    CONFIRMED one. *)
Lemma terminal_status_overwritten :
  terminal CONFIRMED = true /\ terminal FAILED = true
  /\ status_of Scenario.maker_trade_id (Scenario.world [Scenario.maker_trade CONFIRMED])
     = Some CONFIRMED
  /\ status_of Scenario.maker_trade_id
       (snd (cancel_pending_offer Scenario.maker_trade_id
               (Scenario.world [Scenario.maker_trade CONFIRMED])))
     = Some CANCELLED
  /\ status_of Scenario.maker_trade_id
       (snd (cancel_pending_offer_safely (Scenario.lib false)
               (Scenario.wsm Scenario.silent_ledger) Scenario.maker_trade_id
               (Scenario.world [Scenario.maker_trade CONFIRMED])))
     = Some PENDING_CANCEL
  /\ status_of Scenario.maker_trade_id (Scenario.world [Scenario.maker_trade FAILED])
     = Some FAILED
  /\ status_of Scenario.maker_trade_id
       (snd (coins_of_interest_farmed (Scenario.lib false)
               (Scenario.wsm Scenario.spent_ledger) Scenario.maker_coin_spent
               (Scenario.world [Scenario.maker_trade FAILED])))
     = Some CONFIRMED.
Proof. vm_compute. repeat split; reflexivity. Qed.

(** C2, amended.  In a store with one record per trade id, the handler
    leaves the status of every CONFIRMED and every CANCELLED trade as it is,
    and [cancel_pending_offer] leaves a CANCELLED trade CANCELLED; it sets
    the status of any other trade it is given to CANCELLED, terminal or
    not. *)
Theorem confirmed_and_cancelled_survive_the_handler
        (lib : Library) (wsm : WalletStateManager) (s : State) (tid : bytes32) :
  TradeStore.unique_ids (trade_store s) ->
  (forall cs st,
      st = CONFIRMED \/ st = CANCELLED ->
      status_of tid s = Some st ->
      status_of tid (snd (coins_of_interest_farmed lib wsm cs s)) = Some st)
  /\ (forall tid',
         status_of tid s = Some CANCELLED ->
         status_of tid (snd (cancel_pending_offer tid' s)) = Some CANCELLED)
  /\ (forall st,
         status_of tid s = Some st ->
         status_of tid (snd (cancel_pending_offer tid s)) = Some CANCELLED).
Proof.
  intros Hu. repeat split.
  - intros cs st Hst Hs. now apply handler_keeps_confirmed_cancelled.
  - intros tid' Hs. rewrite cancel_pending_offer_status.
    destruct (bytes_eqb tid tid') eqn:E; [|exact Hs].
    apply bytes_eqb_eq in E. subst tid'. now rewrite Hs.
  - intros st Hs. rewrite cancel_pending_offer_status, bytes_eqb_refl, Hs. reflexivity.
Qed.

Lemma confirmed_and_cancelled_survive_the_handler_witness :
  TradeStore.unique_ids (trade_store (Scenario.world [Scenario.maker_trade CONFIRMED]))
  /\ status_of Scenario.maker_trade_id
       (snd (coins_of_interest_farmed (Scenario.lib false)
               (Scenario.wsm Scenario.silent_ledger) Scenario.maker_coin_spent
               (Scenario.world [Scenario.maker_trade CONFIRMED])))
     = Some CONFIRMED.
Proof.
  assert (Hu : TradeStore.unique_ids
                 (trade_store (Scenario.world [Scenario.maker_trade CONFIRMED]))).
  { repeat constructor. intros []. }
  split; [exact Hu|].
  apply (proj1 (confirmed_and_cancelled_survive_the_handler
                  (Scenario.lib false) (Scenario.wsm Scenario.silent_ledger)
                  (Scenario.world [Scenario.maker_trade CONFIRMED])
                  Scenario.maker_trade_id Hu)
               Scenario.maker_coin_spent CONFIRMED).
  - left. reflexivity.
  - vm_compute. reflexivity.
Defined.

(** C8.  For a trade the store has, [cancel_pending_offer_safely] asks, for
    each primary coin of the offer whose wallet is found, that wallet to
    sign a payment of the coin's whole amount to its next puzzle hash with
    fee 0, spending that coin, submits each answer as a pending transaction
    and leaves the trade PENDING_CANCEL.  A coloured-coin wallet answers
    with a list, assumed not empty, whose first record is submitted, and
    the wallet state manager is assumed to accept the records. *)
Theorem cancel_safely_spends_primary_coins
        (lib : Library) (wsm : WalletStateManager)
        (tid : bytes32) (s : State) (trade : TradeRecord) :
  TradeStore.get_trade_record tid (trade_store s) = Some trade ->
  cancel_signable lib wsm (get_primary_coins lib (Offer_from_bytes lib (offer trade))) ->
  exists s',
    cancel_pending_offer_safely lib wsm tid s = (Ok tt, s')
    /\ sign_requests s'
       = sign_requests s
         ++ cancel_requests lib wsm
              (get_primary_coins lib (Offer_from_bytes lib (offer trade))) (derivation_index s)
    /\ pending_transactions s'
       = pending_transactions s
         ++ cancel_transactions lib wsm
              (get_primary_coins lib (Offer_from_bytes lib (offer trade))) (derivation_index s)
    /\ transactions s' = transactions s
    /\ status_of tid s' = Some PENDING_CANCEL
    /\ (forall k, k <> tid -> status_of k s' = status_of k s).
Proof.
  intros Hget Hok.
  destruct (cancel_loop lib wsm _ Hok (push_log (LogSecureCancel (hex tid)) s))
    as (s1 & Hrun & H1 & H2 & H3 & H4).
  exists (set_trade_store (TradeStore.set_status tid PENDING_CANCEL None (trade_store s1)) s1).
  unfold cancel_pending_offer_safely, bind, log_event, modify, get_trade_by_id, gets.
  simpl. rewrite Hget, Hrun. simpl in *.
  split; [reflexivity|]. split; [exact H4|]. split; [exact H3|]. split; [exact H2|].
  split.
  - rewrite status_of_set_status, bytes_eqb_refl.
    unfold status_of. rewrite H1, Hget. reflexivity.
  - intros k Hk. rewrite status_of_set_status.
    destruct (bytes_eqb k tid) eqn:E; [apply bytes_eqb_eq in E; contradiction|].
    unfold status_of. now rewrite H1.
Qed.

Lemma cancel_safely_spends_primary_coins_witness :
  exists s',
    cancel_pending_offer_safely (Scenario.lib false) (Scenario.wsm Scenario.silent_ledger)
      Scenario.maker_trade_id (Scenario.world [Scenario.maker_trade PENDING_ACCEPT])
    = (Ok tt, s')
    /\ sign_requests s'
       = [SignStandard 1 100 (puzzlehash_at Scenario.wallet1 0) 0 [Scenario.maker_coin] true]
    /\ status_of Scenario.maker_trade_id s' = Some PENDING_CANCEL.
Proof.
  destruct (cancel_safely_spends_primary_coins
              (Scenario.lib false) (Scenario.wsm Scenario.silent_ledger)
              Scenario.maker_trade_id (Scenario.world [Scenario.maker_trade PENDING_ACCEPT])
              (Scenario.maker_trade PENDING_ACCEPT))
    as (s' & Hrun & Hreq & _ & _ & Hst & _).
  - vm_compute. reflexivity.
  - intros coin wallet n Hin Hw. split; [|intros tx _; reflexivity].
    intros Ht. vm_compute in Hin.
    destruct Hin as [<-|[]].
    assert (Hw1 : get_wallet_for_coin (Scenario.wsm Scenario.silent_ledger)
                    (Coin_name (Scenario.lib false) Scenario.maker_coin)
                  = Some Scenario.wallet1) by reflexivity.
    change (get_wallet_for_coin (Scenario.wsm Scenario.silent_ledger)
              (Coin_name (Scenario.lib false) Scenario.maker_coin) = Some wallet) in Hw.
    rewrite Hw1 in Hw. injection Hw as <-. discriminate Ht.
  - exists s'. split; [exact Hrun|]. split; [exact Hreq | exact Hst].
Defined.

(** C9.  A coin state whose [spent_height] is [None] is logged ("has not
    been spent so trade can remain valid") and then handled like any other:
    here the coin merely appeared, the ledger knows none of our settlement
    coins, and the PENDING_CONFIRM trade is marked FAILED. *)
Theorem unspent_coin_state_fails_the_trade :
  spent_height Scenario.maker_coin_created = None
  /\ status_of Scenario.maker_trade_id
       (Scenario.world [Scenario.maker_trade PENDING_CONFIRM]) = Some PENDING_CONFIRM
  /\ coins_of_interest_farmed (Scenario.lib false) (Scenario.wsm Scenario.silent_ledger)
       Scenario.maker_coin_created (Scenario.world [Scenario.maker_trade PENDING_CONFIRM])
     = (Ok tt,
        {| trade_store := [Scenario.maker_trade FAILED];
           pending_transactions := [];
           transactions := [];
           derivation_index := 0;
           sign_requests := [];
           created_cc_wallets := [];
           log := [LogCoinNotSpent Scenario.maker_coin;
                   LogTradeFailed Scenario.maker_trade_id];
           time_now := 1700000000 |}).
Proof. vm_compute. repeat split; reflexivity. Qed.

(** C10.  For a trade id the store does not have,
    [cancel_pending_offer_safely] returns [None] after its log line: no
    wallet is asked to sign, nothing is submitted and no trade changes. *)
Theorem cancel_safely_unknown_trade
        (lib : Library) (wsm : WalletStateManager) (tid : bytes32) (s : State) :
  TradeStore.get_trade_record tid (trade_store s) = None ->
  exists s',
    cancel_pending_offer_safely lib wsm tid s = (Ok tt, s')
    /\ sign_requests s' = sign_requests s
    /\ pending_transactions s' = pending_transactions s
    /\ transactions s' = transactions s
    /\ derivation_index s' = derivation_index s
    /\ trade_store s' = trade_store s
    /\ (forall k, status_of k s' = status_of k s).
Proof.
  intros Hget. exists (push_log (LogSecureCancel (hex tid)) s).
  unfold cancel_pending_offer_safely, bind, log_event, modify, get_trade_by_id, gets.
  simpl. rewrite Hget. repeat split; reflexivity.
Qed.

Lemma cancel_safely_unknown_trade_witness :
  TradeStore.get_trade_record (Scenario.b32 x00)
    (trade_store (Scenario.world [Scenario.maker_trade PENDING_ACCEPT])) = None
  /\ exists s',
      cancel_pending_offer_safely (Scenario.lib false) (Scenario.wsm Scenario.silent_ledger)
        (Scenario.b32 x00) (Scenario.world [Scenario.maker_trade PENDING_ACCEPT])
      = (Ok tt, s')
      /\ trade_store s' = [Scenario.maker_trade PENDING_ACCEPT].
Proof.
  assert (H : TradeStore.get_trade_record (Scenario.b32 x00)
                (trade_store (Scenario.world [Scenario.maker_trade PENDING_ACCEPT])) = None)
    by (vm_compute; reflexivity).
  split; [exact H|].
  destruct (cancel_safely_unknown_trade (Scenario.lib false)
              (Scenario.wsm Scenario.silent_ledger) (Scenario.b32 x00)
              (Scenario.world [Scenario.maker_trade PENDING_ACCEPT]) H)
    as (s' & Hrun & _ & _ & _ & _ & Hstore & _).
  exists s'. split; [exact Hrun | exact Hstore].
Defined.

(** ** Dictionaries keyed by wallet id *)

Section DictZ.

Context {V : Type}.

Lemma dict_get_set (k k' : Z) (v : V) (d : list (Z * V)) :
  dict_get Z.eqb k' (dict_set Z.eqb k v d)
  = if k' =? k then Some v else dict_get Z.eqb k' d.
Proof.
  induction d as [|[k0 v0] d IH]; simpl.
  - reflexivity.
  - destruct (k =? k0) eqn:E; simpl.
    + apply Z.eqb_eq in E. subst k0. destruct (k' =? k); reflexivity.
    + rewrite IH. destruct (k' =? k0) eqn:E0; [|reflexivity].
      apply Z.eqb_eq in E0. subst k0.
      rewrite Z.eqb_sym in E. now rewrite E.
Qed.

Lemma dict_get_app (k : Z) (d d' : list (Z * V)) :
  dict_get Z.eqb k (d ++ d')
  = match dict_get Z.eqb k d with
    | Some v => Some v
    | None => dict_get Z.eqb k d'
    end.
Proof.
  induction d as [|[k0 v0] d IH]; simpl; [reflexivity|].
  destruct (k =? k0); [reflexivity | exact IH].
Qed.

Lemma dict_get_None_keys (k : Z) (d : list (Z * V)) :
  dict_get Z.eqb k d = None <-> ~ In k (map fst d).
Proof.
  induction d as [|[k0 v0] d IH]; simpl.
  - split; [intros _ [] | reflexivity].
  - destruct (k =? k0) eqn:E.
    + apply Z.eqb_eq in E. subst k0. split; [discriminate | intros H; exfalso; apply H; now left].
    + apply Z.eqb_neq in E. rewrite IH. split.
      * intros H [Heq|Hin]; [congruence | contradiction].
      * intros H Hin. apply H. now right.
Qed.

Lemma dict_set_keys (k : Z) (v : V) (d : list (Z * V)) :
  map fst (dict_set Z.eqb k v d)
  = match dict_get Z.eqb k d with
    | Some _ => map fst d
    | None => map fst d ++ [k]
    end.
Proof.
  induction d as [|[k0 v0] d IH]; simpl; [reflexivity|].
  destruct (k =? k0) eqn:E; simpl; [reflexivity|].
  rewrite IH. now destruct (dict_get Z.eqb k d).
Qed.

Lemma dict_get_In (k : Z) (v : V) (d : list (Z * V)) :
  NoDup (map fst d) -> (In (k, v) d <-> dict_get Z.eqb k d = Some v).
Proof.
  induction d as [|[k0 v0] d IH]; simpl; intros Hnd.
  - split; [intros [] | discriminate].
  - inversion Hnd as [|x l Hnot Hnd']; subst.
    destruct (k =? k0) eqn:E.
    + apply Z.eqb_eq in E. subst k0. split.
      * intros [Heq|Hin]; [congruence|].
        exfalso. apply Hnot. change k with (fst (k, v)). now apply in_map.
      * intros Heq. left. congruence.
    + apply Z.eqb_neq in E. rewrite <- (IH Hnd'). split.
      * intros [Heq|Hin]; [congruence | assumption].
      * intros Hin. now right.
Qed.

End DictZ.

(** ** Grouping the removals *)

Section Grouping.

Variable lib : Library.
Variable wsm : WalletStateManager.
Variable parents : list bytes32.

Lemma group_removal_get (d : list (Z * list Coin)) (r : Coin) (w : Z) :
  dict_get Z.eqb w (group_removal lib wsm parents d r)
  = match removal_owner lib wsm parents r with
    | Some w0 =>
        if w =? w0
        then Some (match dict_get Z.eqb w0 d with Some g => g ++ [r] | None => [r] end)
        else dict_get Z.eqb w d
    | None => dict_get Z.eqb w d
    end.
Proof.
  unfold group_removal, removal_owner.
  destruct (bytes_in (Coin_name lib r) parents); [|reflexivity].
  destruct (get_wallet_id_for_puzzle_hash wsm (puzzle_hash r)) as [[w0 t]|]; [|reflexivity].
  simpl. unfold dict_setdefault.
  destruct (dict_get Z.eqb w0 d) as [g|] eqn:G.
  - rewrite G, dict_get_set. reflexivity.
  - rewrite dict_get_app, G. simpl. rewrite Z.eqb_refl, dict_get_set.
    destruct (w =? w0) eqn:E; [reflexivity|].
    rewrite dict_get_app. simpl. rewrite E. now destruct (dict_get Z.eqb w d).
Qed.

Lemma group_removal_keys (d : list (Z * list Coin)) (r : Coin) :
  NoDup (map fst d) -> NoDup (map fst (group_removal lib wsm parents d r)).
Proof.
  intros Hnd. unfold group_removal.
  destruct (bytes_in (Coin_name lib r) parents); [|assumption].
  destruct (get_wallet_id_for_puzzle_hash wsm (puzzle_hash r)) as [[w0 t]|]; [|assumption].
  unfold dict_setdefault.
  destruct (dict_get Z.eqb w0 d) as [g|] eqn:G.
  - rewrite G, dict_set_keys, G. assumption.
  - assert (Hnd' : NoDup (map fst (d ++ [(w0, @nil Coin)]))).
    { rewrite map_app. simpl. apply NoDup_app; [assumption | repeat constructor; intros [] |].
      intros x Hx [<-|[]]. apply dict_get_None_keys in G. contradiction. }
    rewrite dict_get_app, G. simpl. rewrite Z.eqb_refl, dict_set_keys.
    rewrite dict_get_app, G. simpl. rewrite Z.eqb_refl. exact Hnd'.
Qed.

Lemma owned_by_filter_snoc (w : Z) (seen : list Coin) (r : Coin) :
  filter (owned_by lib wsm parents w) (seen ++ [r])
  = filter (owned_by lib wsm parents w) seen
    ++ (if owned_by lib wsm parents w r then [r] else []).
Proof. rewrite filter_app. reflexivity. Qed.

Lemma nonempty_snoc {A : Type} (l : list A) (x : A) : nonempty (l ++ [x]) = Some (l ++ [x]).
Proof. destruct l; reflexivity. Qed.

Lemma nonempty_Some {A : Type} (l g : list A) : nonempty l = Some g <-> g <> [] /\ g = l.
Proof.
  destruct l; simpl; split.
  - discriminate.
  - intros [H ->]. congruence.
  - intros H. injection H as <-. split; [discriminate | reflexivity].
  - intros [_ ->]. reflexivity.
Qed.

(** The loop keeps, for every wallet, the removals it owns among those
    seen so far, in order, and no entry for a wallet that owns none. *)
Lemma group_fold (rs : list Coin) :
  forall (d : list (Z * list Coin)) (seen : list Coin),
    NoDup (map fst d) ->
    (forall w, dict_get Z.eqb w d = nonempty (filter (owned_by lib wsm parents w) seen)) ->
    NoDup (map fst (fold_left (group_removal lib wsm parents) rs d))
    /\ forall w, dict_get Z.eqb w (fold_left (group_removal lib wsm parents) rs d)
                 = nonempty (filter (owned_by lib wsm parents w) (seen ++ rs)).
Proof.
  induction rs as [|r rs IH]; intros d seen Hnd Hget; simpl.
  - rewrite app_nil_r. split; assumption.
  - replace (seen ++ r :: rs) with ((seen ++ [r]) ++ rs) by (rewrite <- app_assoc; reflexivity).
    apply IH; [now apply group_removal_keys|].
    intros w. rewrite group_removal_get, owned_by_filter_snoc.
    unfold owned_by at 2.
    destruct (removal_owner lib wsm parents r) as [w0|].
    + rewrite (Z.eqb_sym w0 w). destruct (w =? w0) eqn:E.
      * apply Z.eqb_eq in E. subst w0. rewrite Hget, nonempty_snoc.
        now destruct (filter (owned_by lib wsm parents w) seen).
      * rewrite app_nil_r. apply Hget.
    + rewrite app_nil_r. apply Hget.
Qed.

Lemma removal_dict_spec (rs : list Coin) :
  let groups := fold_left (group_removal lib wsm parents) rs [] in
  NoDup (map fst groups)
  /\ forall wid grouped,
      In (wid, grouped) groups
      <-> grouped <> [] /\ grouped = filter (owned_by lib wsm parents wid) rs.
Proof.
  destruct (group_fold rs [] []) as [Hnd Hget]; [constructor | reflexivity |].
  simpl in *. split; [exact Hnd|].
  intros wid grouped. rewrite (dict_get_In _ _ _ Hnd), Hget. apply nonempty_Some.
Qed.

End Grouping.

(** ** Steps that leave a view of the world alone *)

Section Keeps.

Context {X : Type} (f : State -> X).

Lemma keeps_ret {A : Type} (a : A) : keeps f (ret a).
Proof. intros s. reflexivity. Qed.

Lemma keeps_raise {A : Type} (e : Exn) : keeps f (@raise A e).
Proof. intros s. reflexivity. Qed.

Lemma keeps_gets {A : Type} (g : State -> A) : keeps f (gets g).
Proof. intros s. reflexivity. Qed.

Lemma keeps_lift_result {A : Type} (r : Result A) : keeps f (lift_result r).
Proof. intros s. reflexivity. Qed.

Lemma keeps_uint32 (z : Z) : keeps f (uint32 z).
Proof. intros s. unfold uint32. now destruct (_ && _). Qed.

Lemma keeps_uint64 (z : Z) : keeps f (uint64 z).
Proof. intros s. unfold uint64. now destruct (_ && _). Qed.

Lemma keeps_bind {A B : Type} (m : M A) (k : A -> M B) :
  keeps f m -> (forall a, keeps f (k a)) -> keeps f (bind m k).
Proof.
  intros Hm Hk s. unfold bind. specialize (Hm s).
  destruct (m s) as [[a|e] s1]; simpl in *.
  - rewrite <- Hm. apply Hk.
  - exact Hm.
Qed.

Lemma keeps_try_except {A : Type} (m : M A) (h : Exn -> M A) :
  keeps f m -> (forall e, keeps f (h e)) -> keeps f (try_except m h).
Proof.
  intros Hm Hh s. unfold try_except. specialize (Hm s).
  destruct (m s) as [[a|e] s1]; simpl in *.
  - exact Hm.
  - rewrite <- Hm. apply Hh.
Qed.

Lemma keeps_foldM {A B : Type} (g : B -> A -> M B) :
  (forall acc x, keeps f (g acc x)) -> forall l acc, keeps f (foldM g l acc).
Proof.
  intros Hg. induction l as [|x l IH]; intros acc; simpl.
  - apply keeps_ret.
  - apply keeps_bind; [apply Hg | intros; apply IH].
Qed.

(** The builder only logs, derives puzzle hashes and asks for signatures. *)
Hypothesis f_log : forall e s, f (push_log e s) = f s.
Hypothesis f_derivation : forall s, f (next_derivation s) = f s.
Hypothesis f_sign : forall r s, f (push_sign_request r s) = f s.

Variable lib : Library.
Variable wsm : WalletStateManager.

Lemma keeps_log_event (e : LogEntry) : keeps f (log_event e).
Proof. intros s. apply f_log. Qed.

Lemma keeps_get_new_puzzlehash (w : Wallet) : keeps f (get_new_puzzlehash w).
Proof. intros s. apply f_derivation. Qed.

Lemma keeps_sign_standard (w : Wallet) (amt : Z) (ph : bytes32) (fee : Z)
      (coins : list Coin) (ign : bool) :
  keeps f (sign_standard w amt ph fee coins ign).
Proof. intros s. apply f_sign. Qed.

Lemma keeps_sign_coloured (w : Wallet) (amts : list Z) (phs : list bytes32) (fee : Z)
      (coins : list Coin) (ign : bool) :
  keeps f (sign_coloured w amts phs fee coins ign).
Proof. intros s. apply f_sign. Qed.

Lemma keeps_spend_bundles_of (txs : list TransactionRecord) : keeps f (spend_bundles_of txs).
Proof.
  induction txs as [|tx txs IH]; simpl.
  - apply keeps_ret.
  - destruct (spend_bundle tx); [|apply keeps_raise].
    apply keeps_bind; [exact IH | intros; apply keeps_ret].
Qed.

Ltac keeps_step :=
  match goal with
  | |- keeps _ (bind _ _) => apply keeps_bind; [|intros]
  | |- keeps _ (ret _) => apply keeps_ret
  | |- keeps _ (raise _) => apply keeps_raise
  | |- keeps _ (uint32 _) => apply keeps_uint32
  | |- keeps _ (uint64 _) => apply keeps_uint64
  | |- keeps _ (gets _) => apply keeps_gets
  | |- keeps _ (lift_result _) => apply keeps_lift_result
  | |- keeps _ (log_event _) => apply keeps_log_event
  | |- keeps _ (get_new_puzzlehash _) => apply keeps_get_new_puzzlehash
  | |- keeps _ (sign_standard _ _ _ _ _ _) => apply keeps_sign_standard
  | |- keeps _ (sign_coloured _ _ _ _ _ _) => apply keeps_sign_coloured
  | |- keeps _ (spend_bundles_of _) => apply keeps_spend_bundles_of
  | |- keeps _ (to_bytes32 _) => unfold to_bytes32
  | |- keeps _ (foldM _ _ _) => apply keeps_foldM; intros
  | |- keeps _ (match ?x with _ => _ end) => destruct x
  end.

Lemma keeps_offer_entry (acc : list (Z * list Coin) * list (asset_key * list Payment))
      (entry : Z * Z) :
  keeps f (offer_entry lib wsm acc entry).
Proof. unfold offer_entry. repeat keeps_step. Qed.

Lemma keeps_sign_entry (d : offer_dict_t) (txs : list TransactionRecord)
      (entry : Z * list Coin) :
  keeps f (sign_entry lib wsm d txs entry).
Proof. unfold sign_entry. repeat keeps_step. Qed.

Lemma keeps_create_offer (d : offer_dict_t) : keeps f (_create_offer_for_ids lib wsm d).
Proof.
  unfold _create_offer_for_ids, create_offer_body.
  apply keeps_try_except; [|intros; apply keeps_raise].
  apply keeps_bind; [apply keeps_foldM; intros; apply keeps_offer_entry|].
  intros [coins_to_offer requested].
  destruct (calculate_announcements lib _); [apply keeps_raise|].
  apply keeps_bind; [apply keeps_log_event|]. intros _.
  apply keeps_bind; [apply keeps_foldM; intros; apply keeps_sign_entry|]. intros txs.
  apply keeps_bind; [apply keeps_spend_bundles_of|]. intros bundles.
  apply keeps_ret.
Qed.

End Keeps.

(** ** Reading a successful run backwards *)

Lemma bind_Ok {A B : Type} (m : M A) (k : A -> M B) (s s' : State) (r : B) :
  bind m k s = (Ok r, s') -> exists a s1, m s = (Ok a, s1) /\ k a s1 = (Ok r, s').
Proof.
  unfold bind. destruct (m s) as [[a|e] s1]; [|discriminate].
  intros H. now exists a, s1.
Qed.

Lemma uint64_Ok (z : Z) (s s' : State) (r : Z) :
  uint64 z s = (Ok r, s') -> r = z /\ s' = s /\ 0 <= z < 2 ^ 64.
Proof.
  unfold uint64. destruct ((0 <=? z) && (z <? 2 ^ 64)) eqn:E; [|discriminate].
  unfold ret. intros H. injection H as <- <-.
  apply andb_true_iff in E. destruct E as [E1 E2].
  apply Z.leb_le in E1. apply Z.ltb_lt in E2. auto.
Qed.

Lemma add_pending_transaction_Ok (wsm : WalletStateManager) (tx : TransactionRecord)
      (s s' : State) :
  add_pending_transaction wsm tx s = (Ok tt, s') -> s' = push_pending tx s.
Proof.
  unfold add_pending_transaction.
  destruct (pending_transaction_refused wsm tx); [discriminate|].
  unfold modify. now intros [= <-].
Qed.

Lemma forM_add_transaction_Ok (wsm : WalletStateManager) (txs : list TransactionRecord) :
  forall s s',
    forM_ txs (add_transaction wsm) s = (Ok tt, s') ->
    transactions s' = transactions s ++ txs
    /\ trade_store s' = trade_store s
    /\ pending_transactions s' = pending_transactions s.
Proof.
  unfold forM_. induction txs as [|tx txs IH]; intros s s' H; simpl in H.
  - unfold ret in H. injection H as <-. rewrite app_nil_r. repeat split; reflexivity.
  - apply bind_Ok in H. destruct H as ([] & s1 & Hadd & H).
    unfold add_transaction in Hadd.
    destruct (transaction_refused wsm tx); [discriminate|].
    unfold modify in Hadd. injection Hadd as <-.
    apply IH in H. destruct H as (H1 & H2 & H3).
    rewrite H1, H2, H3. simpl. rewrite <- app_assoc. repeat split; reflexivity.
Qed.

(** The loop over the history rows stops at the first row the wallet state
    manager refuses, with the rows before it added. *)
Lemma forM_add_transaction_run (wsm : WalletStateManager) (txs : list TransactionRecord) :
  forall s,
    (exists s',
        forM_ txs (add_transaction wsm) s = (Ok tt, s')
        /\ transactions s' = transactions s ++ txs
        /\ trade_store s' = trade_store s
        /\ pending_transactions s' = pending_transactions s)
    \/ (exists e s' before tx after,
           forM_ txs (add_transaction wsm) s = (Raise e, s')
           /\ txs = before ++ tx :: after
           /\ transaction_refused wsm tx = Some e
           /\ transactions s' = transactions s ++ before
           /\ trade_store s' = trade_store s
           /\ pending_transactions s' = pending_transactions s).
Proof.
  unfold forM_. induction txs as [|tx txs IH]; intros s; simpl.
  - left. exists s. rewrite app_nil_r. repeat split; reflexivity.
  - destruct (transaction_refused wsm tx) as [e|] eqn:R.
    + assert (E : add_transaction wsm tx s = (Raise e, s))
        by (unfold add_transaction; now rewrite R).
      right. exists e, s, [], tx, txs. unfold bind. rewrite E, app_nil_r.
      repeat split; auto.
    + assert (E : add_transaction wsm tx s = (Ok tt, push_transaction tx s))
        by (unfold add_transaction; now rewrite R).
      unfold bind. rewrite E.
      destruct (IH (push_transaction tx s))
        as [(s' & Hrun & H1 & H2 & H3)
           | (e & s' & before & tx' & after & Hrun & -> & Hr & H1 & H2 & H3)].
      * left. exists s'. split; [exact Hrun|]. rewrite H1, H2, H3. simpl.
        rewrite <- app_assoc. repeat split; reflexivity.
      * right. exists e, s', (tx :: before), tx', after. split; [exact Hrun|].
        rewrite H1, H2, H3. simpl. rewrite <- app_assoc. repeat split; auto.
Qed.

Section History.

Variable lib : Library.
Variable wsm : WalletStateManager.
Variable complete_offer : Offer.
Variable final_spend_bundle : SpendBundle.

Lemma incoming_entry_Ok (ids : list bytes32) (txs txs' : list TransactionRecord)
      (addition : Coin) (s s' : State) :
  incoming_entry lib wsm complete_offer final_spend_bundle ids txs addition s = (Ok txs', s') ->
  s' = s /\ exists inc, txs' = txs ++ inc /\ Forall (fun t => tx_type t = INCOMING_TRADE) inc.
Proof.
  unfold incoming_entry.
  assert (Hskip : forall (s0 : State), ret txs s0 = (Ok txs', s') ->
            s' = s0 /\ exists inc, txs' = txs ++ inc
                                   /\ Forall (fun t => tx_type t = INCOMING_TRADE) inc).
  { unfold ret. intros s0 H. injection H as <- <-. split; [reflexivity|].
    exists []. rewrite app_nil_r. split; [reflexivity | constructor]. }
  destruct (bytes_in _ _); [|apply Hskip].
  destruct (get_wallet_id_for_puzzle_hash wsm _) as [[wid t]|]; [|apply Hskip].
  destruct (wallets wsm wid) as [wallet|]; [|discriminate].
  intros H. apply bind_Ok in H. destruct H as (t0 & s1 & Hg & H).
  unfold gets in Hg. injection Hg as <- <-.
  apply bind_Ok in H. destruct H as (now & s2 & Hu & H).
  apply uint64_Ok in Hu. destruct Hu as (-> & -> & _).
  unfold ret in H. injection H as <- <-. split; [reflexivity|].
  eexists [_]. split; [reflexivity|]. repeat constructor.
Qed.

Lemma incoming_loop (ids : list bytes32) (adds : list Coin) :
  forall (txs txs' : list TransactionRecord) (s s' : State),
    foldM (incoming_entry lib wsm complete_offer final_spend_bundle ids) adds txs s
    = (Ok txs', s') ->
    s' = s /\ exists inc, txs' = txs ++ inc /\ Forall (fun t => tx_type t = INCOMING_TRADE) inc.
Proof.
  induction adds as [|a adds IH]; intros txs txs' s s' H; simpl in H.
  - unfold ret in H. injection H as <- <-. split; [reflexivity|].
    exists []. rewrite app_nil_r. split; [reflexivity | constructor].
  - apply bind_Ok in H. destruct H as (txs1 & s1 & Hstep & H).
    apply incoming_entry_Ok in Hstep. destruct Hstep as (-> & inc1 & -> & F1).
    apply IH in H. destruct H as (-> & inc2 & -> & F2).
    split; [reflexivity|]. exists (inc1 ++ inc2). rewrite app_assoc.
    split; [reflexivity | now apply Forall_app].
Qed.

Lemma outgoing_entry_Ok (txs txs' : list TransactionRecord) (entry : Z * list Coin)
      (s s' : State) :
  outgoing_entry lib wsm complete_offer final_spend_bundle txs entry s = (Ok txs', s') ->
  s' = s /\ exists row, txs' = txs ++ [row] /\ outgoing_row_of lib wsm final_spend_bundle entry row.
Proof.
  unfold outgoing_entry. destruct entry as [wid grouped].
  destruct (wallets wsm wid) as [wallet|] eqn:W; [|discriminate].
  intros H. apply bind_Ok in H. destruct H as (t0 & s1 & Hg & H).
  unfold gets in Hg. injection Hg as <- <-.
  apply bind_Ok in H. destruct H as (now & s2 & Hu & H).
  apply uint64_Ok in Hu. destruct Hu as (-> & -> & _).
  apply bind_Ok in H. destruct H as (amt & s3 & Hu & H).
  apply uint64_Ok in Hu. destruct Hu as (-> & -> & _).
  unfold ret in H. injection H as <- <-. split; [reflexivity|].
  eexists. split; [reflexivity|].
  unfold outgoing_row_of. simpl. repeat split. exists wallet. split; [exact W | reflexivity].
Qed.

Lemma outgoing_loop (groups : list (Z * list Coin)) :
  forall (txs txs' : list TransactionRecord) (s s' : State),
    foldM (outgoing_entry lib wsm complete_offer final_spend_bundle) groups txs s
    = (Ok txs', s') ->
    s' = s /\ exists out, txs' = txs ++ out
                          /\ Forall2 (outgoing_row_of lib wsm final_spend_bundle) groups out.
Proof.
  induction groups as [|g groups IH]; intros txs txs' s s' H; simpl in H.
  - unfold ret in H. injection H as <- <-. split; [reflexivity|].
    exists []. rewrite app_nil_r. split; [reflexivity | constructor].
  - apply bind_Ok in H. destruct H as (txs1 & s1 & Hstep & H).
    apply outgoing_entry_Ok in Hstep. destruct Hstep as (-> & row & -> & Hrow).
    apply IH in H. destruct H as (-> & out & -> & F).
    split; [reflexivity|]. exists (row :: out). rewrite <- app_assoc.
    split; [reflexivity | now constructor].
Qed.

End History.

(** ** Successful runs of the two entry points *)

Section Entry.

Variable lib : Library.
Variable wsm : WalletStateManager.

Lemma create_offer_for_ids_Ok (d : offer_dict_t) (s s' : State) (b : bool)
      (tr : TradeRecord) (err : option string) :
  create_offer_for_ids lib wsm d s = (Ok (b, Some tr, err), s') ->
  exists created_offer s1,
    _create_offer_for_ids lib wsm d s = (Ok (true, Some created_offer, err), s1)
    /\ b = true
    /\ status tr = PENDING_ACCEPT
    /\ is_my_offer tr = true
    /\ offer tr = Offer_bytes lib created_offer
    /\ trade_id tr = Offer_name lib created_offer
    /\ coins_of_interest tr = get_involved_coins lib created_offer
    /\ s' = set_trade_store (TradeStore.add_trade_record tr (trade_store s1)) s1.
Proof.
  unfold create_offer_for_ids. intros H.
  apply bind_Ok in H. destruct H as ([[succ created] er] & s1 & Hc & H).
  destruct succ; [|discriminate]. destruct created as [created|]; [|discriminate].
  apply bind_Ok in H. destruct H as (t0 & s2 & Hg & H).
  unfold gets in Hg. injection Hg as <- <-.
  apply bind_Ok in H. destruct H as (now & s3 & Hu & H).
  apply uint64_Ok in Hu. destruct Hu as (-> & -> & _).
  apply bind_Ok in H. destruct H as ([] & s4 & Hsave & H).
  unfold save_trade, modify in Hsave. injection Hsave as <-.
  unfold ret in H. injection H as <- <- <- <-.
  exists created, s1. repeat split; try reflexivity. exact Hc.
Qed.

Lemma respond_to_offer_Ok (o : Offer) (s s' : State) (b : bool)
      (tr : TradeRecord) (err : option string) :
  respond_to_offer lib wsm o s = (Ok (b, Some tr, err), s') ->
  exists take_offer_dict take_offer er s1 incoming outgoing,
    let complete_offer := Offer_aggregate lib [o; take_offer] in
    let final_spend_bundle := to_valid_spend lib complete_offer in
    let settlement_parents :=
      map parent_coin_info (flat_map snd (get_offered_coins lib complete_offer)) in
    take_offer_entries lib wsm (arbitrage lib o) [] = inr take_offer_dict
    /\ _create_offer_for_ids lib wsm take_offer_dict s = (Ok (true, Some take_offer, er), s1)
    /\ is_valid lib complete_offer = true
    /\ b = true
    /\ err = None
    /\ status tr = PENDING_CONFIRM
    /\ is_my_offer tr = false
    /\ offer tr = Offer_bytes lib complete_offer
    /\ trade_id tr = Offer_name lib complete_offer
    /\ coins_of_interest tr = get_involved_coins lib complete_offer
    /\ Forall (fun t => tx_type t = INCOMING_TRADE) incoming
    /\ Forall2 (outgoing_row_of lib wsm final_spend_bundle)
               (fold_left (group_removal lib wsm settlement_parents)
                          (removals lib final_spend_bundle) [])
               outgoing
    /\ transactions s' = transactions s ++ incoming ++ outgoing
    /\ trade_store s' = TradeStore.add_trade_record tr (trade_store s).
Proof.
  unfold respond_to_offer. intros H.
  destruct (take_offer_entries lib wsm (arbitrage lib o) []) as [msg|d] eqn:Hd;
    [discriminate|].
  apply bind_Ok in H. destruct H as ([[succ take] er] & s1 & Hc & H).
  destruct succ; [|discriminate]. simpl in H.
  destruct take as [take|]; [|discriminate].
  destruct (is_valid lib (Offer_aggregate lib [o; take])) eqn:Hv; [|discriminate].
  simpl in H.
  apply bind_Ok in H. destruct H as (txs1 & s2 & Hinc & H).
  apply incoming_loop in Hinc. destruct Hinc as (-> & inc & -> & Finc).
  apply bind_Ok in H. destruct H as (txs2 & s3 & Hout & H).
  apply outgoing_loop in Hout. destruct Hout as (-> & out & -> & Fout).
  apply bind_Ok in H. destruct H as (t0 & s4 & Hg & H).
  unfold gets in Hg. injection Hg as <- <-.
  apply bind_Ok in H. destruct H as (accepted & s5 & Hu & H).
  apply uint64_Ok in Hu. destruct Hu as (-> & -> & _).
  apply bind_Ok in H. destruct H as (created & s6 & Hu & H).
  apply uint64_Ok in Hu. destruct Hu as (-> & -> & _).
  apply bind_Ok in H. destruct H as ([] & s7 & Hsave & H).
  unfold save_trade, modify in Hsave. injection Hsave as <-.
  apply bind_Ok in H. destruct H as (now & s8 & Hu & H).
  apply uint64_Ok in Hu. destruct Hu as (-> & -> & _).
  apply bind_Ok in H. destruct H as ([] & s9 & Hpush & H).
  apply add_pending_transaction_Ok in Hpush. subst s9.
  apply bind_Ok in H. destruct H as ([] & s10 & Hadd & H).
  apply forM_add_transaction_Ok in Hadd. destruct Hadd as (T1 & T2 & T3).
  unfold ret in H. injection H as <- <- <- <-.
  pose proof (keeps_create_offer transactions (fun _ _ => eq_refl) (fun _ => eq_refl)
                (fun _ _ => eq_refl) lib wsm d s) as Kt.
  pose proof (keeps_create_offer trade_store (fun _ _ => eq_refl) (fun _ => eq_refl)
                (fun _ _ => eq_refl) lib wsm d s) as Ks.
  rewrite Hc in Kt, Ks. simpl in Kt, Ks.
  exists d, take, er, s1, inc, out. simpl.
  repeat split; try reflexivity; try assumption.
  - rewrite T1. simpl. now rewrite Kt.
  - rewrite T2. simpl. now rewrite Ks.
Qed.

End Entry.

(** * Building and taking offers *)

Section Matching.

Variable lib : Library.
Variable wsm : WalletStateManager.

Lemma take_offer_entries_missing (items : list (asset_key * Z)) :
  (exists k amt, In (Some k, amt) items
                 /\ get_wallet_for_colour wsm (ColourHex (hex k)) = None) ->
  forall d, exists k amt,
    In (Some k, amt) items
    /\ get_wallet_for_colour wsm (ColourHex (hex k)) = None
    /\ take_offer_entries lib wsm items d = inl (no_cat_message lib k).
Proof.
  induction items as [|[[a|] amt0] items IH]; intros (k & amt & Hin & Hnone) d.
  - destruct Hin.
  - simpl. destruct (get_wallet_for_colour wsm (ColourHex (hex a))) eqn:W.
    + destruct Hin as [Heq|Hin]; [injection Heq as -> ->; congruence|].
      destruct (IH (ex_intro _ k (ex_intro _ amt (conj Hin Hnone)))
                   (dict_set Z.eqb (id w) amt0 d)) as (k' & amt' & Hin' & Hn' & Hrun).
      exists k', amt'. repeat split; [now right | assumption | assumption].
    + exists a, amt0. repeat split; [now left | assumption].
  - simpl. destruct Hin as [Heq|Hin]; [discriminate|].
    destruct (IH (ex_intro _ k (ex_intro _ amt (conj Hin Hnone)))
                 (dict_set Z.eqb (id (main_wallet wsm)) amt0 d))
      as (k' & amt' & Hin' & Hn' & Hrun).
    exists k', amt'. repeat split; [now right | assumption | assumption].
Qed.

End Matching.

(** C3.  The memos of a requested payment do not depend on the wallet's
    type: the condition tests the enum member [WalletType.STANDARD_WALLET]
    itself.  Whatever truth value Python gives it, the payment for the
    base asset (wallet 1) and the payment for the coloured asset (wallet 2)
    get memos of the same shape: both [None], or both the list holding their
    [p2_ph]. *)
Theorem memos_ignore_the_wallet_type (truthy : bool) :
  exists s',
    foldM (offer_entry (Scenario.lib truthy) (Scenario.wsm Scenario.silent_ledger))
          [(1, 10); (2, 5)] ([], []) (Scenario.world [])
    = (Ok ([],
           [(None,
             [{| p_puzzle_hash := puzzlehash_at Scenario.wallet1 0;
                 p_amount := 10;
                 p_memos := if truthy then None
                            else Some [puzzlehash_at Scenario.wallet1 0] |}]);
            (Some Scenario.K,
             [{| p_puzzle_hash := puzzlehash_at Scenario.wallet2 1;
                 p_amount := 5;
                 p_memos := if truthy then None
                            else Some [puzzlehash_at Scenario.wallet2 1] |}])]),
       s').
Proof. destruct truthy; vm_compute; eexists; reflexivity. Qed.

(** C4.  When the arbitrage of the peer's offer names a coloured asset for
    which [get_wallet_for_colour] finds no wallet, [respond_to_offer]
    returns [(False, None, message)], the message naming such an asset id,
    and leaves the whole world, the trade store included, as it was. *)
Theorem respond_to_offer_without_wallet
        (lib : Library) (wsm : WalletStateManager) (o : Offer) (s : State) :
  (exists k amt, In (Some k, amt) (arbitrage lib o)
                 /\ get_wallet_for_colour wsm (ColourHex (hex k)) = None) ->
  exists k amt,
    In (Some k, amt) (arbitrage lib o)
    /\ get_wallet_for_colour wsm (ColourHex (hex k)) = None
    /\ respond_to_offer lib wsm o s = (Ok (false, None, Some (no_cat_message lib k)), s).
Proof.
  intros H.
  destruct (take_offer_entries_missing lib wsm _ H []) as (k & amt & Hin & Hn & Hrun).
  exists k, amt. repeat split; [assumption | assumption |].
  unfold respond_to_offer. rewrite Hrun. reflexivity.
Qed.

Lemma respond_to_offer_without_wallet_witness :
  exists k amt,
    In (Some k, amt) (arbitrage (Scenario.lib false) Scenario.stranger_offer)
    /\ get_wallet_for_colour (Scenario.wsm Scenario.silent_ledger) (ColourHex (hex k)) = None
    /\ respond_to_offer (Scenario.lib false) (Scenario.wsm Scenario.silent_ledger)
         Scenario.stranger_offer (Scenario.world [])
       = (Ok (false, None, Some (no_cat_message (Scenario.lib false) k)), Scenario.world []).
Proof.
  apply (respond_to_offer_without_wallet (Scenario.lib false)
           (Scenario.wsm Scenario.silent_ledger) Scenario.stranger_offer (Scenario.world [])).
  exists (Scenario.b32 x99), (-50). split.
  - vm_compute. right. left. reflexivity.
  - vm_compute. reflexivity.
Defined.

(** C5.  [_create_offer_for_ids] re-raises what its [try] caught, and
    [create_offer_for_ids] has no handler: on an unknown wallet id, an
    unsupported wallet type, an insufficient balance and a failed coin
    selection the caller gets the exception, not [(False, None, message)].
    The trade store stays empty in the four runs. *)
Theorem create_offer_for_ids_raises :
  create_offer_for_ids (Scenario.lib false) (Scenario.wsm Scenario.silent_ledger)
    [(5, -100)] (Scenario.world [])
  = (Raise KeyError, Scenario.world [])
  /\ create_offer_for_ids (Scenario.lib false) (Scenario.wsm Scenario.silent_ledger)
       [(3, 100)] (Scenario.world [])
     = (Raise (ValueError "Offers are not implemented for WalletType.RATE_LIMITED"),
        Scenario.world [])
  /\ create_offer_for_ids (Scenario.lib false) (Scenario.wsm Scenario.silent_ledger)
       [(2, -100)] (Scenario.world [])
     = (Raise (Exception "insufficient funds in wallet 2"), Scenario.world [])
  /\ create_offer_for_ids (Scenario.lib false) (Scenario.wsm Scenario.silent_ledger)
       [(4, -100)] (Scenario.world [])
     = (Raise (Exception "Not enough coins to cover the amount"), Scenario.world []).
Proof. vm_compute. repeat split; reflexivity. Qed.

(** C6.  A record returned by [create_offer_for_ids] is PENDING_ACCEPT and
    ours, a record returned by [respond_to_offer] is PENDING_CONFIRM and
    not ours; either way its [trade_id] is the hash of its offer bytes (the
    offer's name), its coins of interest are the involved coins of the offer
    it was made from, and the store holds it under its id. *)
Theorem trade_records_as_created (lib : Library) (wsm : WalletStateManager) :
  (forall d s b tr err s',
      create_offer_for_ids lib wsm d s = (Ok (b, Some tr, err), s') ->
      status tr = PENDING_ACCEPT
      /\ is_my_offer tr = true
      /\ trade_id tr = std_hash lib (offer tr)
      /\ (exists created_offer s1,
             _create_offer_for_ids lib wsm d s = (Ok (true, Some created_offer, err), s1)
             /\ offer tr = Offer_bytes lib created_offer
             /\ coins_of_interest tr = get_involved_coins lib created_offer)
      /\ TradeStore.get_trade_record (trade_id tr) (trade_store s') = Some tr)
  /\ (forall o s b tr err s',
         respond_to_offer lib wsm o s = (Ok (b, Some tr, err), s') ->
         status tr = PENDING_CONFIRM
         /\ is_my_offer tr = false
         /\ trade_id tr = std_hash lib (offer tr)
         /\ (exists take_offer_dict take_offer er s1,
                take_offer_entries lib wsm (arbitrage lib o) [] = inr take_offer_dict
                /\ _create_offer_for_ids lib wsm take_offer_dict s
                   = (Ok (true, Some take_offer, er), s1)
                /\ offer tr = Offer_bytes lib (Offer_aggregate lib [o; take_offer])
                /\ coins_of_interest tr
                   = get_involved_coins lib (Offer_aggregate lib [o; take_offer]))
         /\ TradeStore.get_trade_record (trade_id tr) (trade_store s') = Some tr).
Proof.
  split.
  - intros d s b tr err s' H.
    apply create_offer_for_ids_Ok in H.
    destruct H as (created & s1 & Hc & _ & Hst & Hmine & Hoffer & Hid & Hcoins & ->).
    repeat split; try assumption.
    + rewrite Hid, Hoffer. reflexivity.
    + exists created, s1. repeat split; assumption.
    + simpl. rewrite get_add_trade_record, bytes_eqb_refl. reflexivity.
  - intros o s b tr err s' H.
    apply respond_to_offer_Ok in H.
    destruct H as (d & take & er & s1 & inc & out & H). simpl in H.
    destruct H as (Hd & Hc & _ & _ & _ & Hst & Hmine & Hoffer & Hid & Hcoins & _ & _ & _ & Hs).
    repeat split; try assumption.
    + rewrite Hid, Hoffer. reflexivity.
    + exists d, take, er, s1. repeat split; assumption.
    + rewrite Hs, get_add_trade_record, bytes_eqb_refl. reflexivity.
Qed.

Lemma trade_records_as_created_witness :
  (exists tr s',
      create_offer_for_ids (Scenario.lib false) (Scenario.wsm Scenario.silent_ledger)
        [(1, -100); (2, 50)] (Scenario.world [])
      = (Ok (true, Some tr, None), s')
      /\ status tr = PENDING_ACCEPT
      /\ is_my_offer tr = true
      /\ TradeStore.get_trade_record (trade_id tr) (trade_store s') = Some tr)
  /\ (exists tr s',
         respond_to_offer (Scenario.lib false) (Scenario.wsm Scenario.silent_ledger)
           Scenario.maker_offer (Scenario.world [])
         = (Ok (true, Some tr, None), s')
         /\ status tr = PENDING_CONFIRM
         /\ is_my_offer tr = false
         /\ TradeStore.get_trade_record (trade_id tr) (trade_store s') = Some tr).
Proof.
  destruct (trade_records_as_created (Scenario.lib false)
              (Scenario.wsm Scenario.silent_ledger)) as [Hcreate Hrespond].
  split.
  - assert (E : exists tr s',
               create_offer_for_ids (Scenario.lib false) (Scenario.wsm Scenario.silent_ledger)
                 [(1, -100); (2, 50)] (Scenario.world [])
               = (Ok (true, Some tr, None), s'))
      by (vm_compute; eexists; eexists; reflexivity).
    destruct E as (tr & s' & E). exists tr, s'.
    destruct (Hcreate _ _ _ _ _ _ E) as (H1 & H2 & _ & _ & H3).
    repeat split; assumption.
  - assert (E : exists tr s',
               respond_to_offer (Scenario.lib false) (Scenario.wsm Scenario.silent_ledger)
                 Scenario.maker_offer (Scenario.world [])
               = (Ok (true, Some tr, None), s'))
      by (vm_compute; eexists; eexists; reflexivity).
    destruct E as (tr & s' & E). exists tr, s'.
    destruct (Hrespond _ _ _ _ _ _ E) as (H1 & H2 & _ & _ & H3).
    repeat split; assumption.
Defined.

(** C7.  After a successful [respond_to_offer] the transactions added to
    the history are the INCOMING_TRADE rows followed by the OUTGOING_TRADE
    rows, one per group.  The groups have distinct wallet ids; a wallet has
    a group exactly when it owns a removal that is the parent of a
    settlement coin, and its group is the list of all such removals.  The
    row of a group pays to 32 zero bytes, its amount is the sum of the
    group's amounts and its name is the hash of the bundle's name followed
    by the tree hash of the group's coins as lists.  (The dummy push
    transaction is handed to [add_pending_transaction], not to the
    history.) *)
Theorem outgoing_rows_one_per_wallet
        (lib : Library) (wsm : WalletStateManager) (o : Offer) (s s' : State)
        (tr : TradeRecord) (err : option string) :
  respond_to_offer lib wsm o s = (Ok (true, Some tr, err), s') ->
  exists take_offer incoming outgoing groups,
    let complete_offer := Offer_aggregate lib [o; take_offer] in
    let final_spend_bundle := to_valid_spend lib complete_offer in
    let settlement_parents :=
      map parent_coin_info (flat_map snd (get_offered_coins lib complete_offer)) in
    offer tr = Offer_bytes lib complete_offer
    /\ transactions s' = transactions s ++ incoming ++ outgoing
    /\ Forall (fun t => tx_type t = INCOMING_TRADE) incoming
    /\ NoDup (map fst groups)
    /\ (forall wid grouped,
           In (wid, grouped) groups
           <-> grouped <> []
               /\ grouped = filter (owned_by lib wsm settlement_parents wid)
                                   (removals lib final_spend_bundle))
    /\ Forall2 (fun entry row =>
                  tx_type row = OUTGOING_TRADE
                  /\ to_puzzle_hash row = repeat x00 32
                  /\ tx_amount row = sum_amounts (snd entry)
                  /\ name row = std_hash lib (SpendBundle_name lib final_spend_bundle
                                              ++ tree_hash lib (map as_list (snd entry)))
                  /\ tx_removals row = snd entry
                  /\ exists wallet,
                      wallets wsm (fst entry) = Some wallet /\ wallet_id row = id wallet)
               groups outgoing.
Proof.
  intros H. apply respond_to_offer_Ok in H.
  destruct H as (d & take & er & s1 & inc & out & H). simpl in H.
  destruct H as (_ & _ & _ & _ & _ & _ & _ & Hoffer & _ & _ & Finc & Fout & Htx & _).
  exists take, inc, out.
  eexists. simpl.
  split; [exact Hoffer|]. split; [exact Htx|]. split; [exact Finc|].
  pose proof (removal_dict_spec lib wsm
                (map parent_coin_info
                     (flat_map snd (get_offered_coins lib (Offer_aggregate lib [o; take]))))
                (removals lib (to_valid_spend lib (Offer_aggregate lib [o; take]))))
    as [Hnd Hgroups].
  split; [exact Hnd|]. split; [exact Hgroups|]. exact Fout.
Qed.

Lemma outgoing_rows_one_per_wallet_witness :
  exists tr s',
    respond_to_offer (Scenario.lib false) (Scenario.wsm Scenario.silent_ledger)
      Scenario.maker_offer (Scenario.world [])
    = (Ok (true, Some tr, None), s')
    /\ exists incoming outgoing,
        transactions s' = incoming ++ outgoing
        /\ Forall (fun t => tx_type t = INCOMING_TRADE) incoming
        /\ Forall (fun t => tx_type t = OUTGOING_TRADE
                            /\ to_puzzle_hash t = repeat x00 32) outgoing.
Proof.
  assert (E : exists tr s',
             respond_to_offer (Scenario.lib false) (Scenario.wsm Scenario.silent_ledger)
               Scenario.maker_offer (Scenario.world [])
             = (Ok (true, Some tr, None), s'))
    by (vm_compute; eexists; eexists; reflexivity).
  destruct E as (tr & s' & E). exists tr, s'. split; [exact E|].
  destruct (outgoing_rows_one_per_wallet _ _ _ _ _ _ _ E)
    as (take & inc & out & groups & H). cbv zeta in H.
  destruct H as (_ & Htx & Finc & _ & _ & Fout).
  exists inc, out. split; [exact Htx|]. split; [exact Finc|].
  clear - Fout. induction Fout as [|g row gs rows Hrow _ IH]; constructor.
  - destruct Hrow as (H1 & H2 & _). split; assumption.
  - exact IH.
Defined.

(** * More of the manager *)

(** ** Looking a trade up by coin *)

(** X1.  [get_trade_by_coin] returns the first trade of the store that is not
    CANCELLED and has the coin among its coins of interest, and [None]
    exactly when the store has no such trade; it changes nothing. *)
Theorem get_trade_by_coin_first_live_trade (coin : Coin) (s : State) :
  exists r,
    get_trade_by_coin coin s = (Ok r, s)
    /\ match r with
       | Some t =>
           exists before after,
             trade_store s = before ++ t :: after
             /\ status t <> CANCELLED
             /\ In coin (coins_of_interest t)
             /\ forall t', In t' before ->
                           status t' = CANCELLED \/ ~ In coin (coins_of_interest t')
       | None =>
           forall t', In t' (trade_store s) ->
                      status t' = CANCELLED \/ ~ In coin (coins_of_interest t')
       end.
Proof.
  exists (first_trade_with_coin coin (trade_store s)). split; [reflexivity|].
  induction (trade_store s) as [|r ts IH]; simpl.
  - intros t' [].
  - destruct (TradeStatus_eqb (status r) CANCELLED) eqn:E.
    + apply TradeStatus_eqb_eq in E.
      destruct (first_trade_with_coin coin ts) as [t|].
      * destruct IH as (before & after & Hts & Hst & Hin & Hbefore).
        exists (r :: before), after. rewrite Hts. repeat split; try assumption.
        intros t' [<-|H']; [now left | now apply Hbefore].
      * intros t' [<-|H']; [now left | now apply IH].
    + assert (Hlive : status r <> CANCELLED).
      { intros Hc. apply TradeStatus_eqb_eq in Hc. congruence. }
      destruct (existsb (Coin_eqb coin) (coins_of_interest r)) eqn:E'.
      * exists [], ts. repeat split; try assumption.
        -- apply existsb_exists in E'. destruct E' as [c [Hc He]].
           apply Coin_eqb_eq in He. now subst.
        -- intros t' [].
      * assert (Hout : ~ In coin (coins_of_interest r)).
        { intros Hin. assert (Ht : existsb (Coin_eqb coin) (coins_of_interest r) = true).
          { apply existsb_exists. exists coin. split; [assumption | now apply Coin_eqb_eq]. }
          congruence. }
        destruct (first_trade_with_coin coin ts) as [t|].
        -- destruct IH as (before & after & Hts & Hst & Hin & Hbefore).
           exists (r :: before), after. rewrite Hts. repeat split; try assumption.
           intros t' [<-|H']; [now right | now apply Hbefore].
        -- intros t' [<-|H']; [now right | now apply IH].
Qed.

(** ** The on-ledger handler, case by case *)

Lemma intersects_spec (xs ys : list bytes32) :
  intersects xs ys = true <-> exists x, In x xs /\ In x ys.
Proof.
  unfold intersects. rewrite existsb_exists. split.
  - intros [x [Hx Hy]]. exists x. split; [assumption | now apply bytes_in_In].
  - intros [x [Hx Hy]]. exists x. split; [assumption | now apply bytes_in_In].
Qed.

Lemma intersects_nil (xs : list bytes32) : intersects xs [] = false.
Proof.
  destruct (intersects xs []) eqn:E; [|reflexivity].
  apply intersects_spec in E. destruct E as [x [_ []]].
Qed.

Section HandlerCases.

Variable lib : Library.
Variable wsm : WalletStateManager.

Lemma create_wallets_loop (keys : list asset_key) :
  forall s, exists s',
    forM_ keys (fun key =>
      match key with
      | None => ret tt
      | Some k =>
          match get_wallet_for_colour wsm (ColourBytes k) with
          | Some _ => ret tt
          | None => log_event (LogCreatingWallet k) ;;; modify (push_cc_wallet k)
          end
      end) s = (Ok tt, s')
    /\ created_cc_wallets s'
       = created_cc_wallets s
         ++ flat_map (fun key =>
                        match key with
                        | None => []
                        | Some k =>
                            match get_wallet_for_colour wsm (ColourBytes k) with
                            | Some _ => []
                            | None => [k]
                            end
                        end) keys
    /\ trade_store s' = trade_store s
    /\ pending_transactions s' = pending_transactions s
    /\ transactions s' = transactions s
    /\ sign_requests s' = sign_requests s
    /\ derivation_index s' = derivation_index s.
Proof.
  unfold forM_. induction keys as [|key keys IH]; intros s; simpl.
  - exists s. rewrite app_nil_r. repeat split; reflexivity.
  - unfold bind at 1.
    destruct key as [k|]; [destruct (get_wallet_for_colour wsm (ColourBytes k))|].
    + unfold ret at 1. simpl. apply IH.
    + unfold bind, log_event, modify. simpl.
      destruct (IH (push_cc_wallet k (push_log (LogCreatingWallet k) s)))
        as (s' & Hrun & H1 & H2 & H3 & H4 & H5 & H6).
      exists s'. split; [exact Hrun|].
      rewrite H1, H2, H3, H4, H5, H6. simpl. rewrite <- app_assoc.
      repeat split; reflexivity.
    + unfold ret at 1. simpl. apply IH.
Qed.

Lemma handler_run (cs : CoinState) (s : State) :
  match first_trade_with_coin (cs_coin cs) (trade_store s) with
  | None =>
      coins_of_interest_farmed lib wsm cs s
      = (Ok tt, push_log (LogCoinNotInTrade (cs_coin cs)) s)
  | Some t =>
      match get_coin_state wsm (our_settlement_ids lib wsm (Offer_from_bytes lib (offer t))) with
      | None =>
          coins_of_interest_farmed lib wsm cs s = (Raise AssertionError, after_spent_note cs s)
      | Some states =>
          if intersects (our_settlement_ids lib wsm (Offer_from_bytes lib (offer t)))
                        (map (fun c => Coin_name lib (cs_coin c)) states)
          then
            exists first rest s2,
              states = first :: rest
              /\ maybe_create_wallets_for_offer lib wsm (Offer_from_bytes lib (offer t))
                   (after_spent_note cs s) = (Ok tt, s2)
              /\ coins_of_interest_farmed lib wsm cs s
                 = match TradeStore.set_status_at (set_status_index lib) (trade_id t)
                           CONFIRMED (spent_height first) (trade_store s2) with
                   | Ok ts =>
                       (Ok tt,
                        push_log (LogTradeConfirmed (trade_id t) (spent_height first))
                          (set_trade_store ts s2))
                   | Raise e => (Raise e, s2)
                   end
          else
            coins_of_interest_farmed lib wsm cs s
            = (Ok tt,
               match status t with
               | PENDING_CANCEL =>
                   push_log (LogTradeCanceled (trade_id t))
                     (set_trade_store
                        (TradeStore.set_status (trade_id t) CANCELLED None
                                               (trade_store (after_spent_note cs s)))
                        (after_spent_note cs s))
               | PENDING_CONFIRM =>
                   push_log (LogTradeFailed (trade_id t))
                     (set_trade_store
                        (TradeStore.set_status (trade_id t) FAILED None
                                               (trade_store (after_spent_note cs s)))
                        (after_spent_note cs s))
               | _ => after_spent_note cs s
               end)
      end
  end.
Proof.
  unfold coins_of_interest_farmed, get_trade_by_coin, get_all_trades, gets, bind, ret.
  destruct (first_trade_with_coin (cs_coin cs) (trade_store s)) as [t|]; [|reflexivity].
  unfold after_spent_note.
  destruct (spent_height cs) as [h|]; unfold log_event, modify.
  all: destruct (get_coin_state wsm _) as [states|]; [|reflexivity].
  all: destruct (intersects _ _) eqn:I; [|destruct (status t); reflexivity].
  all: destruct states as [|first rest];
    [simpl in I; rewrite intersects_nil in I; discriminate|].
  all: match goal with
       | |- exists _ _ s2, _ /\ maybe_create_wallets_for_offer _ _ ?o ?s1 = _ /\ _ =>
           destruct (create_wallets_loop (dict_keys (arbitrage lib o)) s1)
             as (s2 & Hrun & _);
           exists first, rest, s2; split; [reflexivity|];
           unfold maybe_create_wallets_for_offer; split; [exact Hrun|];
           rewrite Hrun; unfold set_status_at;
           destruct (TradeStore.set_status_at _ _ _ _ _); reflexivity
       end.
Qed.

End HandlerCases.

Lemma first_trade_with_coin_None (coin : Coin) (ts : list TradeRecord) :
  (forall t, In t ts -> status t = CANCELLED \/ ~ In coin (coins_of_interest t)) ->
  first_trade_with_coin coin ts = None.
Proof.
  induction ts as [|r ts IH]; intros H; simpl; [reflexivity|].
  destruct (TradeStatus_eqb (status r) CANCELLED) eqn:E.
  - apply IH. intros t Ht. apply H. now right.
  - destruct (existsb (Coin_eqb coin) (coins_of_interest r)) eqn:E'.
    + exfalso. destruct (H r (or_introl eq_refl)) as [Hc|Hn].
      * apply TradeStatus_eqb_eq in Hc. congruence.
      * apply Hn. apply existsb_exists in E'. destruct E' as [c [Hc He]].
        apply Coin_eqb_eq in He. now subst.
    + apply IH. intros t Ht. apply H. now right.
Qed.

Lemma status_of_after_spent_note (k : bytes32) (cs : CoinState) (s : State) :
  status_of k (after_spent_note cs s) = status_of k s.
Proof. unfold after_spent_note. now destruct (spent_height cs). Qed.

Lemma found_trade_status (coin : Coin) (s : State) (t : TradeRecord) :
  TradeStore.unique_ids (trade_store s) ->
  first_trade_with_coin coin (trade_store s) = Some t ->
  TradeStore.get_trade_record (trade_id t) (trade_store s) = Some t.
Proof.
  intros Hu F. apply first_trade_with_coin_spec in F. destruct F as (Hin & _).
  now apply unique_ids_get.
Qed.

(** X2.  [maybe_create_wallets_for_offer] never raises.  It creates a wallet for
    each coloured key of the offer's arbitrage that
    [get_wallet_for_colour] does not know, in the order of the keys, skips
    the base asset, and touches neither the trade store nor the
    transactions. *)
Theorem maybe_create_wallets_creates_the_unknown
        (lib : Library) (wsm : WalletStateManager) (o : Offer) (s : State) :
  exists s',
    maybe_create_wallets_for_offer lib wsm o s = (Ok tt, s')
    /\ created_cc_wallets s' = created_cc_wallets s ++ wallets_to_create lib wsm o
    /\ trade_store s' = trade_store s
    /\ pending_transactions s' = pending_transactions s
    /\ transactions s' = transactions s.
Proof.
  destruct (create_wallets_loop wsm (dict_keys (arbitrage lib o)) s)
    as (s' & Hrun & H1 & H2 & H3 & H4 & _).
  exists s'. repeat split; assumption.
Qed.

(** X3.  A coin that no trade other than CANCELLED ones has among its coins of
    interest only leaves a line in the log: the handler returns and the
    store, the transactions and the wallets are as before. *)
Theorem handler_ignores_unwatched_coin
        (lib : Library) (wsm : WalletStateManager) (cs : CoinState) (s : State) :
  (forall t, In t (trade_store s) ->
             status t = CANCELLED \/ ~ In (cs_coin cs) (coins_of_interest t)) ->
  coins_of_interest_farmed lib wsm cs s
  = (Ok tt, push_log (LogCoinNotInTrade (cs_coin cs)) s).
Proof.
  intros H. pose proof (handler_run lib wsm cs s) as R.
  now rewrite (first_trade_with_coin_None _ _ H) in R.
Qed.

Lemma handler_ignores_unwatched_coin_witness :
  coins_of_interest_farmed (Scenario.lib false) (Scenario.wsm Scenario.spent_ledger)
    {| cs_coin := Scenario.coin_n 1; spent_height := Some 9 |}
    (Scenario.world Scenario.mixed_store)
  = (Ok tt, push_log (LogCoinNotInTrade (Scenario.coin_n 1))
                     (Scenario.world Scenario.mixed_store)).
Proof.
  apply (handler_ignores_unwatched_coin (Scenario.lib false)
           (Scenario.wsm Scenario.spent_ledger)
           {| cs_coin := Scenario.coin_n 1; spent_height := Some 9 |}
           (Scenario.world Scenario.mixed_store)).
  intros t Ht. simpl in Ht.
  destruct Ht as [<-|[<-|[<-|[<-|[<-|[<-|[]]]]]]];
    [left; reflexivity | right | right | right | right | right];
    intros Hin; vm_compute in Hin;
    repeat (destruct Hin as [Hin|Hin]; [discriminate Hin|]); exact Hin.
Defined.


(** The second case on a store that refuses a null index: the maker's
    settlement coin exists unspent, the handler creates the wallet, hands
    the null height to the store and raises; the trade stays
    PENDING_ACCEPT. *)
Lemma strict_store_refuses_a_null_height :
  coins_of_interest_farmed (Scenario.lib false) (Scenario.wsm Scenario.unspent_ledger)
    Scenario.maker_coin_spent (Scenario.world [Scenario.maker_trade PENDING_ACCEPT])
  = (Raise TypeError,
     push_log (LogCreatingWallet Scenario.K)
       (push_cc_wallet Scenario.K (Scenario.world [Scenario.maker_trade PENDING_ACCEPT]))).
Proof. vm_compute. reflexivity. Qed.

(** X5.  When the ledger knows none of our settlement coins, the trade found
    for the coin goes from PENDING_CANCEL to CANCELLED and from
    PENDING_CONFIRM to FAILED, and keeps any other status, PENDING_ACCEPT
    included; every other trade keeps its status. *)
Theorem handler_without_settlement
        (lib : Library) (wsm : WalletStateManager) (cs : CoinState) (s : State)
        (t : TradeRecord) (states : list CoinState) :
  TradeStore.unique_ids (trade_store s) ->
  get_trade_by_coin (cs_coin cs) s = (Ok (Some t), s) ->
  get_coin_state wsm (our_settlement_ids lib wsm (Offer_from_bytes lib (offer t)))
  = Some states ->
  (forall c, In c states ->
             ~ In (Coin_name lib (cs_coin c))
                  (our_settlement_ids lib wsm (Offer_from_bytes lib (offer t)))) ->
  exists s',
    coins_of_interest_farmed lib wsm cs s = (Ok tt, s')
    /\ status_of (trade_id t) s' = Some (unsettled_status (status t))
    /\ forall k, k <> trade_id t -> status_of k s' = status_of k s.
Proof.
  intros Hu Hfind G Hnone.
  unfold get_trade_by_coin, bind, get_all_trades, gets, ret in Hfind.
  injection Hfind as F.
  pose proof (handler_run lib wsm cs s) as R. rewrite F, G in R.
  assert (I : intersects (our_settlement_ids lib wsm (Offer_from_bytes lib (offer t)))
                         (map (fun c => Coin_name lib (cs_coin c)) states) = false).
  { destruct (intersects _ _) eqn:E; [|reflexivity].
    apply intersects_spec in E. destruct E as (x & Hx & Hy).
    apply in_map_iff in Hy. destruct Hy as (c & <- & Hc).
    exfalso. exact (Hnone c Hc Hx). }
  rewrite I in R. eexists. split; [exact R|].
  assert (Hst : status_of (trade_id t) s = Some (status t)).
  { unfold status_of. now rewrite (found_trade_status _ _ _ Hu F). }
  destruct (status t) eqn:St; simpl; split;
    try (rewrite status_of_after_spent_note; exact Hst);
    try (intros k _; apply status_of_after_spent_note).
  - unfold status_of. simpl.
    change (status_of (trade_id t)
              (set_trade_store
                 (TradeStore.set_status (trade_id t) FAILED None
                                        (trade_store (after_spent_note cs s)))
                 (after_spent_note cs s)) = Some FAILED).
    rewrite status_of_set_status, bytes_eqb_refl, status_of_after_spent_note, Hst.
    reflexivity.
  - intros k Hk.
    change (status_of k
              (set_trade_store
                 (TradeStore.set_status (trade_id t) FAILED None
                                        (trade_store (after_spent_note cs s)))
                 (after_spent_note cs s)) = status_of k s).
    rewrite status_of_set_status.
    destruct (bytes_eqb k (trade_id t)) eqn:E;
      [apply bytes_eqb_eq in E; contradiction|].
    apply status_of_after_spent_note.
  - change (status_of (trade_id t)
              (set_trade_store
                 (TradeStore.set_status (trade_id t) CANCELLED None
                                        (trade_store (after_spent_note cs s)))
                 (after_spent_note cs s)) = Some CANCELLED).
    rewrite status_of_set_status, bytes_eqb_refl, status_of_after_spent_note, Hst.
    reflexivity.
  - intros k Hk.
    change (status_of k
              (set_trade_store
                 (TradeStore.set_status (trade_id t) CANCELLED None
                                        (trade_store (after_spent_note cs s)))
                 (after_spent_note cs s)) = status_of k s).
    rewrite status_of_set_status.
    destruct (bytes_eqb k (trade_id t)) eqn:E;
      [apply bytes_eqb_eq in E; contradiction|].
    apply status_of_after_spent_note.
Qed.

Lemma handler_without_settlement_witness :
  exists s',
    coins_of_interest_farmed (Scenario.lib false) (Scenario.wsm Scenario.silent_ledger)
      Scenario.maker_coin_spent (Scenario.world [Scenario.maker_trade PENDING_CONFIRM])
    = (Ok tt, s')
    /\ status_of Scenario.maker_trade_id s' = Some FAILED.
Proof.
  destruct (handler_without_settlement (Scenario.lib false)
              (Scenario.wsm Scenario.silent_ledger) Scenario.maker_coin_spent
              (Scenario.world [Scenario.maker_trade PENDING_CONFIRM])
              (Scenario.maker_trade PENDING_CONFIRM) [])
    as (s' & Hrun & Hst & _).
  - repeat constructor. intros [].
  - vm_compute. reflexivity.
  - reflexivity.
  - intros c [].
  - exists s'. split; [exact Hrun | exact Hst].
Defined.

(** X6.  When the ledger returns a coin state for at least one of our
    settlement coins and the store accepts the [spent_height] of the first
    coin state returned, writing the height [h] for it, the trade found for
    the coin becomes CONFIRMED, whatever its status was, with [h] as its
    confirmation height; the wallets the offer needs are created and every
    other trade keeps its status. *)
Theorem handler_with_settlement
        (lib : Library) (wsm : WalletStateManager) (cs : CoinState) (s : State)
        (t : TradeRecord) (first : CoinState) (rest : list CoinState) (h : Z) :
  TradeStore.unique_ids (trade_store s) ->
  get_trade_by_coin (cs_coin cs) s = (Ok (Some t), s) ->
  get_coin_state wsm (our_settlement_ids lib wsm (Offer_from_bytes lib (offer t)))
  = Some (first :: rest) ->
  (exists c, In c (first :: rest)
             /\ In (Coin_name lib (cs_coin c))
                   (our_settlement_ids lib wsm (Offer_from_bytes lib (offer t)))) ->
  set_status_index lib (spent_height first) (confirmed_at_index t) = Ok h ->
  exists s',
    coins_of_interest_farmed lib wsm cs s = (Ok tt, s')
    /\ status_of (trade_id t) s' = Some CONFIRMED
    /\ option_map confirmed_at_index
                  (TradeStore.get_trade_record (trade_id t) (trade_store s'))
       = Some h
    /\ created_cc_wallets s'
       = created_cc_wallets s ++ wallets_to_create lib wsm (Offer_from_bytes lib (offer t))
    /\ forall k, k <> trade_id t -> status_of k s' = status_of k s.
Proof.
  intros Hu Hfind G (c & Hc & Hid) Hidx.
  unfold get_trade_by_coin, bind, get_all_trades, gets, ret in Hfind.
  injection Hfind as F.
  pose proof (handler_run lib wsm cs s) as R. rewrite F, G in R.
  assert (I : intersects (our_settlement_ids lib wsm (Offer_from_bytes lib (offer t)))
                         (map (fun c => Coin_name lib (cs_coin c)) (first :: rest)) = true).
  { apply intersects_spec. exists (Coin_name lib (cs_coin c)). split; [exact Hid|].
    apply in_map_iff. exists c. split; [reflexivity | exact Hc]. }
  rewrite I in R. destruct R as (first' & rest' & s2 & Heq & Hcreate & Hrun).
  injection Heq as <- <-.
  destruct (create_wallets_loop wsm
              (dict_keys (arbitrage lib (Offer_from_bytes lib (offer t))))
              (after_spent_note cs s)) as (s2' & Hrun' & C1 & C2 & _).
  unfold maybe_create_wallets_for_offer in Hcreate. rewrite Hrun' in Hcreate.
  injection Hcreate as <-.
  assert (Hget : TradeStore.get_trade_record (trade_id t) (trade_store s2') = Some t).
  { rewrite C2. unfold after_spent_note. destruct (spent_height cs);
      now apply (found_trade_status (cs_coin cs)). }
  unfold TradeStore.set_status_at in Hrun. rewrite Hget, Hidx in Hrun.
  eexists. split; [exact Hrun|]. simpl. repeat split.
  - unfold status_of. simpl. rewrite get_set_status, bytes_eqb_refl, Hget. reflexivity.
  - rewrite get_set_status, bytes_eqb_refl, Hget. reflexivity.
  - rewrite C1. unfold after_spent_note. now destruct (spent_height cs).
  - intros k Hk. unfold status_of. simpl. rewrite get_set_status.
    destruct (bytes_eqb k (trade_id t)) eqn:E;
      [apply bytes_eqb_eq in E; contradiction|].
    rewrite C2. unfold after_spent_note. now destruct (spent_height cs).
Qed.

Lemma handler_with_settlement_witness :
  exists s',
    coins_of_interest_farmed (Scenario.lib false) (Scenario.wsm Scenario.spent_ledger)
      Scenario.maker_coin_spent (Scenario.world [Scenario.maker_trade PENDING_ACCEPT])
    = (Ok tt, s')
    /\ status_of Scenario.maker_trade_id s' = Some CONFIRMED
    /\ option_map confirmed_at_index
                  (TradeStore.get_trade_record Scenario.maker_trade_id (trade_store s'))
       = Some 7.
Proof.
  destruct (handler_with_settlement (Scenario.lib false)
              (Scenario.wsm Scenario.spent_ledger) Scenario.maker_coin_spent
              (Scenario.world [Scenario.maker_trade PENDING_ACCEPT])
              (Scenario.maker_trade PENDING_ACCEPT)
              {| cs_coin := Scenario.maker_settlement_coin; spent_height := Some 7 |} [] 7)
    as (s' & Hrun & Hst & Hh & _).
  - repeat constructor. intros [].
  - vm_compute. reflexivity.
  - vm_compute. reflexivity.
  - exists {| cs_coin := Scenario.maker_settlement_coin; spent_height := Some 7 |}.
    split; [now left|]. vm_compute. left. reflexivity.
  - reflexivity.
  - exists s'. split; [exact Hrun|]. split; [exact Hst | exact Hh].
Defined.

(** X7.  Whatever it does, the handler asks no wallet for a signature, derives
    no puzzle hash and adds no transaction, and the only trade whose status
    can differ afterwards is the one [get_trade_by_coin] found. *)
Theorem handler_touches_one_trade
        (lib : Library) (wsm : WalletStateManager) (cs : CoinState) (s : State) :
  pending_transactions (snd (coins_of_interest_farmed lib wsm cs s)) = pending_transactions s
  /\ transactions (snd (coins_of_interest_farmed lib wsm cs s)) = transactions s
  /\ sign_requests (snd (coins_of_interest_farmed lib wsm cs s)) = sign_requests s
  /\ derivation_index (snd (coins_of_interest_farmed lib wsm cs s)) = derivation_index s
  /\ forall k,
      status_of k (snd (coins_of_interest_farmed lib wsm cs s)) <> status_of k s ->
      exists t, get_trade_by_coin (cs_coin cs) s = (Ok (Some t), s) /\ k = trade_id t.
Proof.
  pose proof (handler_run lib wsm cs s) as R.
  unfold get_trade_by_coin, bind, get_all_trades, gets, ret.
  assert (Hnote : pending_transactions (after_spent_note cs s) = pending_transactions s
                  /\ transactions (after_spent_note cs s) = transactions s
                  /\ sign_requests (after_spent_note cs s) = sign_requests s
                  /\ derivation_index (after_spent_note cs s) = derivation_index s
                  /\ trade_store (after_spent_note cs s) = trade_store s).
  { unfold after_spent_note. destruct (spent_height cs); repeat split; reflexivity. }
  destruct Hnote as (N1 & N2 & N3 & N4 & N5).
  destruct (first_trade_with_coin (cs_coin cs) (trade_store s)) as [t|].
  - assert (Hother : forall k st idx s1,
               trade_store s1 = trade_store s ->
               status_of k (set_trade_store
                              (TradeStore.set_status (trade_id t) st idx (trade_store s1)) s1)
               <> status_of k s ->
               exists t0, (Ok (Some t), s) = (Ok (Some t0), s) /\ k = trade_id t0).
    { intros k st idx s1 Hs1 Hk. exists t. split; [reflexivity|].
      rewrite status_of_set_status in Hk.
      destruct (bytes_eqb k (trade_id t)) eqn:E; [now apply bytes_eqb_eq in E|].
      exfalso. apply Hk. unfold status_of. now rewrite Hs1. }
    destruct (get_coin_state wsm _) as [states|].
    + destruct (intersects _ _).
      * destruct R as (first & rest & s2 & _ & Hcreate & ->).
        destruct (create_wallets_loop wsm
                    (dict_keys (arbitrage lib (Offer_from_bytes lib (offer t))))
                    (after_spent_note cs s)) as (s2' & Hrun' & _ & C2 & C3 & C4 & C5 & C6).
        unfold maybe_create_wallets_for_offer in Hcreate. rewrite Hrun' in Hcreate.
        injection Hcreate as <-.
        unfold TradeStore.set_status_at.
        destruct (TradeStore.get_trade_record (trade_id t) (trade_store s2'))
          as [current|];
          [destruct (set_status_index lib (spent_height first) (confirmed_at_index current))
             as [index|e]|];
          simpl; rewrite ?C3, ?C4, ?C5, ?C6; repeat split; try assumption.
        -- intros k Hk. apply (Hother k CONFIRMED (Some index) s2'); [congruence|].
           exact Hk.
        -- intros k Hk. exfalso. apply Hk. unfold status_of. now rewrite C2, N5.
        -- intros k Hk. exfalso. apply Hk. unfold status_of. simpl. now rewrite C2, N5.
      * rewrite R. simpl.
        destruct (status t); simpl; repeat split; try assumption;
          try (intros k Hk; exfalso; apply Hk; unfold status_of; now rewrite N5).
        -- intros k Hk. now apply (Hother k FAILED None (after_spent_note cs s)).
        -- intros k Hk. now apply (Hother k CANCELLED None (after_spent_note cs s)).
    + rewrite R. simpl. repeat split; try assumption.
      intros k Hk. exfalso. apply Hk. unfold status_of. now rewrite N5.
  - rewrite R. simpl. repeat split. intros k Hk. exfalso. now apply Hk.
Qed.

(** ** The builder's outcomes *)

Section BuilderOutcomes.

Variable lib : Library.
Variable wsm : WalletStateManager.

(** [_create_offer_for_ids] raises or returns [(True, offer, None)]. *)
Lemma create_offer_shape (d : offer_dict_t) (s : State) :
  (exists o s', _create_offer_for_ids lib wsm d s = (Ok (true, Some o, None), s'))
  \/ (exists e s', _create_offer_for_ids lib wsm d s = (Raise e, s')).
Proof.
  unfold _create_offer_for_ids, try_except.
  destruct (create_offer_body lib wsm d s) as [[r|e] s1] eqn:B.
  - left. unfold create_offer_body in B.
    apply bind_Ok in B. destruct B as ([c rq] & s2 & _ & B).
    destruct (calculate_announcements lib _); [discriminate|].
    apply bind_Ok in B. destruct B as ([] & s3 & _ & B).
    apply bind_Ok in B. destruct B as (txs & s4 & _ & B).
    apply bind_Ok in B. destruct B as (bs & s5 & _ & B).
    unfold ret in B. injection B as <- <-. eexists. eexists. reflexivity.
  - right. exists e, s1. reflexivity.
Qed.

Lemma create_offer_frame (d : offer_dict_t) (s : State) :
  trade_store (snd (_create_offer_for_ids lib wsm d s)) = trade_store s
  /\ transactions (snd (_create_offer_for_ids lib wsm d s)) = transactions s
  /\ pending_transactions (snd (_create_offer_for_ids lib wsm d s)) = pending_transactions s.
Proof.
  repeat split.
  - apply (keeps_create_offer trade_store); reflexivity.
  - apply (keeps_create_offer transactions); reflexivity.
  - apply (keeps_create_offer pending_transactions); reflexivity.
Qed.

End BuilderOutcomes.

(** X8.  [create_offer_for_ids] has two outcomes.  It returns
    [(True, record, None)] with the record, PENDING_ACCEPT, saved in the
    store; or it raises and leaves the store and the transactions as they
    were.  It never returns [False]. *)
Theorem create_offer_for_ids_saves_or_raises
        (lib : Library) (wsm : WalletStateManager) (d : offer_dict_t) (s : State) :
  (exists tr s',
      create_offer_for_ids lib wsm d s = (Ok (true, Some tr, None), s')
      /\ status tr = PENDING_ACCEPT
      /\ trade_store s' = TradeStore.add_trade_record tr (trade_store s)
      /\ transactions s' = transactions s
      /\ pending_transactions s' = pending_transactions s)
  \/ (exists e s',
         create_offer_for_ids lib wsm d s = (Raise e, s')
         /\ trade_store s' = trade_store s
         /\ transactions s' = transactions s
         /\ pending_transactions s' = pending_transactions s).
Proof.
  destruct (create_offer_frame lib wsm d s) as (F1 & F2 & F3).
  unfold create_offer_for_ids, bind.
  destruct (create_offer_shape lib wsm d s) as [(o & s1 & H) | (e & s1 & H)];
    rewrite H in *; simpl in F1, F2, F3.
  - unfold gets, uint64. destruct ((0 <=? time_now s1) && (time_now s1 <? 2 ^ 64)).
    + left. eexists. eexists. unfold ret, save_trade, modify. simpl.
      split; [reflexivity|]. simpl. rewrite F1. repeat split; assumption.
    + right. eexists. eexists. unfold raise. split; [reflexivity|].
      repeat split; assumption.
  - right. exists e, s1. split; [reflexivity|]. repeat split; assumption.
Qed.

(** X9.  When [cancel_pending_offer_safely] raises, which it does when a
    coloured-coin wallet answers with an empty list or the wallet state
    manager refuses a record, no trade has changed: the status is set to
    PENDING_CANCEL only after the last primary coin. *)
Theorem cancel_safely_raises_before_the_status
        (lib : Library) (wsm : WalletStateManager) (tid : bytes32) (s s' : State) (e : Exn) :
  cancel_pending_offer_safely lib wsm tid s = (Raise e, s') ->
  trade_store s' = trade_store s.
Proof.
  unfold cancel_pending_offer_safely, bind, log_event, modify, get_trade_by_id, gets. simpl.
  destruct (TradeStore.get_trade_record tid (trade_store s)) as [trade|]; [|discriminate].
  assert (K : keeps trade_store
                (forM_ (get_primary_coins lib (Offer_from_bytes lib (offer trade)))
                       (cancel_coin lib wsm))).
  { unfold forM_. apply keeps_foldM. intros _ coin. unfold cancel_coin.
    destruct (get_wallet_for_coin wsm (Coin_name lib coin)) as [w|]; [|apply keeps_ret].
    apply keeps_bind; [intros s0; reflexivity|]. intros ph.
    apply keeps_bind;
      [|intros tx s0; unfold add_pending_transaction;
        destruct (pending_transaction_refused wsm tx); reflexivity].
    destruct (WalletType_eqb (type w) COLOURED_COIN).
    - apply keeps_bind; [intros s0; reflexivity|]. intros [|tx txs];
        [apply keeps_raise | apply keeps_ret].
    - intros s0. reflexivity. }
  specialize (K (push_log (LogSecureCancel (hex tid)) s)).
  destruct (forM_ _ _ _) as [[[]|e0] s1]; [discriminate|].
  intros H. injection H as <- <-. exact K.
Qed.

Lemma cancel_safely_raises_before_the_status_witness :
  exists s',
    cancel_pending_offer_safely (Scenario.lib false) Scenario.silent_cat_wsm
      Scenario.maker_trade_id (Scenario.world [Scenario.maker_trade PENDING_ACCEPT])
    = (Raise IndexError, s')
    /\ trade_store s' = [Scenario.maker_trade PENDING_ACCEPT].
Proof.
  assert (E : exists s',
             cancel_pending_offer_safely (Scenario.lib false) Scenario.silent_cat_wsm
               Scenario.maker_trade_id (Scenario.world [Scenario.maker_trade PENDING_ACCEPT])
             = (Raise IndexError, s'))
    by (vm_compute; eexists; reflexivity).
  destruct E as (s' & E). exists s'. split; [exact E|].
  exact (cancel_safely_raises_before_the_status _ _ _ _ _ _ E).
Defined.

(** ** Entries of the offer dictionary *)

Lemma fromhex_hex_cons (x : byte) (b : bytes) :
  fromhex (hex (x :: b))
  = match fromhex (hex b) with
    | Some rest => Some (x :: rest)
    | None => None
    end.
Proof. destruct x; reflexivity. Qed.

Lemma fromhex_hex (b : bytes) : fromhex (hex b) = Some b.
Proof.
  induction b as [|x b IH]; [reflexivity|].
  rewrite fromhex_hex_cons, IH. reflexivity.
Qed.

Section Entries.

Variable lib : Library.
Variable wsm : WalletStateManager.

Lemma offer_entry_refused
      (acc : list (Z * list Coin) * list (asset_key * list Payment))
      (entry : Z * Z) (s : State) :
  entry_refused wsm entry ->
  exists e, offer_entry lib wsm acc entry s = (Raise e, s).
Proof.
  destruct acc as [c r], entry as [i a]. unfold entry_refused. simpl.
  intros [[Hlo Hhi] H]. unfold offer_entry, bind, uint32.
  assert (Hr : (0 <=? i) && (i <? 2 ^ 32) = true).
  { apply andb_true_iff. split; [now apply Z.leb_le | now apply Z.ltb_lt]. }
  rewrite Hr. unfold ret at 1.
  destruct (wallets wsm i) as [w|]; [|eexists; reflexivity].
  destruct H as [[Hpos Ht] | [Hneg Hb]].
  - assert (Hp : (a >? 0) = true) by (apply Z.gtb_lt; lia).
    rewrite Hp, Ht. eexists. reflexivity.
  - assert (Hp : (a >? 0) = false) by (rewrite Z.gtb_ltb; apply Z.ltb_ge; lia).
    assert (Hn : (a <? 0) = true) by (now apply Z.ltb_lt).
    assert (Hbal : (get_confirmed_balance w <? Z.abs a) = true) by (now apply Z.ltb_lt).
    rewrite Hp, Hn, Hbal. eexists. reflexivity.
Qed.

Lemma offer_loop_refused (d : offer_dict_t) :
  (exists entry, In entry d /\ entry_refused wsm entry) ->
  forall acc s, exists e s',
    foldM (offer_entry lib wsm) d acc s = (Raise e, s')
    /\ sign_requests s' = sign_requests s.
Proof.
  induction d as [|x d IH]; intros (entry & Hin & Href) acc s; [destruct Hin|].
  simpl. unfold bind.
  pose proof (keeps_offer_entry sign_requests (fun _ => eq_refl) lib wsm acc x s) as K.
  destruct (offer_entry lib wsm acc x s) as [[acc'|e] s1] eqn:E; simpl in K.
  - destruct Hin as [->|Hin].
    + destruct (offer_entry_refused acc entry s Href) as [e He]. congruence.
    + destruct (IH (ex_intro _ entry (conj Hin Href)) acc' s1) as (e & s' & Hrun & Hs).
      exists e, s'. split; [exact Hrun | congruence].
  - exists e, s1. split; [reflexivity | exact K].
Qed.

End Entries.

(** X10.  An offer dictionary with an entry for an unknown wallet, a request from
    a wallet that is neither standard nor coloured, or an offer above the
    wallet's confirmed balance makes [_create_offer_for_ids] and
    [create_offer_for_ids] raise, before any wallet is asked to sign and
    without a record in the store. *)
Theorem refused_entry_raises_before_signing
        (lib : Library) (wsm : WalletStateManager) (d : offer_dict_t) (s : State) :
  (exists entry, In entry d /\ entry_refused wsm entry) ->
  (exists e s',
      _create_offer_for_ids lib wsm d s = (Raise e, s')
      /\ sign_requests s' = sign_requests s
      /\ trade_store s' = trade_store s)
  /\ (exists e s',
         create_offer_for_ids lib wsm d s = (Raise e, s')
         /\ sign_requests s' = sign_requests s
         /\ trade_store s' = trade_store s).
Proof.
  intros H.
  destruct (offer_loop_refused lib wsm d H ([], []) s) as (e & s' & Hrun & Hs).
  pose proof (keeps_foldM trade_store (offer_entry lib wsm)
                (fun acc x => keeps_offer_entry trade_store (fun _ => eq_refl) lib wsm acc x)
                d ([], []) s) as K.
  rewrite Hrun in K. simpl in K.
  assert (Hc : _create_offer_for_ids lib wsm d s = (Raise e, s')).
  { unfold _create_offer_for_ids, try_except, create_offer_body, bind.
    rewrite Hrun. reflexivity. }
  split.
  - exists e, s'. repeat split; assumption.
  - unfold create_offer_for_ids, bind. rewrite Hc.
    exists e, s'. repeat split; assumption.
Qed.

Lemma refused_entry_raises_before_signing_witness :
  exists e s',
    create_offer_for_ids (Scenario.lib false) (Scenario.wsm Scenario.silent_ledger)
      [(1, -100); (2, -60)] (Scenario.world [])
    = (Raise e, s')
    /\ sign_requests s' = []
    /\ trade_store s' = [].
Proof.
  apply (refused_entry_raises_before_signing (Scenario.lib false)
           (Scenario.wsm Scenario.silent_ledger) [(1, -100); (2, -60)] (Scenario.world [])).
  exists (2, -60). split; [right; left; reflexivity|].
  unfold entry_refused. simpl. split; [lia|]. right. split; [lia|]. simpl. lia.
Defined.

(** X11.  A request from a standard wallet goes under the base asset; a request
    from a coloured-coin wallet whose colour is the hex form of a 32-byte
    asset id goes under that asset id.  Either way the entry asks for the
    amount at the wallet's next puzzle hash, uses up one derivation index
    and replaces whatever was requested under the same key before. *)
Theorem positive_entry_requests_a_payment
        (lib : Library) (wsm : WalletStateManager)
        (coins_to_offer : list (Z * list Coin))
        (requested : list (asset_key * list Payment))
        (wid amt : Z) (wallet : Wallet) (key : asset_key) (s : State) :
  0 <= wid < 2 ^ 32 ->
  0 < amt < 2 ^ 64 ->
  wallets wsm wid = Some wallet ->
  (type wallet = STANDARD_WALLET /\ key = None)
  \/ (type wallet = COLOURED_COIN
      /\ exists k, get_colour wallet = hex k /\ List.length k = 32%nat /\ key = Some k) ->
  offer_entry lib wsm (coins_to_offer, requested) (wid, amt) s
  = (Ok (coins_to_offer,
         dict_set asset_key_eqb key
                  [{| p_puzzle_hash := puzzlehash_at wallet (derivation_index s);
                      p_amount := amt;
                      p_memos := if STANDARD_WALLET_truthy lib then None
                                 else Some [puzzlehash_at wallet (derivation_index s)] |}]
                  requested),
     next_derivation s).
Proof.
  intros [Hlo Hhi] [Hpos Hmax] Hw Hkey. unfold offer_entry, bind, uint32.
  assert (Hr : (0 <=? wid) && (wid <? 2 ^ 32) = true).
  { apply andb_true_iff. split; [now apply Z.leb_le | now apply Z.ltb_lt]. }
  assert (Hp : (amt >? 0) = true) by (apply Z.gtb_lt; lia).
  assert (Hu : (0 <=? amt) && (amt <? 2 ^ 64) = true).
  { apply andb_true_iff. split; [apply Z.leb_le; lia | now apply Z.ltb_lt]. }
  rewrite Hr. unfold ret at 1. rewrite Hw, Hp.
  destruct Hkey as [[Ht ->] | [Ht (k & Hc & Hlen & ->)]]; rewrite Ht.
  - unfold ret at 1, get_new_puzzlehash, uint64. cbv beta iota. rewrite Hu. reflexivity.
  - rewrite Hc, fromhex_hex. unfold bind, to_bytes32. rewrite Hlen.
    change (Nat.eqb 32 32) with true. cbv beta iota.
    unfold ret at 1, get_new_puzzlehash, uint64. cbv beta iota. rewrite Hu. reflexivity.
Qed.

Lemma positive_entry_requests_a_payment_witness :
  offer_entry (Scenario.lib false) (Scenario.wsm Scenario.silent_ledger)
    ([], []) (2, 5) (Scenario.world [])
  = (Ok ([],
         [(Some Scenario.K,
           [{| p_puzzle_hash := puzzlehash_at Scenario.wallet2 0;
               p_amount := 5;
               p_memos := Some [puzzlehash_at Scenario.wallet2 0] |}])]),
     next_derivation (Scenario.world [])).
Proof.
  apply (positive_entry_requests_a_payment (Scenario.lib false)
           (Scenario.wsm Scenario.silent_ledger) [] [] 2 5 Scenario.wallet2
           (Some Scenario.K) (Scenario.world [])).
  - lia.
  - lia.
  - reflexivity.
  - right. split; [reflexivity|]. exists Scenario.K. repeat split; reflexivity.
Defined.

(** ** The two scans of the pending trades *)

Section Scans.

Context {V : Type} (key : V -> bytes32) (keep : V -> bool).

Lemma dict_get_set_bytes (k k' : bytes32) (v : V) (d : list (bytes32 * V)) :
  dict_get bytes_eqb k' (dict_set bytes_eqb k v d)
  = if bytes_eqb k' k then Some v else dict_get bytes_eqb k' d.
Proof.
  induction d as [|[k0 v0] d IH]; simpl.
  - reflexivity.
  - destruct (bytes_eqb k k0) eqn:E; simpl.
    + apply bytes_eqb_eq in E. subst k0. destruct (bytes_eqb k' k); reflexivity.
    + rewrite IH. destruct (bytes_eqb k' k0) eqn:E0; [|reflexivity].
      apply bytes_eqb_eq in E0. subst k0.
      destruct (bytes_eqb k' k) eqn:E1; [|reflexivity].
      apply bytes_eqb_eq in E1. subst k'. rewrite bytes_eqb_refl in E. discriminate.
Qed.

Lemma find_snoc (p : V -> bool) (l : list V) (x : V) :
  find p (l ++ [x])
  = match find p l with
    | Some y => Some y
    | None => if p x then Some x else None
    end.
Proof.
  induction l as [|y l IH]; simpl; [reflexivity|].
  destruct (p y); [reflexivity | exact IH].
Qed.

(** Filling a dictionary from a list: a key holds the last kept value that
    has it. *)
Lemma fill_dict_get (vs : list V) :
  forall (d : list (bytes32 * V)) (k : bytes32),
    dict_get bytes_eqb k
      (fold_left (fun d v => if keep v then dict_set bytes_eqb (key v) v d else d) vs d)
    = match find (fun v => keep v && bytes_eqb k (key v)) (rev vs) with
      | Some v => Some v
      | None => dict_get bytes_eqb k d
      end.
Proof.
  induction vs as [|v vs IH]; intros d k; simpl; [reflexivity|].
  rewrite IH, find_snoc.
  destruct (find _ (rev vs)); [reflexivity|].
  destruct (keep v); simpl; [|reflexivity].
  rewrite dict_get_set_bytes. now destruct (bytes_eqb k (key v)).
Qed.

Lemma fill_dict_sound (vs : list V) (k : bytes32) (v : V) :
  dict_get bytes_eqb k
    (fold_left (fun d v => if keep v then dict_set bytes_eqb (key v) v d else d) vs [])
  = Some v ->
  In v vs /\ keep v = true /\ key v = k.
Proof.
  rewrite fill_dict_get. destruct (find _ (rev vs)) as [v0|] eqn:F; [|discriminate].
  intros H. injection H as <-. apply find_some in F. destruct F as [Hin Hp].
  apply andb_true_iff in Hp. destruct Hp as [Hk He]. apply bytes_eqb_eq in He.
  split; [now apply in_rev | split; [assumption | now symmetry]].
Qed.

Lemma fill_dict_complete (vs : list V) (v : V) :
  In v vs -> keep v = true ->
  exists v',
    dict_get bytes_eqb (key v)
      (fold_left (fun d v => if keep v then dict_set bytes_eqb (key v) v d else d) vs [])
    = Some v'.
Proof.
  intros Hin Hk. rewrite fill_dict_get.
  destruct (find _ (rev vs)) as [v0|] eqn:F; [now exists v0|].
  exfalso. pose proof (find_none _ _ F v (proj1 (in_rev vs v) Hin)) as N.
  simpl in N. rewrite Hk, bytes_eqb_refl in N. discriminate N.
Qed.

End Scans.

Lemma fold_flat_map {A B C : Type} (f : C -> B -> C) (g : A -> list B) (l : list A) :
  forall acc,
    fold_left (fun acc x => fold_left f (g x) acc) l acc = fold_left f (flat_map g l) acc.
Proof.
  induction l as [|x l IH]; intros acc; simpl; [reflexivity|].
  rewrite fold_left_app. apply IH.
Qed.

Lemma fold_extend {A B : Type} (g : A -> list B) (l : list A) :
  forall acc, fold_left (fun acc x => acc ++ g x) l acc = acc ++ flat_map g l.
Proof.
  induction l as [|x l IH]; intros acc; simpl.
  - now rewrite app_nil_r.
  - rewrite IH. now rewrite app_assoc.
Qed.

Lemma all_pending_In (ts : list TradeRecord) (t : TradeRecord) :
  In t (TradeStore.get_trade_record_with_status PENDING_ACCEPT ts
        ++ TradeStore.get_trade_record_with_status PENDING_CONFIRM ts
        ++ TradeStore.get_trade_record_with_status PENDING_CANCEL ts)
  <-> In t ts /\ pending (status t) = true.
Proof.
  unfold TradeStore.get_trade_record_with_status.
  rewrite !in_app_iff, !filter_In. split.
  - intros [[H E]|[[H E]|[H E]]]; apply TradeStatus_eqb_eq in E; rewrite E; auto.
  - intros [H E]. destruct (status t) eqn:St; try discriminate; [left|right;left|right;right];
      (split; [assumption | reflexivity]).
Qed.

(** X12.  [get_coins_of_interest] changes nothing and returns a dictionary from
    coin id to coin whose keys are the ids of the coins of interest of the
    trades that are PENDING_ACCEPT, PENDING_CONFIRM or PENDING_CANCEL: every
    entry is such a coin under its own id, and every such coin has its id
    among the keys.  Trades in a terminal state add nothing. *)
Theorem coins_of_interest_are_the_pending_ones (lib : Library) (s : State) :
  exists d,
    get_coins_of_interest lib s = (Ok d, s)
    /\ (forall k c,
           dict_get bytes_eqb k d = Some c ->
           Coin_name lib c = k
           /\ exists t, In t (trade_store s) /\ pending (status t) = true
                        /\ In c (coins_of_interest t))
    /\ (forall t c,
           In t (trade_store s) -> pending (status t) = true ->
           In c (coins_of_interest t) ->
           exists c', dict_get bytes_eqb (Coin_name lib c) d = Some c').
Proof.
  eexists. split; [reflexivity|].
  rewrite (fold_flat_map (fun d coin => dict_set bytes_eqb (Coin_name lib coin) coin d)
                         coins_of_interest).
  split.
  - intros k c H.
    apply (fill_dict_sound (Coin_name lib) (fun _ => true)) in H.
    destruct H as (Hin & _ & Hk). split; [exact Hk|].
    apply in_flat_map in Hin. destruct Hin as (t & Ht & Hc).
    apply all_pending_In in Ht. destruct Ht as [Ht Hp].
    exists t. repeat split; assumption.
  - intros t c Ht Hp Hc.
    apply (fill_dict_complete (Coin_name lib) (fun _ => true)); [|reflexivity].
    apply in_flat_map. exists t. split; [|exact Hc].
    apply all_pending_In. split; assumption.
Qed.

(** X13.  [get_locked_coins] changes nothing.  It asks the coin store for the
    ids of the involved coins of the offers of the pending trades, and
    returns the records it gets, each under its own name, leaving out the
    records of other wallets when a wallet id is given. *)
Theorem locked_coins_are_the_pending_records
        (lib : Library) (wsm : WalletStateManager)
        (record_name : WalletCoinRecord -> bytes32)
        (wallet_id_ : option Z) (s : State) :
  exists ids d,
    get_locked_coins lib wsm record_name wallet_id_ s = (Ok d, s)
    /\ (forall i,
           In i ids
           <-> exists t c, In t (trade_store s) /\ pending (status t) = true
                           /\ In c (get_involved_coins lib (Offer_from_bytes lib (offer t)))
                           /\ Coin_name lib c = i)
    /\ (forall k r,
           dict_get bytes_eqb k d = Some r ->
           In r (get_multiple_coin_records wsm ids)
           /\ record_name r = k
           /\ (forall w, wallet_id_ = Some w -> cr_wallet_id r = w))
    /\ (forall r,
           In r (get_multiple_coin_records wsm ids) ->
           (forall w, wallet_id_ = Some w -> cr_wallet_id r = w) ->
           exists r', dict_get bytes_eqb (record_name r) d = Some r').
Proof.
  exists (flat_map
            (fun t => map (Coin_name lib)
                          (get_involved_coins lib (Offer_from_bytes lib (offer t))))
            (TradeStore.get_trade_record_with_status PENDING_ACCEPT (trade_store s)
             ++ TradeStore.get_trade_record_with_status PENDING_CONFIRM (trade_store s)
             ++ TradeStore.get_trade_record_with_status PENDING_CANCEL (trade_store s))).
  eexists. split.
  { unfold get_locked_coins, bind, get_offers_with_status, gets, ret.
    rewrite fold_extend. reflexivity. }
  split; [|split].
  - intros i. rewrite in_flat_map. split.
    + intros (t & Ht & Hi). apply all_pending_In in Ht. destruct Ht as [Ht Hp].
      apply in_map_iff in Hi. destruct Hi as (c & Hc & Hin).
      exists t, c. repeat split; assumption.
    + intros (t & c & Ht & Hp & Hin & Hc). exists t. split.
      * apply all_pending_In. split; assumption.
      * apply in_map_iff. exists c. split; assumption.
  - intros k r H.
    apply (fill_dict_sound record_name
             (fun r => match wallet_id_ with
                       | None => true
                       | Some w => cr_wallet_id r =? w
                       end)) in H.
    destruct H as (Hin & Hkeep & Hk). repeat split; try assumption.
    intros w ->. now apply Z.eqb_eq.
  - intros r Hin Hw.
    apply (fill_dict_complete record_name
             (fun r => match wallet_id_ with
                       | None => true
                       | Some w => cr_wallet_id r =? w
                       end)); [exact Hin|].
    destruct wallet_id_ as [w|]; [|reflexivity]. apply Z.eqb_eq. now apply Hw.
Qed.

(** ** Taking an offer: every outcome *)

Lemma bind_run {A B : Type} (m : M A) (k : A -> M B) (s s1 : State) (a : A) :
  m s = (Ok a, s1) -> bind m k s = k a s1.
Proof. unfold bind. now intros ->. Qed.

Lemma bind_raise {A B : Type} (m : M A) (k : A -> M B) (s s1 : State) (e : Exn) :
  m s = (Raise e, s1) -> bind m k s = (Raise e, s1).
Proof. unfold bind. now intros ->. Qed.

Lemma uint64_cases (z : Z) (s : State) :
  uint64 z s = (Ok z, s) \/ exists e, uint64 z s = (Raise e, s).
Proof.
  unfold uint64. destruct (_ && _); [now left | right; eexists; reflexivity].
Qed.

Section Taking.

Variable lib : Library.
Variable wsm : WalletStateManager.

Lemma take_offer_entries_inl (items : list (asset_key * Z)) :
  forall d msg,
    take_offer_entries lib wsm items d = inl msg ->
    exists k amt, In (Some k, amt) items
                  /\ get_wallet_for_colour wsm (ColourHex (hex k)) = None
                  /\ msg = no_cat_message lib k.
Proof.
  induction items as [|[[a|] amt0] items IH]; intros d msg H; simpl in H.
  - discriminate.
  - destruct (get_wallet_for_colour wsm (ColourHex (hex a))) as [w|] eqn:W.
    + destruct (IH _ _ H) as (k & amt & Hin & Hn & Hm).
      exists k, amt. repeat split; [now right | assumption | assumption].
    + injection H as <-. exists a, amt0. repeat split; [now left | assumption].
  - destruct (IH _ _ H) as (k & amt & Hin & Hn & Hm).
    exists k, amt. repeat split; [now right | assumption | assumption].
Qed.

Lemma keeps_incoming_entry (co : Offer) (fb : SpendBundle) (ids : list bytes32)
      (txs : list TransactionRecord) (a : Coin) :
  keeps (fun s => s) (incoming_entry lib wsm co fb ids txs a).
Proof.
  unfold incoming_entry.
  destruct (bytes_in _ _); [|apply keeps_ret].
  destruct (get_wallet_id_for_puzzle_hash wsm _) as [[wid t]|]; [|apply keeps_ret].
  destruct (wallets wsm wid); [|apply keeps_raise].
  apply keeps_bind; [apply keeps_gets|]. intros t0.
  apply keeps_bind; [apply keeps_uint64|]. intros now. apply keeps_ret.
Qed.

Lemma keeps_outgoing_entry (co : Offer) (fb : SpendBundle)
      (txs : list TransactionRecord) (entry : Z * list Coin) :
  keeps (fun s => s) (outgoing_entry lib wsm co fb txs entry).
Proof.
  unfold outgoing_entry. destruct entry as [wid grouped].
  destruct (wallets wsm wid); [|apply keeps_raise].
  apply keeps_bind; [apply keeps_gets|]. intros t0.
  apply keeps_bind; [apply keeps_uint64|]. intros now.
  apply keeps_bind; [apply keeps_uint64|]. intros amt. apply keeps_ret.
Qed.

Lemma incoming_entry_row (co : Offer) (fb : SpendBundle) (ids : list bytes32)
      (txs txs' : list TransactionRecord) (addition : Coin) (s s' : State) :
  incoming_entry lib wsm co fb ids txs addition s = (Ok txs', s') ->
  s' = s
  /\ exists inc,
      txs' = txs ++ inc
      /\ Forall2 (incoming_row_of lib wsm fb ids)
                 (filter (has_owner wsm ids) [addition]) inc.
Proof.
  unfold incoming_entry, has_owner, addition_owner. simpl.
  assert (Hskip : forall (s0 : State), ret txs s0 = (Ok txs', s') ->
            s' = s0 /\ exists inc, txs' = txs ++ inc
                                   /\ Forall2 (incoming_row_of lib wsm fb ids) [] inc).
  { unfold ret. intros s0 H. injection H as <- <-. split; [reflexivity|].
    exists []. rewrite app_nil_r. split; [reflexivity | constructor]. }
  destruct (bytes_in (parent_coin_info addition) ids) eqn:B; [|apply Hskip].
  destruct (get_wallet_id_for_puzzle_hash wsm (puzzle_hash addition)) as [[wid t]|] eqn:G;
    [|apply Hskip].
  simpl. destruct (wallets wsm wid) as [wallet|] eqn:W; [|discriminate].
  intros H. apply bind_Ok in H. destruct H as (t0 & s1 & Hg & H).
  unfold gets in Hg. injection Hg as <- <-.
  apply bind_Ok in H. destruct H as (now & s2 & Hu & H).
  apply uint64_Ok in Hu. destruct Hu as (-> & -> & _).
  unfold ret in H. injection H as <- <-. split; [reflexivity|].
  eexists [_]. split; [reflexivity|]. constructor; [|constructor].
  unfold incoming_row_of, addition_owner. simpl. rewrite B, G. simpl.
  repeat split. exists wid, wallet. repeat split. exact W.
Qed.

Lemma incoming_loop_rows (co : Offer) (fb : SpendBundle) (ids : list bytes32)
      (adds : list Coin) :
  forall (txs txs' : list TransactionRecord) (s s' : State),
    foldM (incoming_entry lib wsm co fb ids) adds txs s = (Ok txs', s') ->
    s' = s
    /\ exists inc,
        txs' = txs ++ inc
        /\ Forall2 (incoming_row_of lib wsm fb ids) (filter (has_owner wsm ids) adds) inc.
Proof.
  induction adds as [|a adds IH]; intros txs txs' s s' H.
  - simpl in H. unfold ret in H. injection H as <- <-. split; [reflexivity|].
    exists []. rewrite app_nil_r. split; [reflexivity | constructor].
  - simpl in H. apply bind_Ok in H. destruct H as (txs1 & s1 & Hstep & H).
    apply incoming_entry_row in Hstep. destruct Hstep as (-> & inc1 & -> & F1).
    apply IH in H. destruct H as (-> & inc2 & -> & F2).
    split; [reflexivity|]. exists (inc1 ++ inc2). rewrite app_assoc.
    split; [reflexivity|].
    change (a :: adds) with ([a] ++ adds). rewrite filter_app.
    now apply Forall2_app.
Qed.

End Taking.

Section TakingRuns.

Variable lib : Library.
Variable wsm : WalletStateManager.

Lemma respond_to_offer_run (o : Offer) (s s' : State) (b : bool)
      (tr : TradeRecord) (err : option string) :
  respond_to_offer lib wsm o s = (Ok (b, Some tr, err), s') ->
  exists take_offer incoming outgoing,
    let complete_offer := Offer_aggregate lib [o; take_offer] in
    let final_spend_bundle := to_valid_spend lib complete_offer in
    let settlement_coin_ids :=
      map (Coin_name lib) (flat_map snd (get_offered_coins lib complete_offer)) in
    offer tr = Offer_bytes lib complete_offer
    /\ Forall2 (incoming_row_of lib wsm final_spend_bundle settlement_coin_ids)
               (filter (has_owner wsm settlement_coin_ids)
                       (not_ephemeral_additions lib final_spend_bundle))
               incoming
    /\ Forall (fun t => tx_type t = OUTGOING_TRADE) outgoing
    /\ transactions s' = transactions s ++ incoming ++ outgoing
    /\ pending_transactions s'
       = pending_transactions s
         ++ [{| confirmed_at_height := 0;
                tx_created_at_time := time_now s;
                to_puzzle_hash := repeat x00 32;
                tx_amount := 0;
                fee_amount := 0;
                confirmed := false;
                tx_sent := 0;
                spend_bundle := Some final_spend_bundle;
                tx_additions := additions lib final_spend_bundle;
                tx_removals := removals lib final_spend_bundle;
                wallet_id := 0;
                tx_sent_to := [];
                tx_trade_id := Some (trade_id tr);
                tx_type := OUTGOING_TRADE;
                name := SpendBundle_name lib final_spend_bundle;
                memos := get_memos lib final_spend_bundle |}].
Proof.
  unfold respond_to_offer. intros H.
  destruct (take_offer_entries lib wsm (arbitrage lib o) []) as [msg|d] eqn:Hd;
    [discriminate|].
  apply bind_Ok in H. destruct H as ([[succ take] er] & s1 & Hc & H).
  destruct succ; [|discriminate]. simpl in H.
  destruct take as [take|]; [|discriminate].
  destruct (is_valid lib (Offer_aggregate lib [o; take])) eqn:Hv; [|discriminate].
  simpl in H.
  apply bind_Ok in H. destruct H as (txs1 & s2 & Hinc & H).
  apply incoming_loop_rows in Hinc. destruct Hinc as (-> & inc & -> & Finc).
  apply bind_Ok in H. destruct H as (txs2 & s3 & Hout & H).
  apply outgoing_loop in Hout. destruct Hout as (-> & out & -> & Fout).
  apply bind_Ok in H. destruct H as (t0 & s4 & Hg & H).
  unfold gets in Hg. injection Hg as <- <-.
  apply bind_Ok in H. destruct H as (accepted & s5 & Hu & H).
  apply uint64_Ok in Hu. destruct Hu as (-> & -> & _).
  apply bind_Ok in H. destruct H as (created & s6 & Hu & H).
  apply uint64_Ok in Hu. destruct Hu as (-> & -> & _).
  apply bind_Ok in H. destruct H as ([] & s7 & Hsave & H).
  unfold save_trade, modify in Hsave. injection Hsave as <-.
  apply bind_Ok in H. destruct H as (now & s8 & Hu & H).
  apply uint64_Ok in Hu. destruct Hu as (-> & -> & _).
  apply bind_Ok in H. destruct H as ([] & s9 & Hpush & H).
  apply add_pending_transaction_Ok in Hpush. subst s9.
  apply bind_Ok in H. destruct H as ([] & s10 & Hadd & H).
  apply forM_add_transaction_Ok in Hadd. destruct Hadd as (T1 & T2 & T3).
  unfold ret in H. injection H as <- <- <- <-.
  pose proof (keeps_create_offer transactions (fun _ _ => eq_refl) (fun _ => eq_refl)
                (fun _ _ => eq_refl) lib wsm d s) as Kt.
  pose proof (keeps_create_offer pending_transactions (fun _ _ => eq_refl)
                (fun _ => eq_refl) (fun _ _ => eq_refl) lib wsm d s) as Kp.
  pose proof (keeps_create_offer time_now (fun _ _ => eq_refl) (fun _ => eq_refl)
                (fun _ _ => eq_refl) lib wsm d s) as Kn.
  rewrite Hc in Kt, Kp, Kn. simpl in Kt, Kp, Kn.
  exists take, inc, out. cbv zeta. simpl trade_id. simpl offer.
  split; [reflexivity|]. split; [exact Finc|]. split.
  { clear - Fout. induction Fout as [|g row gs rows Hrow _ IH]; constructor;
      [now destruct Hrow | exact IH]. }
  split.
  - rewrite T1. simpl. now rewrite Kt.
  - rewrite T3. simpl. now rewrite Kp, Kn.
Qed.

End TakingRuns.

(** X14.  [respond_to_offer] has four outcomes.  It returns
    [(True, record, None)] with the record saved; it returns
    [(False, None, message)] for an asset without a wallet and changes
    nothing; it raises before [save_trade], and then neither the store nor
    the transactions have changed; or the wallet state manager refuses the
    push transaction or a history row, and then it raises with the
    PENDING_CONFIRM record already saved: nothing is rolled back. *)
Theorem respond_to_offer_outcomes
        (lib : Library) (wsm : WalletStateManager) (o : Offer) (s : State) :
  (exists tr s',
      respond_to_offer lib wsm o s = (Ok (true, Some tr, None), s')
      /\ trade_store s' = TradeStore.add_trade_record tr (trade_store s))
  \/ (exists k,
         respond_to_offer lib wsm o s = (Ok (false, None, Some (no_cat_message lib k)), s)
         /\ get_wallet_for_colour wsm (ColourHex (hex k)) = None)
  \/ (exists e s',
         respond_to_offer lib wsm o s = (Raise e, s')
         /\ trade_store s' = trade_store s
         /\ transactions s' = transactions s
         /\ pending_transactions s' = pending_transactions s)
  \/ (exists e s' tr tx,
         respond_to_offer lib wsm o s = (Raise e, s')
         /\ trade_store s' = TradeStore.add_trade_record tr (trade_store s)
         /\ status tr = PENDING_CONFIRM
         /\ (pending_transaction_refused wsm tx = Some e
             \/ transaction_refused wsm tx = Some e)).
Proof.
  unfold respond_to_offer.
  destruct (take_offer_entries lib wsm (arbitrage lib o) []) as [msg|d] eqn:Hd.
  { right. left. destruct (take_offer_entries_inl lib wsm _ _ _ Hd) as (k & amt & _ & Hn & ->).
    exists k. split; [reflexivity | exact Hn]. }
  destruct (create_offer_frame lib wsm d s) as (F1 & F2 & F3).
  destruct (create_offer_shape lib wsm d s) as [(take & s1 & H) | (e & s1 & H)];
    rewrite H in F1, F2, F3; simpl in F1, F2, F3.
  2: { right. right. left. exists e, s1. rewrite (bind_raise _ _ _ _ _ H).
       repeat split; assumption. }
  rewrite (bind_run _ _ _ _ _ H). cbv beta iota.
  change (negb true) with false. cbv iota.
  assert (Hfail : forall e, exists e0 s',
             (Raise e : Result (build_result TradeRecord), s1) = (Raise e0, s')
             /\ trade_store s' = trade_store s
             /\ transactions s' = transactions s
             /\ pending_transactions s' = pending_transactions s).
  { intros e. exists e, s1. repeat split; assumption. }
  destruct (is_valid lib (Offer_aggregate lib [o; take]));
    [change (negb true) with false | change (negb false) with true];
    cbv iota; [|right; right; left; apply Hfail].
  cbv zeta.
  match goal with
  | |- context [bind (foldM ?f ?l ?a)] =>
      pose proof (keeps_foldM (fun s => s) f
                    (fun acc x => keeps_incoming_entry lib wsm _ _ _ acc x) l a s1) as K1;
      destruct (foldM f l a s1) as [[txs1|e] s2] eqn:L1; simpl in K1; subst s2
  end.
  2: { right. right. left. rewrite (bind_raise _ _ _ _ _ L1). apply Hfail. }
  rewrite (bind_run _ _ _ _ _ L1).
  match goal with
  | |- context [bind (foldM ?f ?l ?a)] =>
      pose proof (keeps_foldM (fun s => s) f
                    (fun acc x => keeps_outgoing_entry lib wsm _ _ acc x) l a s1) as K2;
      destruct (foldM f l a s1) as [[txs2|e] s2] eqn:L2; simpl in K2; subst s2
  end.
  2: { right. right. left. rewrite (bind_raise _ _ _ _ _ L2). apply Hfail. }
  rewrite (bind_run _ _ _ _ _ L2).
  rewrite (bind_run (gets time_now) _ s1 s1 (time_now s1) eq_refl).
  destruct (uint64_cases (time_now s1) s1) as [U | [e U]].
  2: { right. right. left. rewrite (bind_raise _ _ _ _ _ U). apply Hfail. }
  rewrite (bind_run _ _ _ _ _ U), (bind_run _ _ _ _ _ U).
  unfold save_trade.
  match goal with
  | |- context [bind (modify ?g) _ s1] =>
      rewrite (bind_run (modify g) _ s1 (g s1) tt eq_refl)
  end.
  match goal with
  | |- context [bind (uint64 ?z) _ ?s0] =>
      assert (U' : uint64 z s0 = (Ok z, s0))
        by (unfold uint64 in U |- *; destruct (_ && _); [reflexivity | discriminate U]);
      rewrite (bind_run _ _ _ _ _ U')
  end.
  match goal with
  | |- context [bind (add_pending_transaction wsm ?tx) _ ?s0] =>
      destruct (pending_transaction_refused wsm tx) as [e|] eqn:Rp;
      [ assert (Ep : add_pending_transaction wsm tx s0 = (Raise e, s0))
          by (unfold add_pending_transaction; now rewrite Rp);
        rewrite (bind_raise _ _ _ _ _ Ep)
      | assert (Ep : add_pending_transaction wsm tx s0 = (Ok tt, push_pending tx s0))
          by (unfold add_pending_transaction; now rewrite Rp);
        rewrite (bind_run _ _ _ _ _ Ep) ]
  end.
  { right. right. right. eexists e, _, _, _. split; [reflexivity|].
    split; [simpl; rewrite F1; reflexivity|]. split; [reflexivity|].
    left. exact Rp. }
  match goal with
  | |- context [bind (forM_ ?txs (add_transaction wsm)) _ ?s0] =>
      destruct (forM_add_transaction_run wsm txs s0)
        as [(sf & Hrun & T1 & T2 & T3)
           | (e & sf & before & tx & after & Hrun & _ & Rt & T1 & T2 & T3)];
      [rewrite (bind_run _ _ _ _ _ Hrun) | rewrite (bind_raise _ _ _ _ _ Hrun)]
  end.
  - left. eexists. exists sf. split; [reflexivity|].
    rewrite T2. simpl. now rewrite F1.
  - right. right. right. eexists e, sf, _, tx. split; [reflexivity|].
    split; [rewrite T2; simpl; rewrite F1; reflexivity|]. split; [reflexivity|].
    right. exact Rt.
Qed.

(** The fourth outcome on a state manager whose transaction store is out
    of order: the take raises at the first history row, with the trade
    record saved and the push transaction pending. *)
Lemma refused_history_row_leaves_the_record :
  exists s',
    respond_to_offer (Scenario.lib false) Scenario.refusing_wsm
      Scenario.maker_offer (Scenario.world [])
    = (Raise (Exception "database is locked"), s')
    /\ map status (trade_store s') = [PENDING_CONFIRM]
    /\ List.length (pending_transactions s') = 1%nat
    /\ transactions s' = [].
Proof. vm_compute. eexists. repeat split. Qed.

(** X15.  A successful [respond_to_offer] submits one pending transaction, the
    dummy that carries the final spend bundle to the wallet push: wallet id
    0, amount 0, fee 0, named after the bundle and tagged with the trade's
    id. *)
Theorem respond_to_offer_pushes_the_bundle
        (lib : Library) (wsm : WalletStateManager) (o : Offer) (s s' : State)
        (tr : TradeRecord) (err : option string) :
  respond_to_offer lib wsm o s = (Ok (true, Some tr, err), s') ->
  exists take_offer push_tx,
    pending_transactions s' = pending_transactions s ++ [push_tx]
    /\ offer tr = Offer_bytes lib (Offer_aggregate lib [o; take_offer])
    /\ spend_bundle push_tx
       = Some (to_valid_spend lib (Offer_aggregate lib [o; take_offer]))
    /\ name push_tx
       = SpendBundle_name lib (to_valid_spend lib (Offer_aggregate lib [o; take_offer]))
    /\ tx_removals push_tx
       = removals lib (to_valid_spend lib (Offer_aggregate lib [o; take_offer]))
    /\ tx_additions push_tx
       = additions lib (to_valid_spend lib (Offer_aggregate lib [o; take_offer]))
    /\ wallet_id push_tx = 0
    /\ tx_amount push_tx = 0
    /\ fee_amount push_tx = 0
    /\ tx_type push_tx = OUTGOING_TRADE
    /\ tx_trade_id push_tx = Some (trade_id tr).
Proof.
  intros H. apply respond_to_offer_run in H.
  destruct H as (take & inc & out & H). cbv zeta in H.
  destruct H as (Hoffer & _ & _ & _ & Hp).
  exists take. eexists. split; [exact Hp|]. simpl. repeat split. exact Hoffer.
Qed.

(** X16.  A successful [respond_to_offer] records one INCOMING_TRADE row for each
    non-ephemeral addition of the final bundle whose parent is a settlement
    coin and whose puzzle hash belongs to a wallet, in the order of the
    additions: the row has the addition's amount, fee 0, the wallet's id,
    the puzzle hash as the wallet converts it, and the hash of the bundle's
    name followed by the addition's id as its name.  The OUTGOING_TRADE rows
    follow. *)
Theorem incoming_rows_one_per_addition
        (lib : Library) (wsm : WalletStateManager) (o : Offer) (s s' : State)
        (tr : TradeRecord) (err : option string) :
  respond_to_offer lib wsm o s = (Ok (true, Some tr, err), s') ->
  exists take_offer incoming outgoing,
    let complete_offer := Offer_aggregate lib [o; take_offer] in
    let final_spend_bundle := to_valid_spend lib complete_offer in
    let settlement_coin_ids :=
      map (Coin_name lib) (flat_map snd (get_offered_coins lib complete_offer)) in
    offer tr = Offer_bytes lib complete_offer
    /\ transactions s' = transactions s ++ incoming ++ outgoing
    /\ Forall (fun t => tx_type t = OUTGOING_TRADE) outgoing
    /\ Forall2 (fun addition row =>
                  tx_type row = INCOMING_TRADE
                  /\ tx_amount row = amount addition
                  /\ fee_amount row = 0
                  /\ name row = std_hash lib (SpendBundle_name lib final_spend_bundle
                                              ++ Coin_name lib addition)
                  /\ exists wid wallet,
                      addition_owner wsm settlement_coin_ids addition = Some wid
                      /\ wallets wsm wid = Some wallet
                      /\ wallet_id row = wid
                      /\ to_puzzle_hash row
                         = convert_puzzle_hash wallet (puzzle_hash addition))
               (filter (has_owner wsm settlement_coin_ids)
                       (not_ephemeral_additions lib final_spend_bundle))
               incoming.
Proof.
  intros H. apply respond_to_offer_run in H.
  destruct H as (take & inc & out & H). cbv zeta in H.
  destruct H as (Hoffer & Finc & Fout & Htx & _).
  exists take, inc, out. cbv zeta. repeat split; assumption.
Qed.

Lemma respond_to_offer_pushes_the_bundle_witness :
  exists tr s',
    respond_to_offer (Scenario.lib false) (Scenario.wsm Scenario.silent_ledger)
      Scenario.maker_offer (Scenario.world [])
    = (Ok (true, Some tr, None), s')
    /\ exists push_tx,
        pending_transactions s'
        = pending_transactions (Scenario.world []) ++ [push_tx]
        /\ wallet_id push_tx = 0
        /\ tx_amount push_tx = 0
        /\ tx_type push_tx = OUTGOING_TRADE
        /\ tx_trade_id push_tx = Some (trade_id tr).
Proof.
  assert (E : exists tr s',
             respond_to_offer (Scenario.lib false) (Scenario.wsm Scenario.silent_ledger)
               Scenario.maker_offer (Scenario.world [])
             = (Ok (true, Some tr, None), s'))
    by (vm_compute; eexists; eexists; reflexivity).
  destruct E as (tr & s' & E). exists tr, s'. split; [exact E|].
  destruct (respond_to_offer_pushes_the_bundle _ _ _ _ _ _ _ E)
    as (take & push_tx & Hp & _ & _ & _ & _ & _ & Hw & Ha & _ & Ht & Hid).
  exists push_tx. repeat split; assumption.
Defined.

Lemma incoming_rows_one_per_addition_witness :
  exists tr s',
    respond_to_offer (Scenario.lib false) (Scenario.wsm Scenario.silent_ledger)
      Scenario.maker_offer (Scenario.world [])
    = (Ok (true, Some tr, None), s')
    /\ exists incoming outgoing,
        transactions s' = transactions (Scenario.world []) ++ incoming ++ outgoing
        /\ Forall (fun t => tx_type t = INCOMING_TRADE /\ fee_amount t = 0) incoming
        /\ Forall (fun t => tx_type t = OUTGOING_TRADE) outgoing.
Proof.
  assert (E : exists tr s',
             respond_to_offer (Scenario.lib false) (Scenario.wsm Scenario.silent_ledger)
               Scenario.maker_offer (Scenario.world [])
             = (Ok (true, Some tr, None), s'))
    by (vm_compute; eexists; eexists; reflexivity).
  destruct E as (tr & s' & E). exists tr, s'. split; [exact E|].
  destruct (incoming_rows_one_per_addition _ _ _ _ _ _ _ E)
    as (take & inc & out & H). cbv zeta in H.
  destruct H as (_ & Htx & Fout & Finc).
  exists inc, out. split; [exact Htx|]. split; [|exact Fout].
  clear - Finc. induction Finc as [|a row adds rows Hrow _ IH]; constructor.
  - destruct Hrow as (H1 & _ & H3 & _). split; assumption.
  - exact IH.
Defined.

(** ** What the builder asks the wallets to sign *)

Section Requests.

Variable P : SignRequest -> Prop.

Lemma adds_keeps {A : Type} (m : M A) : keeps sign_requests m -> adds_requests P m.
Proof.
  intros K s. exists []. rewrite app_nil_r. split; [apply K | constructor].
Qed.

Lemma adds_bind {A B : Type} (m : M A) (k : A -> M B) :
  adds_requests P m -> (forall a, adds_requests P (k a)) -> adds_requests P (bind m k).
Proof.
  intros Hm Hk s. unfold bind. destruct (Hm s) as (r1 & E1 & F1).
  destruct (m s) as [[a|e] s1]; simpl in E1.
  - destruct (Hk a s1) as (r2 & E2 & F2). exists (r1 ++ r2).
    rewrite E2, E1, app_assoc. split; [reflexivity | apply Forall_app; split; assumption].
  - exists r1. split; assumption.
Qed.

Lemma adds_try_except {A : Type} (m : M A) (h : Exn -> M A) :
  adds_requests P m -> (forall e, adds_requests P (h e)) ->
  adds_requests P (try_except m h).
Proof.
  intros Hm Hh s. unfold try_except. destruct (Hm s) as (r1 & E1 & F1).
  destruct (m s) as [[a|e] s1]; simpl in E1.
  - exists r1. split; assumption.
  - destruct (Hh e s1) as (r2 & E2 & F2). exists (r1 ++ r2).
    rewrite E2, E1, app_assoc. split; [reflexivity | apply Forall_app; split; assumption].
Qed.

Lemma adds_foldM {A B : Type} (g : B -> A -> M B) :
  (forall acc x, adds_requests P (g acc x)) ->
  forall l acc, adds_requests P (foldM g l acc).
Proof.
  intros Hg. induction l as [|x l IH]; intros acc; simpl.
  - apply adds_keeps. intros s. reflexivity.
  - apply adds_bind; [apply Hg | intros; apply IH].
Qed.

Lemma adds_sign_standard (w : Wallet) (amt : Z) (ph : bytes32) (fee : Z)
      (coins : list Coin) (ignore_max : bool) :
  P (SignStandard (id w) amt ph fee coins ignore_max) ->
  adds_requests P (sign_standard w amt ph fee coins ignore_max).
Proof.
  intros H s. exists [SignStandard (id w) amt ph fee coins ignore_max].
  split; [reflexivity | now constructor].
Qed.

Lemma adds_sign_coloured (w : Wallet) (amts : list Z) (phs : list bytes32) (fee : Z)
      (coins : list Coin) (ignore_max : bool) :
  P (SignColoured (id w) amts phs fee coins ignore_max) ->
  adds_requests P (sign_coloured w amts phs fee coins ignore_max).
Proof.
  intros H s. exists [SignColoured (id w) amts phs fee coins ignore_max].
  split; [reflexivity | now constructor].
Qed.

End Requests.

(** X17.  Whatever [_create_offer_for_ids] returns or raises, all it asks the
    wallets to sign are payments to the settlement puzzle hash [Offer.ph()]
    with fee 0 and without the ignore-max flag, of the absolute value of an
    amount of the offer dictionary. *)
Theorem builder_signs_only_to_the_settlement_puzzle
        (lib : Library) (wsm : WalletStateManager) (d : offer_dict_t) (s : State) :
  exists reqs,
    sign_requests (snd (_create_offer_for_ids lib wsm d s)) = sign_requests s ++ reqs
    /\ Forall (fun r =>
                 request_fee r = 0
                 /\ request_puzzle_hashes r = [Offer_ph lib]
                 /\ request_ignore_max r = false
                 /\ exists wallet_id amount_,
                     dict_get Z.eqb wallet_id d = Some amount_
                     /\ request_amounts r = [Z.abs amount_])
              reqs.
Proof.
  revert s.
  match goal with
  | |- forall s, exists reqs, _ /\ Forall ?Q reqs =>
      change (adds_requests Q (_create_offer_for_ids lib wsm d)); set (P := Q)
  end.
  unfold _create_offer_for_ids, create_offer_body.
  apply adds_try_except;
    [|intros e; apply adds_keeps; intros s; reflexivity].
  apply adds_bind.
  { apply adds_keeps. apply keeps_foldM. intros acc x.
    apply keeps_offer_entry. intros s. reflexivity. }
  intros [coins_to_offer requested].
  destruct (calculate_announcements lib _) as [|first rest];
    [apply adds_keeps; intros s; reflexivity|].
  apply adds_bind; [apply adds_keeps; intros s; reflexivity|]. intros _.
  apply adds_bind.
  { apply adds_foldM. intros txs [wid selected]. unfold sign_entry.
    destruct (wallets wsm wid) as [wallet|];
      [|apply adds_keeps; intros s; reflexivity].
    destruct (dict_get Z.eqb wid d) as [a|] eqn:Ha;
      [|apply adds_keeps; intros s; reflexivity].
    destruct (WalletType_eqb (type wallet) COLOURED_COIN).
    - apply adds_bind; [|intros; apply adds_keeps; intros s; reflexivity].
      apply adds_sign_coloured. unfold P. simpl. repeat split.
      exists wid, a. split; [exact Ha | reflexivity].
    - apply adds_bind; [|intros; apply adds_keeps; intros s; reflexivity].
      apply adds_sign_standard. unfold P. simpl. repeat split.
      exists wid, a. split; [exact Ha | reflexivity]. }
  intros txs.
  apply adds_bind; [apply adds_keeps; apply keeps_spend_bundles_of|].
  intros bundles. apply adds_keeps. intros s. reflexivity.
Qed.

(** ** An offer without announcements *)

(** X18.  The log line after the first loop reads [announcements_to_assert[0]].
    When the requested payments give no announcement (an offer that asks
    for nothing in return), [_create_offer_for_ids] raises IndexError there,
    and so does [create_offer_for_ids]: no wallet has been asked to sign and
    no trade is stored. *)
Theorem offer_without_announcement_raises
        (lib : Library) (wsm : WalletStateManager) (d : offer_dict_t) (s s1 : State)
        (coins_to_offer : list (Z * list Coin))
        (requested : list (asset_key * list Payment)) :
  foldM (offer_entry lib wsm) d ([], []) s = (Ok (coins_to_offer, requested), s1) ->
  calculate_announcements lib
    (notarize_payments lib requested (flat_map snd coins_to_offer)) = [] ->
  _create_offer_for_ids lib wsm d s = (Raise IndexError, s1)
  /\ create_offer_for_ids lib wsm d s = (Raise IndexError, s1)
  /\ sign_requests s1 = sign_requests s
  /\ trade_store s1 = trade_store s.
Proof.
  intros Hloop Hann.
  assert (Hb : _create_offer_for_ids lib wsm d s = (Raise IndexError, s1)).
  { unfold _create_offer_for_ids, try_except, create_offer_body.
    rewrite (bind_run _ _ _ _ _ Hloop). cbv beta iota zeta.
    rewrite Hann. reflexivity. }
  split; [exact Hb|]. split.
  { unfold create_offer_for_ids. apply (bind_raise _ _ _ _ _ Hb). }
  split.
  - pose proof (keeps_foldM sign_requests (offer_entry lib wsm)
                  (fun acc x => keeps_offer_entry sign_requests (fun _ => eq_refl)
                                  lib wsm acc x) d ([], []) s) as K.
    rewrite Hloop in K. exact K.
  - pose proof (keeps_foldM trade_store (offer_entry lib wsm)
                  (fun acc x => keeps_offer_entry trade_store (fun _ => eq_refl)
                                  lib wsm acc x) d ([], []) s) as K.
    rewrite Hloop in K. exact K.
Qed.

Lemma offer_without_announcement_raises_witness :
  exists s1,
    create_offer_for_ids (Scenario.lib false) (Scenario.wsm Scenario.silent_ledger)
      [(1, -100)] (Scenario.world [])
    = (Raise IndexError, s1)
    /\ sign_requests s1 = []
    /\ trade_store s1 = [].
Proof.
  assert (E : exists coins s1,
             foldM (offer_entry (Scenario.lib false) (Scenario.wsm Scenario.silent_ledger))
                   [(1, -100)] ([], []) (Scenario.world [])
             = (Ok (coins, []), s1))
    by (vm_compute; eexists; eexists; reflexivity).
  destruct E as (coins & s1 & E). exists s1.
  destruct (offer_without_announcement_raises _ _ _ _ _ _ _ E eq_refl)
    as (_ & H1 & H2 & H3).
  split; [exact H1|]. split; [exact H2 | exact H3].
Defined.
